(** * Greep Market back office: the timezone-aware analytics engine

    A shallow embedding of the analytics core of the repository
    (utils/timezone.ts, the expense series of ExpenseService and the
    dashboard aggregator AnalyticsService) together with the properties
    the specification states about it.

    Conventions of the embedding.
    - A JavaScript string is a [string]; its code units are bytes, so
      [trim] and [toLowerCase] act on the ASCII range.
    - A JavaScript number is a rational [Q]; [NaN] and the infinities are
      explicit where a function can produce them ([jsnum]).
    - A [Date] is its time value, the milliseconds since the epoch, in [Z].
    - A time zone is known through its offset from UTC in minutes; the
      process has one ([serverOffset]) and every IANA name has one
      ([zoneOffset]).  Daylight saving changes are outside the model. *)

From Stdlib Require Import ZArith QArith Qround Lia List Ascii String Bool.
From Stdlib Require Import DecimalString Lqa Permutation Sorted.
From stdpp Require Import gmap strings.

Local Open Scope Z_scope.

(** ** JavaScript strings *)

Module JsString.

Definition chars (s : string) : list ascii := list_ascii_of_string s.
Definition ofChars (l : list ascii) : string := string_of_list_ascii l.

(** White space and line terminators of the ASCII range, as
    [String.prototype.trim] strips them. *)
Definition isWhiteSpace (c : ascii) : bool :=
  let n := N_of_ascii c in
  ((9 <=? n) && (n <=? 13))%N || (n =? 32)%N.

Fixpoint dropSpaces (l : list ascii) : list ascii :=
  match l with
  | [] => []
  | c :: l' => if isWhiteSpace c then dropSpaces l' else l
  end.

Definition trimChars (l : list ascii) : list ascii :=
  rev (dropSpaces (rev (dropSpaces l))).

Definition trim (s : string) : string := ofChars (trimChars (chars s)).

Definition isUpper (c : ascii) : bool :=
  let n := N_of_ascii c in ((65 <=? n) && (n <=? 90))%N.

Definition lowerChar (c : ascii) : ascii :=
  if isUpper c then ascii_of_N (N_of_ascii c + 32) else c.

Definition toLowerCase (s : string) : string :=
  ofChars (map lowerChar (chars s)).

(** [s.length] and [s.slice(0, n)]. *)
Definition length (s : string) : Z := Z.of_nat (String.length s).
Definition slice0 (n : nat) (s : string) : string :=
  ofChars (firstn n (chars s)).

(** [s.split(sep)] for a one-character separator. *)
Fixpoint splitChars (sep : ascii) (cur : list ascii) (l : list ascii)
  : list (list ascii) :=
  match l with
  | [] => [rev cur]
  | c :: l' =>
      if Ascii.eqb c sep then rev cur :: splitChars sep [] l'
      else splitChars sep (c :: cur) l'
  end.

Definition split (sep : ascii) (s : string) : list string :=
  map ofChars (splitChars sep [] (chars s)).

End JsString.

(** ** Payment-method normalisation (AnalyticsService.normalizePaymentMethod) *)

(** A [case] group of the [switch]: the labels that fall through to one
    [return]. *)
Definition inCases (key : string) (labels : list string) : bool :=
  existsb (String.eqb key) labels.

(** [method || 'unknown']: an absent method and the empty string are falsy. *)
Definition orUnknown (method : option string) : string :=
  match method with
  | None => "unknown"
  | Some s => if String.eqb s "" then "unknown" else s
  end.

Definition normalizePaymentMethod (method : option string) : string :=
  let key := JsString.toLowerCase (JsString.trim (orUnknown method)) in
  if inCases key ["card"; "pos"; "bank_card"; "debit_card"; "credit_card"]
  then "pos"
  else if inCases key ["transfer"; "naira_transfer"; "bank_transfer"]
  then "naira_transfer"
  else if inCases key ["crypto"; "crypto_payment"]
  then "crypto_payment"
  else if inCases key ["cash_on_delivery"; "cod"; "cash"]
  then "cash"
  else if String.eqb key "" then "unknown" else key.

(** ** JavaScript numbers *)

(** A number that may fail to be finite: the result of [Number(string)]. *)
Inductive jsnum : Type :=
| NaN
| Fin (q : Q)
| Infinity (negative : bool).

Module JsMath.

(** [Math.round]: the nearest integer, a tie going up. *)
Definition round (x : Q) : Z := Qfloor (x + (1 # 2)).

(** [Math.ceil]. *)
Definition ceil (x : Q) : Z := Qceiling x.

(** [ToIntegerOrInfinity] on a finite number: truncation towards zero. *)
Definition trunc (x : Q) : Z :=
  if Qle_bool 0 x then Qfloor x else Qceiling x.

Definition isZero (x : Q) : bool := Qeq_bool x 0.
Definition ltb (x y : Q) : bool := negb (Qle_bool y x).
Definition isPositive (x : Q) : bool := ltb 0 x.

(** [x || 0] on a finite number. *)
Definition orZero (x : Q) : Q := if isZero x then 0%Q else x.

End JsMath.

(** ** Percentage change (AnalyticsService.calculatePercentageChange) *)

Definition calculatePercentageChange (oldValue newValue : Q) : Q :=
  if JsMath.isZero oldValue then
    (if JsMath.isPositive newValue then 100 else 0)%Q
  else
    let percentageChange := (((newValue - oldValue) / oldValue) * 100)%Q in
    (inject_Z (JsMath.round (percentageChange * 100)) / 100)%Q.

(** ** ECMAScript time values and the calendar *)

Module JsDate.

Definition msPerDay : Z := 86400000.
Definition msPerHour : Z := 3600000.
Definition msPerMinute : Z := 60000.
Definition msPerSecond : Z := 1000.

Definition Day (t : Z) : Z := t / msPerDay.
Definition TimeWithinDay (t : Z) : Z := t mod msPerDay.

Definition isLeapYear (y : Z) : bool :=
  if negb (y mod 4 =? 0) then false
  else if negb (y mod 100 =? 0) then true
  else y mod 400 =? 0.

Definition DaysInYear (y : Z) : Z := if isLeapYear y then 366 else 365.

Definition DayFromYear (y : Z) : Z :=
  365 * (y - 1970) + (y - 1969) / 4 - (y - 1901) / 100 + (y - 1601) / 400.

(** The year whose first day is the last one not after day [d]: an
    estimate from the mean year length, corrected by at most one. *)
Definition YearFromDay (d : Z) : Z :=
  let y := 1970 + (400 * d) / 146097 in
  if d <? DayFromYear y then y - 1
  else if DayFromYear (y + 1) <=? d then y + 1
  else y.

Definition YearFromTime (t : Z) : Z := YearFromDay (Day t).
Definition InLeapYear (t : Z) : bool := isLeapYear (YearFromTime t).
Definition DayWithinYear (t : Z) : Z := Day t - DayFromYear (YearFromTime t).

(** The day of the year on which month [m] (0 = January) starts. *)
Definition monthStart (leap : bool) (m : Z) : Z :=
  let l := if leap then 1 else 0 in
  if m <=? 0 then 0
  else if m =? 1 then 31
  else if m =? 2 then 59 + l
  else if m =? 3 then 90 + l
  else if m =? 4 then 120 + l
  else if m =? 5 then 151 + l
  else if m =? 6 then 181 + l
  else if m =? 7 then 212 + l
  else if m =? 8 then 243 + l
  else if m =? 9 then 273 + l
  else if m =? 10 then 304 + l
  else if m =? 11 then 334 + l
  else 365 + l.

Definition monthOfYearDay (leap : bool) (d : Z) : Z :=
  if d <? monthStart leap 1 then 0
  else if d <? monthStart leap 2 then 1
  else if d <? monthStart leap 3 then 2
  else if d <? monthStart leap 4 then 3
  else if d <? monthStart leap 5 then 4
  else if d <? monthStart leap 6 then 5
  else if d <? monthStart leap 7 then 6
  else if d <? monthStart leap 8 then 7
  else if d <? monthStart leap 9 then 8
  else if d <? monthStart leap 10 then 9
  else if d <? monthStart leap 11 then 10
  else 11.

Definition MonthFromTime (t : Z) : Z :=
  monthOfYearDay (InLeapYear t) (DayWithinYear t).

Definition DateFromTime (t : Z) : Z :=
  DayWithinYear t - monthStart (InLeapYear t) (MonthFromTime t) + 1.

Definition HourFromTime (t : Z) : Z := (t / msPerHour) mod 24.

Definition MakeTime (hour min sec ms : Z) : Z :=
  hour * msPerHour + min * msPerMinute + sec * msPerSecond + ms.

(** [MakeDay]: months outside 0..11 carry into the year, and the date
    is an offset from the first of the month, so day 0 is the last day
    of the month before. *)
Definition MakeDay (year month date : Z) : Z :=
  let ym := year + month / 12 in
  let mn := month mod 12 in
  DayFromYear ym + monthStart (isLeapYear ym) mn + date - 1.

Definition MakeDate (day time : Z) : Z := day * msPerDay + time.

End JsDate.

(** ** [Number(string)] *)

Module JsNumber.

Definition digitOf (base : Z) (c : ascii) : option Z :=
  let n := Z.of_N (N_of_ascii c) in
  let v :=
    if (48 <=? n) && (n <=? 57) then n - 48
    else if (97 <=? n) && (n <=? 102) then n - 87
    else if (65 <=? n) && (n <=? 70) then n - 55
    else base in
  if v <? base then Some v else None.

(** The longest prefix of digits: its value continuing [acc], how many
    digits were read, and what follows. *)
Fixpoint readDigits (base : Z) (acc : Z) (n : nat) (l : list ascii)
  : Z * nat * list ascii :=
  match l with
  | [] => (acc, n, [])
  | c :: l' =>
      match digitOf base c with
      | Some v => readDigits base (acc * base + v) (S n) l'
      | None => (acc, n, l)
      end
  end.

Definition readSign (l : list ascii) : bool * list ascii :=
  match l with
  | "+"%char :: l' => (false, l')
  | "-"%char :: l' => (true, l')
  | _ => (false, l)
  end.

Definition pow10 (e : Z) : Q :=
  if 0 <=? e then inject_Z (10 ^ e) else (1 / inject_Z (10 ^ (- e)))%Q.

(** The exponent part, when one follows: [None] when it is malformed. *)
Definition readExponent (l : list ascii) : option Z :=
  match l with
  | [] => Some 0
  | c :: l' =>
      if Ascii.eqb c "e" || Ascii.eqb c "E" then
        let '(neg, l'') := readSign l' in
        match readDigits 10 0 0 l'' with
        | (_, O, _) => None
        | (v, S _, []) => Some (if neg then - v else v)
        | (_, S _, _ :: _) => None
        end
      else None
  end.

(** An unsigned decimal literal: digits, an optional fraction, an
    optional exponent; one digit at least before the exponent. *)
Definition readDecimal (l : list ascii) : option Q :=
  let '(ip, ni, rest) := readDigits 10 0 0 l in
  let '(fp, nf, rest') :=
    match rest with
    | "."%char :: r => readDigits 10 0 0 r
    | _ => (0, O, rest)
    end in
  if Nat.eqb (ni + nf) 0 then None
  else
    match readExponent rest' with
    | None => None
    | Some e =>
        Some ((inject_Z (ip * 10 ^ Z.of_nat nf + fp)
               / inject_Z (10 ^ Z.of_nat nf)) * pow10 e)%Q
    end.

Definition readRadix (base : Z) (l : list ascii) : jsnum :=
  match readDigits base 0 0 l with
  | (v, S _, []) => Fin (inject_Z v)
  | _ => NaN
  end.

Definition infinityChars : list ascii := JsString.chars "Infinity".

Definition listEqb (a b : list ascii) : bool :=
  String.eqb (JsString.ofChars a) (JsString.ofChars b).

(** [StringToNumber]: white space is stripped, the empty string is 0,
    then a radix literal without sign, or a signed decimal literal or
    [Infinity]; everything else is [NaN]. *)
Definition ofChars (l : list ascii) : jsnum :=
  match JsString.trimChars l with
  | [] => Fin 0
  | "0"%char :: c :: r =>
      if Ascii.eqb c "x" || Ascii.eqb c "X" then readRadix 16 r
      else if Ascii.eqb c "o" || Ascii.eqb c "O" then readRadix 8 r
      else if Ascii.eqb c "b" || Ascii.eqb c "B" then readRadix 2 r
      else match readDecimal ("0"%char :: c :: r) with
           | Some q => Fin q
           | None => NaN
           end
  | t =>
      let '(neg, body) := readSign t in
      if listEqb body infinityChars then Infinity neg
      else match readDecimal body with
           | Some q => Fin (if neg then - q else q)%Q
           | None => NaN
           end
  end.

Definition Number (s : string) : jsnum := ofChars (JsString.chars s).

Definition isNaN (x : jsnum) : bool :=
  match x with NaN => true | _ => false end.

End JsNumber.

(** ** The ledgers (models/Transaction, models/Expense, models/Product) *)

Inductive TxStatus : Type := pending | completed | cancelled | voided.

Definition statusName (s : TxStatus) : string :=
  match s with
  | pending => "pending"
  | completed => "completed"
  | cancelled => "cancelled"
  | voided => "voided"
  end.

Record TransactionItem : Type := {
  product_id : string;
  product_name : string;
  quantity : Q;
  unit_price : Q;
  total_price : Q
}.

(** The ledger is weakly typed: a stored amount can be [null], and the
    payment method and the order source can be missing. *)
Record Transaction : Type := {
  tx_id : string;
  tx_store : string;
  items : list TransactionItem;
  total_amount : option Q;
  payment_method : option string;
  tx_status : TxStatus;
  order_source : option string;
  created_at : Z
}.

Record Expense : Type := {
  ex_store : string;
  ex_date : Z;
  month_year : string;
  ex_product_name : string;
  ex_amount : Q;
  ex_payment_method : string;
  category : string
}.

Record Product : Type := {
  pr_store : string;
  pr_name : string;
  stock_quantity : Q;
  min_stock_level : Q
}.

(** ** Requests to the backing store *)

(** The condition a filter puts on [status]: one value, or [$in] a list. *)
Inductive StatusCond : Type :=
| StatusIs (s : string)
| StatusIn (l : list string).

(** A [$match] document over transactions.  A field that is [None] is
    absent from the document. *)
Record TxFilter : Type := {
  f_store : option string;
  f_status : option StatusCond;
  f_payment : option string;
  f_source : option string;
  f_gte : option Z;
  f_lte : option Z
}.

Record ExFilter : Type := {
  e_store : option string;
  e_gte : option Z;
  e_lte : option Z
}.

(** The shape of the pipeline that follows the [$match]. *)
Inductive TxPipeline : Type :=
| TxFacet (today monthly : TxFilter)
| TxFind (limit : option nat)
| TxTopProducts (limit : nat)
| TxTopProductsByNameAndPrice (limit : nat)
| TxTotal
| TxTotalAndCount
| TxCount
| TxByPayment
| TxByPaymentCounted
| TxBySource
| TxByDateString (format : string)
| TxByMonthSplit.

Inductive ExPipeline : Type :=
| ExCount
| ExTotal
| ExByCategory
| ExByPayment
| ExByMonthYear
| ExTopItems
| ExFind
| ExByDateString (format : string).

Inductive Query : Type :=
| QProducts (store : option string)
| QTransactions (f : TxFilter) (p : TxPipeline)
| QExpenses (f : ExFilter) (p : ExPipeline).

Definition DEFAULT_STATUSES : list string := ["completed"; "pending"].

Definition statusMatches (c : option StatusCond) (t : Transaction) : bool :=
  match c with
  | None => true
  | Some (StatusIs s) => String.eqb (statusName (tx_status t)) s
  | Some (StatusIn l) => existsb (String.eqb (statusName (tx_status t))) l
  end.

Definition fieldIs (want : option string) (have : option string) : bool :=
  match want with
  | None => true
  | Some v => match have with Some x => String.eqb x v | None => false end
  end.

Definition inWindow (gte lte : option Z) (t : Z) : bool :=
  match gte with Some a => a <=? t | None => true end
  && match lte with Some b => t <=? b | None => true end.

Definition txMatches (f : TxFilter) (t : Transaction) : bool :=
  fieldIs (f_store f) (Some (tx_store t))
  && statusMatches (f_status f) t
  && fieldIs (f_payment f) (payment_method t)
  && fieldIs (f_source f) (order_source t)
  && inWindow (f_gte f) (f_lte f) (created_at t).

Definition exMatches (f : ExFilter) (e : Expense) : bool :=
  fieldIs (e_store f) (Some (ex_store e))
  && inWindow (e_gte f) (e_lte f) (ex_date e).

(** ** Aggregation stages *)

Definition sumQ (l : list Q) : Q := fold_right Qplus 0%Q l.

Definition count {A : Type} (l : list A) : Z := Z.of_nat (List.length l).

(** [$sum: '$total_amount'] skips a value that is not a number, which is
    also what the guarded [$cond ... $toDouble ... 0] form computes. *)
Definition amountOf (t : Transaction) : Q :=
  match total_amount t with Some a => a | None => 0%Q end.

(** One group of a [$group] stage: its key, the sum and the number of
    documents. *)
Record Group (K : Type) : Type := {
  g_key : K;
  g_sum : Q;
  g_count : Z
}.
Arguments g_key {K} _.
Arguments g_sum {K} _.
Arguments g_count {K} _.

Section Grouping.
Context {A K : Type} (eqb : K -> K -> bool) (key : A -> K) (val : A -> Q).

Fixpoint bump (k : K) (v : Q) (gs : list (Group K)) : list (Group K) :=
  match gs with
  | [] => [{| g_key := k; g_sum := v; g_count := 1 |}]
  | g :: gs' =>
      if eqb k (g_key g)
      then {| g_key := g_key g; g_sum := g_sum g + v; g_count := g_count g + 1 |} :: gs'
      else g :: bump k v gs'
  end.

Definition groupBy (l : list A) : list (Group K) :=
  fold_left (fun gs x => bump (key x) (val x) gs) l [].
End Grouping.

(** A stable insertion sort, for the [$sort] stages. *)
Section Sorting.
Context {A : Type} (le : A -> A -> bool).

Fixpoint insertSorted (x : A) (l : list A) : list A :=
  match l with
  | [] => [x]
  | y :: l' => if le x y then x :: l else y :: insertSorted x l'
  end.

Definition sortBy (l : list A) : list A :=
  fold_right insertSorted [] l.
End Sorting.

Definition optEqb (a b : option string) : bool :=
  match a, b with
  | Some x, Some y => String.eqb x y
  | None, None => true
  | _, _ => false
  end.

(** ** Decimal output *)

Definition decimal (n : Z) : string :=
  NilZero.string_of_uint (N.to_uint (Z.to_N n)).

Fixpoint zeros (n : nat) : string :=
  match n with O => "" | S n' => String "0" (zeros n') end.

(** [String(n).padStart(width, '0')] for a number that is not negative. *)
Definition padStart0 (width : nat) (n : Z) : string :=
  let d := decimal n in
  zeros (width - String.length d) +:+ d.

Definition ymdString (y m d : Z) : string :=
  padStart0 4 y +:+ "-" +:+ padStart0 2 m +:+ "-" +:+ padStart0 2 d.

Definition ymString (y m : Z) : string :=
  padStart0 4 y +:+ "-" +:+ padStart0 2 m.

(** The calendar day and month of a time value seen at an offset of
    [offset] minutes from UTC. *)
Definition dayStringAt (offset t : Z) : string :=
  let lt := t + offset * JsDate.msPerMinute in
  ymdString (JsDate.YearFromTime lt) (JsDate.MonthFromTime lt + 1) (JsDate.DateFromTime lt).

Definition monthStringAt (offset t : Z) : string :=
  let lt := t + offset * JsDate.msPerMinute in
  ymString (JsDate.YearFromTime lt) (JsDate.MonthFromTime lt + 1).

Definition hourStringAt (offset t : Z) : string :=
  let lt := t + offset * JsDate.msPerMinute in
  dayStringAt offset t +:+ " " +:+ padStart0 2 (JsDate.HourFromTime lt) +:+ ":00".

(** [$dateToString] for the three formats the services use. *)
Definition dateToString (format : string) (offset t : Z) : string :=
  if String.eqb format "%Y-%m-%d" then dayStringAt offset t
  else if String.eqb format "%Y-%m" then monthStringAt offset t
  else if String.eqb format "%Y-%m-%d %H:00" then hourStringAt offset t
  else format.

(** ** The dashboard payload (interfaces of AnalyticsService) *)

Inductive DateInput : Type :=
| DateObject (t : Z)
| DateString (s : string).

Record DashboardFilters : Type := {
  dateRange : option string;
  paymentMethod : option string;
  orderSource : option string;
  status : option string;
  startDate : option DateInput;
  endDate : option DateInput;
  month : option Z;
  year : option Z
}.

Definition noFilters : DashboardFilters :=
  {| dateRange := None; paymentMethod := None; orderSource := None;
     status := None; startDate := None; endDate := None;
     month := None; year := None |}.

Record DateRange : Type := {
  start : Z;
  end_ : Z
}.

Record TopProduct : Type := {
  productId : string;
  productName : option string;
  quantitySold : Q;
  revenue : Q
}.

Record RecentTransaction : Type := {
  id : string;
  totalAmount : option Q;
  paymentMethod_ : option string;
  createdAt : Z
}.

Record MonthSales : Type := {
  ms_month : string;
  sales : Q;
  ms_transactions : Z;
  onlineSales : Q;
  inStoreSales : Q
}.

Record SalesPoint : Type := {
  period : string;
  sp_revenue : Q;
  transactions : Z
}.

Record ExpensePoint : Type := {
  ep_period : string;
  amount : Q;
  ep_count : Z
}.

Record ExpenseStats : Type := {
  totalExpenses_count : Z;
  totalAmount_ : Q;
  expensesByCategory : list (Group string);
  expensesByPaymentMethod : list (Group string);
  expensesByMonth : list (Group string);
  topExpenseItems : list (Group string)
}.

Record PaymentShare : Type := {
  method : option string;
  ps_count : Z;
  ps_amount : Q
}.

Record SalesAnalytics : Type := {
  totalRevenue : Q;
  sa_totalTransactions : Z;
  sa_averageTransactionValue : Q;
  salesByPeriod_ : list SalesPoint;
  sa_topProducts : list TopProduct;
  paymentMethodBreakdown : list PaymentShare
}.

Record DashboardMetrics : Type := {
  totalSales : Q;
  totalTransactions : Q;
  averageTransactionValue : Q;
  growthRate : Q;
  salesVsPreviousPeriod : Q;
  expensesVsPreviousPeriod : Q;
  profitVsPreviousPeriod : Q;
  transactionsVsPreviousPeriod : Q;
  salesVsYesterday : Q;
  expensesVsYesterday : Q;
  profitVsYesterday : Q;
  transactionsVsYesterday : Q;
  totalProducts : Z;
  lowStockItems : Z;
  todaySales : Q;
  monthlySales : Q;
  totalExpenses : Q;
  monthlyExpenses : Q;
  netProfit : Q;
  paymentMethods : gmap string Q;
  orderSources : gmap string Q;
  topProducts : list TopProduct;
  recentTransactions : list RecentTransaction;
  salesByMonth : list MonthSales;
  salesByPeriod : option (list SalesPoint);
  expensesByPeriod : list ExpensePoint;
  filterInfo : DateRange
}.

(** ** The world a request runs in *)

Inductive CacheRead : Type :=
| CacheFails
| CacheMiss
| CacheHit (m : DashboardMetrics).

Record World : Type := {
  (** minutes east of UTC of the zone the process runs in *)
  serverOffset : Z;
  (** minutes east of UTC of a named zone, for the runtime and for the
      backing store alike; the names the services use are known to both *)
  zoneOffset : string -> Z;
  (** [Date.parse] *)
  dateParse : string -> option Z;
  (** the successive readings of the clock *)
  clockAt : nat -> Z;
  transactionLedger : list Transaction;
  expenseLedger : list Expense;
  productCatalog : list Product;
  (** the requests the backing store rejects *)
  storeFails : Query -> bool;
  (** what [cache.get] finds under a store and a filter set *)
  cacheRead : string -> DashboardFilters -> CacheRead
}.

Inductive Error : Type :=
| InvalidMonth (m : Z)
| InvalidYear (y : Z)
| InvalidDateComponents
| InvalidDate
| RangeError
| StoreError (q : Query).

Inductive Outcome (A : Type) : Type :=
| Ok (a : A)
| Throw (e : Error).
Arguments Ok {A} a.
Arguments Throw {A} e.

Record LogEntry : Type := {
  message : string;
  cause : option Error
}.

(** What a computation leaves behind: how often it read the clock, what
    its [catch] blocks wrote with [logger.error], and the requests it
    sent to the backing store, the latest first. *)
Record Session : Type := {
  reads : nat;
  logged : list LogEntry;
  issued : list Query
}.

Definition freshSession : Session :=
  {| reads := 0; logged := []; issued := [] |}.

Definition M (A : Type) : Type := Session -> Outcome A * Session.

Definition ret {A : Type} (a : A) : M A := fun s => (Ok a, s).

Definition throw {A : Type} (e : Error) : M A := fun s => (Throw e, s).

Definition bind {A B : Type} (m : M A) (k : A -> M B) : M B :=
  fun s =>
    match m s with
    | (Ok a, s') => k a s'
    | (Throw e, s') => (Throw e, s')
    end.

(** [try { m } catch (error) { handler error }] *)
Definition tryCatch {A : Type} (m : M A) (handler : Error -> M A) : M A :=
  fun s =>
    match m s with
    | (Ok a, s') => (Ok a, s')
    | (Throw e, s') => handler e s'
    end.

Definition lift {A : Type} (o : Outcome A) : M A := fun s => (o, s).

Declare Scope monad_scope.
Delimit Scope monad_scope with monad.
Notation "'let*' x ':=' m 'in' k" :=
  (bind m (fun x => k))
  (at level 10, x pattern, m at level 100, k at level 200) : monad_scope.
Notation "m ';;' k" :=
  (bind m (fun _ => k))
  (at level 100, k at level 200, right associativity) : monad_scope.

(** [logger.error(msg, error)] *)
Definition logWith (msg : string) (e : option Error) : M unit :=
  fun s =>
    (Ok tt, {| reads := reads s;
               logged := {| message := msg; cause := e |} :: logged s;
               issued := issued s |}).

Definition logError (msg : string) (e : Error) : M unit := logWith msg (Some e).

(** ** The [Date] object of the process *)

Section LocalDates.
Variable w : World.

Definition LocalTZA : Z := serverOffset w * JsDate.msPerMinute.
Definition LocalTime (t : Z) : Z := t + LocalTZA.
Definition UTC (t : Z) : Z := t - LocalTZA.

(** [new Date(year, month, date, hours, minutes, seconds, ms)]: the
    fields are read in the zone of the process. *)
Definition localDate (y m d h mi s ms : Z) : Z :=
  let yr := if (0 <=? y) && (y <=? 99) then 1900 + y else y in
  UTC (JsDate.MakeDate (JsDate.MakeDay yr m d) (JsDate.MakeTime h mi s ms)).

(** [TimeClip]: a time value out of range is [NaN], an invalid date. *)
Definition timeClip (t : Z) : option Z :=
  if Z.abs t <=? 8640000000000000 then Some t else None.

Definition getFullYear (t : Z) : Z := JsDate.YearFromTime (LocalTime t).
Definition getMonth (t : Z) : Z := JsDate.MonthFromTime (LocalTime t).
Definition getDate (t : Z) : Z := JsDate.DateFromTime (LocalTime t).

Definition setDate (t : Z) (date : Z) : Z :=
  let lt := LocalTime t in
  UTC (JsDate.MakeDate
         (JsDate.MakeDay (JsDate.YearFromTime lt) (JsDate.MonthFromTime lt) date)
         (JsDate.TimeWithinDay lt)).

Definition setMonth (t : Z) (m : Z) : Z :=
  let lt := LocalTime t in
  UTC (JsDate.MakeDate
         (JsDate.MakeDay (JsDate.YearFromTime lt) m (JsDate.DateFromTime lt))
         (JsDate.TimeWithinDay lt)).

Definition setHours (t : Z) (h mi s ms : Z) : Z :=
  let lt := LocalTime t in
  UTC (JsDate.MakeDate (JsDate.Day lt) (JsDate.MakeTime h mi s ms)).

Definition setFullYear (t : Z) (y : Z) : Z :=
  let lt := LocalTime t in
  UTC (JsDate.MakeDate
         (JsDate.MakeDay y (JsDate.MonthFromTime lt) (JsDate.DateFromTime lt))
         (JsDate.TimeWithinDay lt)).

(** [new Date()] *)
Definition newDate : M Z :=
  fun s =>
    (Ok (clockAt w (reads s)),
     {| reads := S (reads s); logged := logged s; issued := issued s |}).

(** [date.toISOString().split('T')[0]] *)
Definition isoDateString (t : Z) : string :=
  let y := JsDate.YearFromTime t in
  let md := "-" +:+ padStart0 2 (JsDate.MonthFromTime t + 1)
            +:+ "-" +:+ padStart0 2 (JsDate.DateFromTime t) in
  if (0 <=? y) && (y <=? 9999) then padStart0 4 y +:+ md
  else (if y <? 0 then "-" else "+") +:+ padStart0 6 (Z.abs y) +:+ md.

(** [new Date(date.toLocaleString('en-US', { timeZone }))]: the wall
    clock of the zone, to the second, read back as a local time. *)
Definition inTimezone (tz : string) (t : Z) : Z :=
  let wall := t + zoneOffset w tz * JsDate.msPerMinute in
  UTC (wall - wall mod JsDate.msPerSecond).

(** ** utils/timezone.ts *)

Definition DEFAULT_TIMEZONE : string := "Europe/Nicosia".

Definition getStoreTimezone (storeId : option string) : string :=
  DEFAULT_TIMEZONE.

Inductive Boundary : Type := AtStart | AtEnd.

Definition datePortion (s : string) : string :=
  if 10 <? JsString.length s then JsString.slice0 10 s else s.

Definition component (parts : list jsnum) (i : nat) : jsnum :=
  nth i parts NaN.

Definition parseDateInTimezone (dateStr : string) (timezone : string)
    (boundary : Boundary) : Outcome Z :=
  let safeDateStr := datePortion dateStr in
  let parts := map JsNumber.Number (JsString.split "-" safeDateStr) in
  match component parts 0, component parts 1, component parts 2 with
  | Fin year, Fin month_, Fin day =>
      if JsMath.ltb year 1900 || JsMath.ltb 2100 year
         || JsMath.ltb month_ 1 || JsMath.ltb 12 month_
         || JsMath.ltb day 1 || JsMath.ltb 31 day
      then Throw InvalidDateComponents
      else
        let y := JsMath.trunc year in
        let m := JsMath.trunc (month_ - 1) in
        let d := JsMath.trunc day in
        let date :=
          match boundary with
          | AtStart => localDate y m d 0 0 0 0
          | AtEnd => localDate y m d 23 59 59 999
          end in
        match timeClip date with
        | Some t => Ok t
        | None => Throw InvalidDate
        end
  | _, _, _ => Throw InvalidDateComponents
  end.

Definition falsy (s : option string) : bool :=
  match s with
  | None => true
  | Some x => String.eqb x ""
  end.

Definition parseDateRange (startDateStr endDateStr : option string)
    (timezone : string) : option DateRange :=
  match startDateStr, endDateStr with
  | Some s, Some e =>
      if falsy startDateStr || falsy endDateStr then None
      else
        let normalizedStart := datePortion s in
        let normalizedEnd := datePortion e in
        match parseDateInTimezone normalizedStart timezone AtStart with
        | Throw _ => None
        | Ok startDate =>
            match parseDateInTimezone normalizedEnd timezone AtEnd with
            | Throw _ => None
            | Ok endDate => Some {| start := startDate; end_ := endDate |}
            end
        end
  | _, _ => None
  end.

Definition getTodayRange (timezone : string) : M DateRange :=
  (let* now := newDate in
   let today := localDate (getFullYear now) (getMonth now) (getDate now) 0 0 0 0 in
   ret {| start := localDate (getFullYear today) (getMonth today) (getDate today) 0 0 0 0;
          end_ := localDate (getFullYear today) (getMonth today) (getDate today) 23 59 59 999 |})%monad.

Definition getYesterdayRange (timezone : string) : M DateRange :=
  (let* yesterday := newDate in
   let yesterday := setDate yesterday (getDate yesterday - 1) in
   ret {| start := localDate (getFullYear yesterday) (getMonth yesterday)
                             (getDate yesterday) 0 0 0 0;
          end_ := localDate (getFullYear yesterday) (getMonth yesterday)
                            (getDate yesterday) 23 59 59 999 |})%monad.

Definition getThisMonthRange (timezone : string) : M DateRange :=
  (let* now := newDate in
   ret {| start := localDate (getFullYear now) (getMonth now) 1 0 0 0 0;
          end_ := localDate (getFullYear now) (getMonth now + 1) 0 23 59 59 999 |})%monad.

Definition getMonthYearRange (month_ year_ : Z) (timezone : string)
  : Outcome DateRange :=
  let monthIndex := month_ - 1 in
  if (month_ <? 1) || (12 <? month_) then Throw (InvalidMonth month_)
  else if (year_ <? 1900) || (2100 <? year_) then Throw (InvalidYear year_)
  else Ok {| start := localDate year_ monthIndex 1 0 0 0 0;
             end_ := localDate year_ (monthIndex + 1) 0 23 59 59 999 |}.

Definition getLastNDaysRange (days : Z) (timezone : string) : M DateRange :=
  (let* end0 := newDate in
   let* start0 := newDate in
   let start1 := setDate start0 (getDate start0 - days) in
   ret {| start := localDate (getFullYear start1) (getMonth start1) (getDate start1) 0 0 0 0;
          end_ := localDate (getFullYear end0) (getMonth end0) (getDate end0) 23 59 59 999 |})%monad.

Definition formatDateForTimezone (date : Z) (timezone : string) : string :=
  dayStringAt (zoneOffset w timezone) date.

(** [now.toISOString().split('T')[0]]: the [timezone] is not looked at. *)
Definition getCurrentDateString (timezone : string) : M string :=
  (let* now := newDate in ret (isoDateString now))%monad.

End LocalDates.

(** ** ExpenseService *)

Section Services.
Variable w : World.

(** One request to the backing store: it is recorded, and it is
    answered unless the store rejects it. *)
Definition request {A : Type} (q : Query) (answer : A) : M A :=
  fun s =>
    let s' := {| reads := reads s; logged := logged s; issued := q :: issued s |} in
    if storeFails w q then (Throw (StoreError q), s') else (Ok answer, s').

(** [Promise.all] of two members: both run, in the order written, and
    the first rejection in that order is the result. *)
Definition both {A B : Type} (ma : M A) (mb : M B) : M (A * B) :=
  fun s =>
    let '(oa, s1) := ma s in
    let '(ob, s2) := mb s1 in
    (match oa, ob with
     | Ok a, Ok b => Ok (a, b)
     | Throw e, _ => Throw e
     | Ok _, Throw e => Throw e
     end, s2).

(** [x ? { store_id: x } : {}] and the other tests on a string that
    may be absent or empty. *)
Definition truthy (s : option string) : option string :=
  match s with
  | Some x => if String.eqb x "" then None else Some x
  | None => None
  end.

Definition matchingExpenses (f : ExFilter) : list Expense :=
  filter (exMatches f) (expenseLedger w).

Definition groupExpenses (key : Expense -> string) (f : ExFilter)
  : list (Group string) :=
  groupBy String.eqb key ex_amount (matchingExpenses f).

Definition byKeyAscending (a b : Group string) : bool :=
  String.leb (g_key a) (g_key b).
Definition byKeyDescending (a b : Group string) : bool :=
  String.leb (g_key b) (g_key a).
Definition bySumDescending (a b : Group string) : bool :=
  Qle_bool (g_sum b) (g_sum a).

Definition toExpensePoint (g : Group string) : ExpensePoint :=
  {| ep_period := g_key g; amount := g_sum g; ep_count := g_count g |}.

(** The grouped sum keyed by the local calendar string of the store. *)
Definition expenseSeriesOf (f : ExFilter) (format timezone : string)
  : list ExpensePoint :=
  map toExpensePoint
    (sortBy byKeyAscending
       (groupExpenses
          (fun e => dateToString format (zoneOffset w timezone) (ex_date e)) f)).

Definition daysBetween (startDate endDate : Z) : Z :=
  JsMath.ceil (inject_Z (endDate - startDate) / inject_Z JsDate.msPerDay).

(** The body of [while (cursor <= end) { ...; cursor.setDate(cursor.getDate() + 1) }]:
    [fuel] bounds the number of rounds. *)
Fixpoint fillExpenseDays (fuel : nat) (cursor end0 : Z) (timezone : string)
    (map_ : gmap string (Q * Z)) : list ExpensePoint :=
  match fuel with
  | O => []
  | S fuel' =>
      if cursor <=? end0 then
        let key := formatDateForTimezone w cursor timezone in
        let v := match map_ !! key with Some v => v | None => (0%Q, 0) end in
        {| ep_period := key; amount := fst v; ep_count := snd v |}
          :: fillExpenseDays fuel' (setDate w cursor (getDate w cursor + 1)) end0 timezone map_
      else []
  end.

(** Rounds enough for a cursor that gains a day each round. *)
Definition dayRounds (cursor end0 : Z) : nat :=
  Z.to_nat ((end0 - cursor) / JsDate.msPerDay + 1).

Definition getExpenseSeries (startDate endDate : Z) (storeId : option string)
  : M (list ExpensePoint) :=
  tryCatch
    (let filter := {| e_store := truthy storeId;
                      e_gte := Some startDate; e_lte := Some endDate |} in
     let daysDiff := daysBetween startDate endDate in
     let isDaily := daysDiff <=? 31 in
     if isDaily then
       let timezone := getStoreTimezone storeId in
       let* series :=
         request (QExpenses filter (ExByDateString "%Y-%m-%d"))
                 (expenseSeriesOf filter "%Y-%m-%d" timezone) in
       let map_ : gmap string (Q * Z) :=
         fold_left (fun m p => <[ep_period p := (amount p, ep_count p)]> m) series ∅ in
       let startLocal :=
         localDate w (getFullYear w startDate) (getMonth w startDate) (getDate w startDate) 0 0 0 0 in
       let endLocal :=
         localDate w (getFullYear w endDate) (getMonth w endDate) (getDate w endDate) 0 0 0 0 in
       let cursor := startLocal in
       let end0 := endLocal in
       ret (fillExpenseDays (dayRounds cursor end0) cursor end0 timezone map_)
     else
       let timezone := getStoreTimezone storeId in
       let* series :=
         request (QExpenses filter (ExByDateString "%Y-%m"))
                 (expenseSeriesOf filter "%Y-%m" timezone) in
       ret series)%monad
    (fun error =>
       (logError "Error getting expense series:" error ;; ret [])%monad).

Definition getExpenseStats (storeId : option string) (startDate endDate : option Z)
  : M ExpenseStats :=
  tryCatch
    (let filter := {| e_store := truthy storeId; e_gte := startDate; e_lte := endDate |} in
     let* (totalExpenses, (totalAmountResult, (categoryStats,
            (paymentMethodStats, (monthlyStats, topItems))))) :=
       both (request (QExpenses filter ExCount) (count (matchingExpenses filter)))
      (both (request (QExpenses filter ExTotal)
               (match matchingExpenses filter with
                | [] => None
                | l => Some (sumQ (map ex_amount l))
                end))
      (both (request (QExpenses filter ExByCategory) (groupExpenses category filter))
      (both (request (QExpenses filter ExByPayment) (groupExpenses ex_payment_method filter))
      (both (request (QExpenses filter ExByMonthYear)
               (firstn 12 (sortBy byKeyDescending (groupExpenses month_year filter))))
            (request (QExpenses filter ExTopItems)
               (firstn 10 (sortBy bySumDescending (groupExpenses ex_product_name filter)))))))) in
     ret {| totalExpenses_count := totalExpenses;
            totalAmount_ := match totalAmountResult with
                            | Some total => JsMath.orZero total
                            | None => 0%Q
                            end;
            expensesByCategory := categoryStats;
            expensesByPaymentMethod := paymentMethodStats;
            expensesByMonth := monthlyStats;
            topExpenseItems := topItems |})%monad
    (fun error =>
       (logError "Error getting expense stats:" error ;; throw error)%monad).

Definition laterFirst (a b : Expense) : bool := ex_date b <=? ex_date a.

Definition getExpensesByDateRange (startDate endDate : Z) (storeId : option string)
  : M (list Expense) :=
  tryCatch
    (let filter := {| e_store := truthy storeId;
                      e_gte := Some startDate; e_lte := Some endDate |} in
     let* expenses :=
       request (QExpenses filter ExFind) (sortBy laterFirst (matchingExpenses filter)) in
     ret expenses)%monad
    (fun error =>
       (logError "Error getting expenses by date range:" error ;; throw error)%monad).

(** ** AnalyticsService: filters *)

Definition matchingTransactions (f : TxFilter) : list Transaction :=
  filter (txMatches f) (transactionLedger w).

(** [if (filters.status && filters.status !== 'all') ... else ...] *)
Definition statusCondition (status_ : option string) : StatusCond :=
  match truthy status_ with
  | Some s => if String.eqb s "all" then StatusIn DEFAULT_STATUSES else StatusIs s
  | None => StatusIn DEFAULT_STATUSES
  end.

(** [if (filters.x && filters.x !== 'all') filter.x = filters.x] *)
Definition unlessAll (v : option string) : option string :=
  match truthy v with
  | Some x => if String.eqb x "all" then None else Some x
  | None => None
  end.

(** A number that is present and neither 0 nor [NaN]. *)
Definition truthyNumber (n : option Z) : option Z :=
  match n with
  | Some v => if v =? 0 then None else Some v
  | None => None
  end.

(** A [Date] is truthy; a string is truthy unless empty. *)
Definition truthyDate (d : option DateInput) : option DateInput :=
  match d with
  | Some (DateString s) => if String.eqb s "" then None else d
  | Some (DateObject _) => d
  | None => None
  end.

Definition getDaysFromDateRange (dateRange_ : string) : Z :=
  if String.eqb dateRange_ "7d" then 7
  else if String.eqb dateRange_ "30d" then 30
  else if String.eqb dateRange_ "90d" then 90
  else if String.eqb dateRange_ "1y" then 365
  else 30.

Definition dateInputString (d : DateInput) : string :=
  match d with
  | DateObject t => isoDateString t
  | DateString s => s
  end.

(** [getDateFilter]: the window the filters name, if they name one. *)
Definition getDateFilter (filters : option DashboardFilters) (timezone : string)
  : M (option DateRange) :=
  match filters with
  | None => ret None
  | Some f =>
      (let* fromMonth :=
         match truthyNumber (month f), truthyNumber (year f),
               truthyDate (startDate f), truthyDate (endDate f) with
         | Some m, Some y, None, None =>
             match getMonthYearRange w m y timezone with
             | Ok monthYearRange => ret (Some monthYearRange)
             | Throw error =>
                 logError "Error creating month/year range:" error ;; ret None
             end
         | _, _, _, _ => ret None
         end in
       match fromMonth with
       | Some r => ret (Some r)
       | None =>
           match truthy (dateRange f) with
           | Some token =>
               if String.eqb token "today" then
                 let* r := getTodayRange w timezone in ret (Some r)
               else if String.eqb token "this_month" then
                 let* r := getThisMonthRange w timezone in ret (Some r)
               else if String.eqb token "7d" then
                 let* r := getLastNDaysRange w 7 timezone in ret (Some r)
               else if String.eqb token "30d" then
                 let* r := getLastNDaysRange w 30 timezone in ret (Some r)
               else if String.eqb token "90d" then
                 let* r := getLastNDaysRange w 90 timezone in ret (Some r)
               else if String.eqb token "1y" then
                 let* r := getLastNDaysRange w 365 timezone in ret (Some r)
               else ret None
           | None =>
               match truthyDate (startDate f), truthyDate (endDate f) with
               | Some sd, Some ed =>
                   ret (parseDateRange w (Some (dateInputString sd))
                                         (Some (dateInputString ed)) timezone)
               | _, _ => ret None
               end
           end
       end)%monad
  end.

(** The filter the ranking, the monthly chart and the comparisons
    build: store, status, payment method and order source. *)
Definition baseFilterOf (storeId : option string) (filters : option DashboardFilters)
    (withoutFilters : StatusCond) : TxFilter :=
  match filters with
  | Some f =>
      {| f_store := truthy storeId;
         f_status := Some (statusCondition (status f));
         f_payment := unlessAll (paymentMethod f);
         f_source := unlessAll (orderSource f);
         f_gte := None; f_lte := None |}
  | None =>
      {| f_store := truthy storeId;
         f_status := Some withoutFilters;
         f_payment := None; f_source := None;
         f_gte := None; f_lte := None |}
  end.

Definition within (f : TxFilter) (gte lte : option Z) : TxFilter :=
  {| f_store := f_store f; f_status := f_status f;
     f_payment := f_payment f; f_source := f_source f;
     f_gte := gte; f_lte := lte |}.

(** ** AnalyticsService: rankings and charts *)

Fixpoint bumpProduct (named priced : bool) (it : TransactionItem)
    (l : list TopProduct) : list TopProduct :=
  let gain := if priced then (quantity it * unit_price it)%Q else 0%Q in
  match l with
  | [] => [{| productId := product_id it;
              productName := if named then Some (product_name it) else None;
              quantitySold := quantity it;
              revenue := gain |}]
  | p :: l' =>
      if String.eqb (product_id it) (productId p)
      then {| productId := productId p; productName := productName p;
              quantitySold := quantitySold p + quantity it;
              revenue := revenue p + gain |} :: l'
      else p :: bumpProduct named priced it l'
  end.

Definition byRevenueDescending (a b : TopProduct) : bool :=
  Qle_bool (revenue b) (revenue a).

(** [$unwind: '$items'], [$group] by product, [$sort] by revenue,
    [$limit].  [named] and [priced] say whether the fields the stage
    reads for the name and the price exist on a line item. *)
Definition topProductsOf (named priced : bool) (f : TxFilter) (limit : nat)
  : list TopProduct :=
  firstn limit
    (sortBy byRevenueDescending
       (fold_left (fun acc it => bumpProduct named priced it acc)
                  (flat_map items (matchingTransactions f)) [])).

Definition getTopProducts (storeId : option string) (limit : nat)
    (filters : option DashboardFilters) : M (list TopProduct) :=
  tryCatch
    (let base := baseFilterOf storeId filters (StatusIn DEFAULT_STATUSES) in
     let* dateFilter :=
       match filters with
       | Some _ =>
           let timezone := getStoreTimezone storeId in
           getDateFilter filters timezone
       | None => ret None
       end in
     let matchFilter :=
       match dateFilter with
       | Some r => within base (Some (start r)) (Some (end_ r))
       | None => base
       end in
     let* topProducts_ :=
       request (QTransactions matchFilter (TxTopProducts limit))
               (topProductsOf true true matchFilter limit) in
     ret topProducts_)%monad
    (fun error =>
       (logError "Error getting top products:" error ;; ret [])%monad).

Definition isSource (name : string) (t : Transaction) : bool :=
  match order_source t with
  | Some x => String.eqb x name
  | None => false
  end.

Fixpoint bumpMonth (key : string) (t : Transaction) (l : list MonthSales)
  : list MonthSales :=
  let a := amountOf t in
  let online := if isSource "online" t then a else 0%Q in
  let inStore :=
    if isSource "in-store" t || match order_source t with None => true | _ => false end
    then a else 0%Q in
  match l with
  | [] => [{| ms_month := key; sales := a; ms_transactions := 1;
              onlineSales := online; inStoreSales := inStore |}]
  | m :: l' =>
      if String.eqb key (ms_month m)
      then {| ms_month := key; sales := sales m + a;
              ms_transactions := ms_transactions m + 1;
              onlineSales := onlineSales m + online;
              inStoreSales := inStoreSales m + inStore |} :: l'
      else m :: bumpMonth key t l'
  end.

Definition byMonthAscending (a b : MonthSales) : bool :=
  String.leb (ms_month a) (ms_month b).

Definition salesByMonthOf (f : TxFilter) (timezone : string) : list MonthSales :=
  sortBy byMonthAscending
    (fold_left
       (fun acc t => bumpMonth (monthStringAt (zoneOffset w timezone) (created_at t)) t acc)
       (matchingTransactions f) []).

Definition getSalesByMonth (storeId : option string)
    (filters : option DashboardFilters) : M (list MonthSales) :=
  tryCatch
    (let timezone := getStoreTimezone storeId in
     let* now := newDate w in
     let nowInTimezone := inTimezone w timezone now in
     let twelveMonthsAgo :=
       setHours w (setDate w (setMonth w nowInTimezone (getMonth w nowInTimezone - 12)) 1)
                0 0 0 0 in
     let endDate_ := setHours w nowInTimezone 23 59 59 999 in
     let matchFilter :=
       within (baseFilterOf storeId filters (StatusIn DEFAULT_STATUSES))
              (Some twelveMonthsAgo) (Some endDate_) in
     let* salesByMonth_ :=
       request (QTransactions matchFilter TxByMonthSplit)
               (salesByMonthOf matchFilter timezone) in
     ret salesByMonth_)%monad
    (fun error =>
       (logError "Error getting sales by month:" error ;; ret [])%monad).

(** ** AnalyticsService: comparisons *)

(** [result[0]?.total || 0] for a [$group] with [_id: null]: there is
    a group only when a document matched. *)
Definition totalOf (f : TxFilter) : option Q :=
  match matchingTransactions f with
  | [] => None
  | l => Some (sumQ (map amountOf l))
  end.

Definition orZeroOpt (x : option Q) : Q :=
  match x with
  | Some v => JsMath.orZero v
  | None => 0%Q
  end.

Record DeltaMetrics : Type := {
  salesDelta : Q;
  expensesDelta : Q;
  profitDelta : Q;
  transactionsDelta : Q
}.

Definition zeroDeltas : DeltaMetrics :=
  {| salesDelta := 0; expensesDelta := 0; profitDelta := 0; transactionsDelta := 0 |}.

Definition expenseTotal (l : list Expense) : Q :=
  fold_left (fun sum expense => (sum + ex_amount expense)%Q) l 0%Q.

Definition calculateVsYesterdayMetrics (storeId : option string)
    (filters : option DashboardFilters) : M DeltaMetrics :=
  tryCatch
    (let timezone := getStoreTimezone storeId in
     let* todayRange := getTodayRange w timezone in
     let yesterday := setDate w (start todayRange) (getDate w (start todayRange) - 1) in
     let yesterdayEnd := setDate w (end_ todayRange) (getDate w (end_ todayRange) - 1) in
     let baseFilter := baseFilterOf storeId filters (StatusIs "completed") in
     let todayFilter := within baseFilter (Some (start todayRange)) (Some (end_ todayRange)) in
     let yesterdayFilter := within baseFilter (Some yesterday) (Some yesterdayEnd) in
     let* (todaySales_, (todayTransactions, todayExpenses)) :=
       both (request (QTransactions todayFilter TxTotal) (totalOf todayFilter))
      (both (request (QTransactions todayFilter TxCount)
                     (count (matchingTransactions todayFilter)))
            (getExpensesByDateRange (start todayRange) (end_ todayRange) storeId)) in
     let* (yesterdaySales, (yesterdayTransactions, yesterdayExpenses)) :=
       both (request (QTransactions yesterdayFilter TxTotal) (totalOf yesterdayFilter))
      (both (request (QTransactions yesterdayFilter TxCount)
                     (count (matchingTransactions yesterdayFilter)))
            (getExpensesByDateRange yesterday yesterdayEnd storeId)) in
     let todaySalesTotal := orZeroOpt todaySales_ in
     let yesterdaySalesTotal := orZeroOpt yesterdaySales in
     let todayExpensesTotal := expenseTotal todayExpenses in
     let yesterdayExpensesTotal := expenseTotal yesterdayExpenses in
     let todayTransactionsCount := inject_Z todayTransactions in
     let yesterdayTransactionsCount := inject_Z yesterdayTransactions in
     let todayProfit := (todaySalesTotal - todayExpensesTotal)%Q in
     let yesterdayProfit := (yesterdaySalesTotal - yesterdayExpensesTotal)%Q in
     ret {| salesDelta := calculatePercentageChange yesterdaySalesTotal todaySalesTotal;
            expensesDelta := calculatePercentageChange yesterdayExpensesTotal todayExpensesTotal;
            profitDelta := calculatePercentageChange yesterdayProfit todayProfit;
            transactionsDelta :=
              calculatePercentageChange yesterdayTransactionsCount todayTransactionsCount |})%monad
    (fun error =>
       (logError "Error calculating vs yesterday metrics:" error ;; ret zeroDeltas)%monad).

(** [d instanceof Date ? d : new Date(d)]; an invalid date that would
    reach a request is the request failing. *)
Definition asDate (d : DateInput) : M Z :=
  match d with
  | DateObject t => ret t
  | DateString s =>
      match dateParse w s with
      | Some t => ret t
      | None => throw InvalidDate
      end
  end.

(** The two windows a comparison is made between. *)
Record Periods : Type := {
  currentPeriod : DateRange;
  previousPeriod : DateRange
}.

(** Custom dates: the window of the same length that ends one
    millisecond before the current one starts. *)
Definition customPeriods (sd ed : DateInput) : M Periods :=
  (let* currentPeriodStart := asDate sd in
   let* currentPeriodEnd := asDate ed in
   let periodDurationMs := currentPeriodEnd - currentPeriodStart in
   let previousPeriodEnd := currentPeriodStart - 1 in
   let previousPeriodStart := previousPeriodEnd - periodDurationMs in
   ret {| currentPeriod := {| start := currentPeriodStart; end_ := currentPeriodEnd |};
          previousPeriod := {| start := previousPeriodStart; end_ := previousPeriodEnd |} |})%monad.

Definition tokenPeriods (token timezone : string) : M Periods :=
  (let days := getDaysFromDateRange token in
   let* currentRange := getLastNDaysRange w days timezone in
   let* previousRange := getLastNDaysRange w (days * 2) timezone in
   ret {| currentPeriod := currentRange;
          previousPeriod := {| start := start previousRange;
                               end_ := start currentRange - 1 |} |})%monad.

Definition monthlyPeriods (timezone : string) : M Periods :=
  (let* monthRange := getThisMonthRange w timezone in
   let lastMonth := setMonth w (start monthRange) (getMonth w (start monthRange) - 1) in
   let lastMonthEnd := start monthRange - 1 in
   ret {| currentPeriod := monthRange;
          previousPeriod :=
            {| start := localDate w (getFullYear w lastMonth) (getMonth w lastMonth) 1 0 0 0 0;
               end_ := lastMonthEnd |} |})%monad.

(** Month and year: the calendar month before, December of the year
    before for January. *)
Definition monthYearPeriods (m y : Z) (timezone : string) : M Periods :=
  (let* currentMonthRange := lift (getMonthYearRange w m y timezone) in
   let previousMonth := m - 1 in
   let previousYear := y in
   let '(previousMonth, previousYear) :=
     if previousMonth <? 1 then (12, y - 1) else (previousMonth, previousYear) in
   let* previousMonthRange :=
     lift (getMonthYearRange w previousMonth previousYear timezone) in
   ret {| currentPeriod := currentMonthRange;
          previousPeriod := previousMonthRange |})%monad.

Definition growthPeriods (filters : option DashboardFilters) (timezone : string)
  : M Periods :=
  match filters with
  | Some f =>
      match truthyDate (startDate f), truthyDate (endDate f) with
      | Some sd, Some ed => customPeriods sd ed
      | _, _ =>
          match truthy (dateRange f) with
          | Some token => tokenPeriods token timezone
          | None => monthlyPeriods timezone
          end
      end
  | None => monthlyPeriods timezone
  end.

Definition calculateGrowthRate (storeId : option string)
    (filters : option DashboardFilters) : M Q :=
  tryCatch
    (let timezone := getStoreTimezone storeId in
     let* p := growthPeriods filters timezone in
     let baseFilter := baseFilterOf storeId filters (StatusIn DEFAULT_STATUSES) in
     let currentFilter :=
       within baseFilter (Some (start (currentPeriod p))) (Some (end_ (currentPeriod p))) in
     let previousFilter :=
       within baseFilter (Some (start (previousPeriod p))) (Some (end_ (previousPeriod p))) in
     let* (currentPeriodSales, previousPeriodSales) :=
       both (request (QTransactions currentFilter TxTotal) (totalOf currentFilter))
            (request (QTransactions previousFilter TxTotal) (totalOf previousFilter)) in
     let currentTotal := orZeroOpt currentPeriodSales in
     let previousTotal := orZeroOpt previousPeriodSales in
     if JsMath.isZero previousTotal then
       ret (if JsMath.isPositive currentTotal then 100 else 0)%Q
     else
       let growthRate_ := (((currentTotal - previousTotal) / previousTotal) * 100)%Q in
       ret (inject_Z (JsMath.round (growthRate_ * 100)) / 100)%Q)%monad
    (fun error =>
       (logError "Error calculating growth rate:" error ;; ret 0%Q)%monad).

Definition previousPeriods (filters : option DashboardFilters) (timezone : string)
  : M Periods :=
  match filters with
  | Some f =>
      match truthyNumber (month f), truthyNumber (year f) with
      | Some m, Some y => monthYearPeriods m y timezone
      | _, _ =>
          match truthyDate (startDate f), truthyDate (endDate f) with
          | Some sd, Some ed => customPeriods sd ed
          | _, _ =>
              match truthy (dateRange f) with
              | Some token => tokenPeriods token timezone
              | None => monthlyPeriods timezone
              end
          end
      end
  | None => monthlyPeriods timezone
  end.

Definition calculateVsPreviousPeriodMetrics (storeId : option string)
    (filters : option DashboardFilters)
    (currentSales currentTransactions currentExpenses : Q) : M DeltaMetrics :=
  tryCatch
    (let timezone := getStoreTimezone storeId in
     let* p := previousPeriods filters timezone in
     let previousPeriodStart := start (previousPeriod p) in
     let previousPeriodEnd := end_ (previousPeriod p) in
     let baseFilter := baseFilterOf storeId filters (StatusIn DEFAULT_STATUSES) in
     let previousFilter :=
       within baseFilter (Some previousPeriodStart) (Some previousPeriodEnd) in
     let* (previousPeriodTransactions, previousPeriodExpenses) :=
       both (request (QTransactions previousFilter TxTotalAndCount)
               (match matchingTransactions previousFilter with
                | [] => None
                | l => Some (sumQ (map amountOf l), count l)
                end))
            (getExpenseStats storeId (Some previousPeriodStart) (Some previousPeriodEnd)) in
     let previousSales := orZeroOpt (option_map fst previousPeriodTransactions) in
     let previousTransactions :=
       orZeroOpt (option_map (fun r => inject_Z (snd r)) previousPeriodTransactions) in
     let previousExpenses := JsMath.orZero (totalAmount_ previousPeriodExpenses) in
     let previousProfit := (previousSales - previousExpenses)%Q in
     let currentProfit := (currentSales - currentExpenses)%Q in
     ret {| salesDelta := calculatePercentageChange previousSales currentSales;
            expensesDelta := calculatePercentageChange previousExpenses currentExpenses;
            profitDelta := calculatePercentageChange previousProfit currentProfit;
            transactionsDelta :=
              calculatePercentageChange previousTransactions currentTransactions |})%monad
    (fun error =>
       (logError "Error calculating vs previous period metrics:" error ;; ret zeroDeltas)%monad).

(** ** AnalyticsService: sales series *)

Definition toSalesPoint (g : Group string) : SalesPoint :=
  {| period := g_key g; sp_revenue := g_sum g; transactions := g_count g |}.

Definition salesSeriesOf (f : TxFilter) (format timezone : string)
  : list SalesPoint :=
  map toSalesPoint
    (sortBy byKeyAscending
       (groupBy String.eqb
          (fun t => dateToString format (zoneOffset w timezone) (created_at t))
          amountOf (matchingTransactions f))).

Definition salesMapOf (series : list SalesPoint) : gmap string SalesPoint :=
  fold_left (fun m item => <[period item := item]> m) series ∅.

Definition salesPointAt (m : gmap string SalesPoint) (key : string) : SalesPoint :=
  match m !! key with
  | Some item => {| period := key; sp_revenue := sp_revenue item;
                    transactions := transactions item |}
  | None => {| period := key; sp_revenue := 0; transactions := 0 |}
  end.

Fixpoint fillSalesDays (fuel : nat) (cursor endLocal : Z) (timezone : string)
    (m : gmap string SalesPoint) : list SalesPoint :=
  match fuel with
  | O => []
  | S fuel' =>
      if cursor <=? endLocal then
        let periodKey := formatDateForTimezone w cursor timezone in
        salesPointAt m periodKey
          :: fillSalesDays fuel' (setDate w cursor (getDate w cursor + 1)) endLocal timezone m
      else []
  end.

(** [`${current.getFullYear()}-${String(current.getMonth() + 1).padStart(2, '0')}`] *)
Definition monthKeyOf (current : Z) : string :=
  decimal (getFullYear w current) +:+ "-" +:+ padStart0 2 (getMonth w current + 1).

Fixpoint fillSalesMonths (fuel : nat) (current endMonth : Z)
    (m : gmap string SalesPoint) : list SalesPoint :=
  match fuel with
  | O => []
  | S fuel' =>
      if current <=? endMonth then
        salesPointAt m (monthKeyOf current)
          :: fillSalesMonths fuel' (setMonth w current (getMonth w current + 1)) endMonth m
      else []
  end.

(** Rounds enough for a cursor that gains a month, 28 days at least,
    each round. *)
Definition monthRounds (current endMonth : Z) : nat :=
  Z.to_nat ((endMonth - current) / (28 * JsDate.msPerDay) + 1).

Definition getSalesByPeriod (storeId : option string) (period_ : option string)
  : M (list SalesPoint) :=
  tryCatch
    (let timezone := getStoreTimezone storeId in
     let base := {| f_store := truthy storeId;
                    f_status := Some (StatusIn DEFAULT_STATUSES);
                    f_payment := None; f_source := None;
                    f_gte := None; f_lte := None |} in
     let case (name : string) :=
       match period_ with Some x => String.eqb x name | None => false end in
     let* (dateRange_, dateFormat, fillMissingDays) :=
       if case "today" then
         let* r := getTodayRange w timezone in ret (r, "%Y-%m-%d %H:00", false)
       else if case "week" || case "7d" then
         let* r := getLastNDaysRange w 7 timezone in ret (r, "%Y-%m-%d", true)
       else if case "month" || case "30d" then
         let* r := getLastNDaysRange w 30 timezone in ret (r, "%Y-%m-%d", true)
       else if case "90d" then
         let* r := getLastNDaysRange w 90 timezone in ret (r, "%Y-%m-%d", true)
       else if case "1y" then
         let* r := getLastNDaysRange w 365 timezone in ret (r, "%Y-%m", false)
       else
         let* r := getLastNDaysRange w 30 timezone in ret (r, "%Y-%m", false) in
     let matchFilter := within base (Some (start dateRange_)) (Some (end_ dateRange_)) in
     let* aggregated :=
       request (QTransactions matchFilter (TxByDateString dateFormat))
               (salesSeriesOf matchFilter dateFormat timezone) in
     if negb fillMissingDays then ret aggregated
     else
       let resultsMap := salesMapOf aggregated in
       let startLocal :=
         localDate w (getFullYear w (start dateRange_)) (getMonth w (start dateRange_))
                   (getDate w (start dateRange_)) 0 0 0 0 in
       let endLocal :=
         localDate w (getFullYear w (end_ dateRange_)) (getMonth w (end_ dateRange_))
                   (getDate w (end_ dateRange_)) 0 0 0 0 in
       let cursor := startLocal in
       ret (fillSalesDays (dayRounds cursor endLocal) cursor endLocal timezone resultsMap))%monad
    (fun error =>
       (logError "Error getting sales by period:" error ;; ret [])%monad).

Definition laterTransactionFirst (a b : Transaction) : bool :=
  created_at b <=? created_at a.

Definition byCountDescending (a b : PaymentShare) : bool :=
  ps_count b <=? ps_count a.

Definition paymentBreakdownOf (f : TxFilter) : list PaymentShare :=
  sortBy byCountDescending
    (map (fun g => {| method := Some (g_key g); ps_count := g_count g; ps_amount := g_sum g |})
         (groupBy String.eqb
            (fun t => match payment_method t with Some x => x | None => "Unknown" end)
            amountOf (matchingTransactions f))).

Definition getSalesAnalyticsByDateRange (storeId : option string)
    (startDate_ endDate_ : Z) : M SalesAnalytics :=
  tryCatch
    (let query := {| f_store := storeId;
                     f_status := Some (StatusIn DEFAULT_STATUSES);
                     f_payment := None; f_source := None;
                     f_gte := Some startDate_; f_lte := Some endDate_ |} in
     let* (transactions_, (totalRevenue_, totalTransactions_)) :=
       both (request (QTransactions query (TxFind None))
                     (sortBy laterTransactionFirst (matchingTransactions query)))
      (both (request (QTransactions query TxTotal) (totalOf query))
            (request (QTransactions query TxCount) (count (matchingTransactions query)))) in
     let revenue_ := orZeroOpt totalRevenue_ in
     let transactionCount := totalTransactions_ in
     let averageTransactionValue_ :=
       if 0 <? transactionCount then (revenue_ / inject_Z transactionCount)%Q else 0%Q in
     let daysDiff := daysBetween startDate_ endDate_ in
     let timezone := getStoreTimezone storeId in
     let* salesByPeriod0 :=
       if daysDiff <=? 31 then
         let* dailyAggregation :=
           request (QTransactions query (TxByDateString "%Y-%m-%d"))
                   (salesSeriesOf query "%Y-%m-%d" timezone) in
         let salesMap := salesMapOf dailyAggregation in
         let startInTimezone := inTimezone w timezone startDate_ in
         let endInTimezone := inTimezone w timezone endDate_ in
         let startLocal :=
           localDate w (getFullYear w startInTimezone) (getMonth w startInTimezone)
                     (getDate w startInTimezone) 0 0 0 0 in
         let endLocal :=
           localDate w (getFullYear w endInTimezone) (getMonth w endInTimezone)
                     (getDate w endInTimezone) 0 0 0 0 in
         let cursor := startLocal in
         ret (fillSalesDays (dayRounds cursor endLocal) cursor endLocal timezone salesMap)
       else
         let* monthlyAggregation :=
           request (QTransactions query (TxByDateString "%Y-%m"))
                   (salesSeriesOf query "%Y-%m" timezone) in
         let salesMap := salesMapOf monthlyAggregation in
         let startInTimezone := inTimezone w timezone startDate_ in
         let endInTimezone := inTimezone w timezone endDate_ in
         let current :=
           localDate w (getFullYear w startInTimezone) (getMonth w startInTimezone) 1 0 0 0 0 in
         let endMonth :=
           localDate w (getFullYear w endInTimezone) (getMonth w endInTimezone + 1) 0
                     23 59 59 0 in
         ret (fillSalesMonths (monthRounds current endMonth) current endMonth salesMap) in
     let* topProducts_ :=
       request (QTransactions query (TxTopProductsByNameAndPrice 10))
               (topProductsOf false false query 10) in
     let* paymentBreakdown :=
       request (QTransactions query TxByPaymentCounted) (paymentBreakdownOf query) in
     ret {| totalRevenue := revenue_;
            sa_totalTransactions := transactionCount;
            sa_averageTransactionValue := averageTransactionValue_;
            salesByPeriod_ := salesByPeriod0;
            sa_topProducts := topProducts_;
            paymentMethodBreakdown := paymentBreakdown |})%monad
    (fun error =>
       (logError "Error getting sales analytics by date range:" error ;; throw error)%monad).

(** [getSalesAnalytics]: the totals of a period token, with the series
    of [getSalesByPeriod] and the ranking of [getTopProducts] beside
    them.  In [sum + t.total_amount] an amount that is [null] adds 0. *)
Definition getSalesAnalytics (storeId : option string) (period_ : option string)
  : M SalesAnalytics :=
  tryCatch
    (let filter := {| f_store := truthy storeId;
                      f_status := Some (StatusIn DEFAULT_STATUSES);
                      f_payment := None; f_source := None;
                      f_gte := None; f_lte := None |} in
     let case (name : string) :=
       match period_ with Some x => String.eqb x name | None => false end in
     let* dateFilter :=
       if case "today" then
         let* startOfDay := newDate w in
         ret (Some (setHours w startOfDay 0 0 0 0))
       else if case "week" || case "7d" then
         let* startOfWeek := newDate w in
         ret (Some (setDate w startOfWeek (getDate w startOfWeek - 7)))
       else if case "month" || case "30d" then
         let* startOfMonth := newDate w in
         ret (Some (setDate w startOfMonth (getDate w startOfMonth - 30)))
       else if case "90d" then
         let* startOfPeriod := newDate w in
         ret (Some (setDate w startOfPeriod (getDate w startOfPeriod - 90)))
       else if case "year" then
         let* startOfYear := newDate w in
         ret (Some (setFullYear w startOfYear (getFullYear w startOfYear - 1)))
       else ret None in
     let query := within filter dateFilter None in
     let* transactions_ :=
       request (QTransactions query (TxFind None)) (matchingTransactions query) in
     let totalRevenue_ :=
       fold_left (fun sum t => (sum + amountOf t)%Q) transactions_ 0%Q in
     let totalTransactions_ := count transactions_ in
     let averageTransactionValue_ :=
       if 0 <? totalTransactions_
       then (totalRevenue_ / inject_Z totalTransactions_)%Q else 0%Q in
     let* salesByPeriod0 := getSalesByPeriod storeId period_ in
     let* topProducts_ := getTopProducts storeId 10 None in
     let* paymentMethodBreakdown_ :=
       request (QTransactions query TxByPaymentCounted) (paymentBreakdownOf query) in
     ret {| totalRevenue := totalRevenue_;
            sa_totalTransactions := totalTransactions_;
            sa_averageTransactionValue := averageTransactionValue_;
            salesByPeriod_ := salesByPeriod0;
            sa_topProducts := topProducts_;
            paymentMethodBreakdown := paymentMethodBreakdown_ |})%monad
    (fun error =>
       (logError "Error getting sales analytics:" error ;; throw error)%monad).

(** ** AnalyticsService.getDashboardMetrics *)

Definition productStatsOf (store : option string) : Z * Z :=
  let l := filter (fun p => fieldIs store (Some (pr_store p))) (productCatalog w) in
  (count l,
   count (filter (fun p => Qle_bool (stock_quantity p) (min_stock_level p)) l)).

(** One branch of the [$facet]: the sum and the number of the matching
    transactions, both 0 when none matches. *)
Definition pointTotals (f : TxFilter) : Q * Z :=
  (sumQ (map amountOf (matchingTransactions f)), count (matchingTransactions f)).

Definition toRecent (t : Transaction) : RecentTransaction :=
  {| id := tx_id t; totalAmount := total_amount t;
     paymentMethod_ := payment_method t; createdAt := created_at t |}.

Definition recentOf (f : TxFilter) (limit : nat) : list Transaction :=
  firstn limit (sortBy laterTransactionFirst (matchingTransactions f)).

Definition paymentGroupsOf (f : TxFilter) : list (Group (option string)) :=
  groupBy optEqb payment_method amountOf (matchingTransactions f).

Definition sourceGroupsOf (f : TxFilter) : list (Group (option string)) :=
  groupBy optEqb order_source amountOf (matchingTransactions f).

(** Aliases of a payment channel are collapsed into one bucket. *)
Definition collectPaymentMethods (groups : list (Group (option string)))
  : gmap string Q :=
  fold_left
    (fun (paymentMethodsData : gmap string Q) item =>
       let normalized := normalizePaymentMethod (g_key item) in
       let before := match paymentMethodsData !! normalized with
                     | Some v => JsMath.orZero v
                     | None => 0%Q
                     end in
       <[normalized := (before + JsMath.orZero (g_sum item))%Q]> paymentMethodsData)
    groups ∅.

Definition collectOrderSources (groups : list (Group (option string)))
  : gmap string Q :=
  fold_left
    (fun (orderSourcesData : gmap string Q) item =>
       let source := match truthy (g_key item) with
                     | Some x => x
                     | None => "in-store"
                     end in
       <[source := g_sum item]> orderSourcesData)
    groups ∅.

(** [cache.get] inside its own [try]: a failure of the cache is a
    miss.  The final [cache.set] is in a [try] of its own as well and
    its outcome is dropped, so it leaves no trace here. *)
Definition cacheKeyStore (storeId : option string) : string :=
  match truthy storeId with Some x => x | None => "default" end.

Definition cacheKeyFilters (filters : option DashboardFilters) : DashboardFilters :=
  match filters with Some f => f | None => noFilters end.

Definition cacheGet (storeId : option string) (filters : option DashboardFilters)
  : option DashboardMetrics :=
  match cacheRead w (cacheKeyStore storeId) (cacheKeyFilters filters) with
  | CacheHit m => Some m
  | CacheMiss => None
  | CacheFails => None
  end.

(** STEP 1 of [getDashboardMetrics]: the primary date range, used for
    every metric.  Without a date filter it is the last 30 days. *)
Definition primaryDateRange (storeId : option string)
    (filters : option DashboardFilters) : M (option DateRange * Z * Z) :=
  (let storeTimezone := getStoreTimezone storeId in
   let* primaryDateFilter := getDateFilter filters storeTimezone in
   match primaryDateFilter with
   | Some r => ret (primaryDateFilter, start r, end_ r)
   | None =>
       let* thirtyDaysAgo := newDate w in
       let thirtyDaysAgo := setDate w thirtyDaysAgo (getDate w thirtyDaysAgo - 30) in
       let* now := newDate w in
       ret (primaryDateFilter, thirtyDaysAgo, now)
   end)%monad.

(** STEP 2 of [getDashboardMetrics]: the transaction filter over the
    primary date range. *)
Definition primaryTransactionFilter (storeId : option string)
    (filters : option DashboardFilters) (primaryStartDate primaryEndDate : Z)
  : TxFilter :=
  {| f_store := truthy storeId;
     f_status := Some (statusCondition
                         (match filters with Some f => status f | None => None end));
     f_payment := unlessAll
                    (match filters with Some f => paymentMethod f | None => None end);
     f_source := None;
     f_gte := Some primaryStartDate;
     f_lte := Some primaryEndDate |}.

Definition getDashboardMetrics (storeId : option string)
    (filters : option DashboardFilters) : M DashboardMetrics :=
  tryCatch
    (match cacheGet storeId filters with
     | Some cachedMetrics => ret cachedMetrics
     | None =>
     let storeTimezone := getStoreTimezone storeId in
     let* (primaryDateFilter, primaryStartDate, primaryEndDate) :=
       primaryDateRange storeId filters in
     let productFilter := truthy storeId in
     let transactionFilter :=
       primaryTransactionFilter storeId filters primaryStartDate primaryEndDate in
     (* STEP 3: today and the month *)
     let* todayRange := getTodayRange w storeTimezone in
     let* monthRange :=
       match filters with
       | Some f =>
           match truthyNumber (month f), truthyNumber (year f) with
           | Some m, Some y => lift (getMonthYearRange w m y storeTimezone)
           | _, _ => getThisMonthRange w storeTimezone
           end
       | None => getThisMonthRange w storeTimezone
       end in
     let todayFilter :=
       within transactionFilter (Some (start todayRange)) (Some (end_ todayRange)) in
     let monthlyFilter :=
       within transactionFilter (Some (start monthRange)) (Some (end_ monthRange)) in
     (* STEP 4: expenses over the same primary range *)
     let* expenseStats :=
       getExpenseStats storeId (Some primaryStartDate) (Some primaryEndDate) in
     let* expenseSeries := getExpenseSeries primaryStartDate primaryEndDate storeId in
     let* monthlyExpenseStats :=
       getExpenseStats storeId (Some (start monthRange)) (Some (end_ monthRange)) in
     let totalExpenses_ := totalAmount_ expenseStats in
     let* (productStats, (transactionStats, (recentTransactions_, topProductsData))) :=
       both (request (QProducts productFilter) (productStatsOf productFilter))
      (both (request (QTransactions transactionFilter (TxFacet todayFilter monthlyFilter))
               (pointTotals transactionFilter, pointTotals todayFilter,
                pointTotals monthlyFilter))
      (both (request (QTransactions transactionFilter (TxFind (Some 10%nat)))
               (recentOf transactionFilter 10))
            (getTopProducts storeId 5 filters))) in
     let '(totalStats, todayStats, monthlyStats) := transactionStats in
     let totalSales_ := JsMath.orZero (fst totalStats) in
     let totalTransactions_ := JsMath.orZero (inject_Z (snd totalStats)) in
     let todaySales_ := JsMath.orZero (fst todayStats) in
     let monthlySales_ := JsMath.orZero (fst monthlyStats) in
     (* transactions without sales: logged, with a sample *)
     let* _ :=
       if JsMath.isPositive totalTransactions_ && JsMath.isZero totalSales_ then
         logWith "CRITICAL ERROR: Transactions found but sales = 0!" None ;;
         tryCatch
           (let* sampleTransactions :=
              request (QTransactions transactionFilter (TxFind (Some 5%nat)))
                      (firstn 5 (matchingTransactions transactionFilter)) in
            logWith "Sample transactions:" None)
           (fun sampleError => logError "Error fetching sample transactions:" sampleError)
       else ret tt in
     let averageTransactionValue_ :=
       if JsMath.isPositive totalTransactions_
       then (totalSales_ / totalTransactions_)%Q else 0%Q in
     let* growthRate_ := calculateGrowthRate storeId filters in
     let* vsPreviousPeriodMetrics :=
       calculateVsPreviousPeriodMetrics storeId filters
         totalSales_ totalTransactions_ totalExpenses_ in
     let* vsYesterdayMetrics := calculateVsYesterdayMetrics storeId filters in
     (* the fine series over the primary range *)
     let* salesByPeriodData :=
       match primaryDateFilter with
       | Some _ =>
           let* salesAnalytics :=
             getSalesAnalyticsByDateRange storeId primaryStartDate primaryEndDate in
           ret (Some (salesByPeriod_ salesAnalytics))
       | None =>
           match filters with
           | Some f =>
               match truthy (dateRange f) with
               | Some token =>
                   let* l := getSalesByPeriod storeId (Some token) in ret (Some l)
               | None => ret None
               end
           | None => ret None
           end
       end in
     let monthlyExpenses_ := totalAmount_ monthlyExpenseStats in
     let* salesByMonthData := getSalesByMonth storeId filters in
     let* paymentMethodsAggregation :=
       request (QTransactions transactionFilter TxByPayment)
               (paymentGroupsOf transactionFilter) in
     let paymentMethodsData := collectPaymentMethods paymentMethodsAggregation in
     let* orderSourcesAggregation :=
       request (QTransactions transactionFilter TxBySource)
               (sourceGroupsOf transactionFilter) in
     let orderSourcesData := collectOrderSources orderSourcesAggregation in
     let dashboardMetrics :=
       {| totalSales := JsMath.orZero totalSales_;
          totalTransactions := JsMath.orZero totalTransactions_;
          averageTransactionValue := JsMath.orZero averageTransactionValue_;
          growthRate := JsMath.orZero growthRate_;
          salesVsPreviousPeriod := salesDelta vsPreviousPeriodMetrics;
          expensesVsPreviousPeriod := expensesDelta vsPreviousPeriodMetrics;
          profitVsPreviousPeriod := profitDelta vsPreviousPeriodMetrics;
          transactionsVsPreviousPeriod := transactionsDelta vsPreviousPeriodMetrics;
          salesVsYesterday := salesDelta vsYesterdayMetrics;
          expensesVsYesterday := expensesDelta vsYesterdayMetrics;
          profitVsYesterday := profitDelta vsYesterdayMetrics;
          transactionsVsYesterday := transactionsDelta vsYesterdayMetrics;
          totalProducts := fst productStats;
          lowStockItems := snd productStats;
          todaySales := todaySales_;
          monthlySales := monthlySales_;
          totalExpenses := JsMath.orZero totalExpenses_;
          monthlyExpenses := JsMath.orZero monthlyExpenses_;
          netProfit := (totalSales_ - totalExpenses_)%Q;
          topProducts := topProductsData;
          paymentMethods := paymentMethodsData;
          orderSources := orderSourcesData;
          recentTransactions := map toRecent recentTransactions_;
          salesByMonth := salesByMonthData;
          salesByPeriod := salesByPeriodData;
          expensesByPeriod := expenseSeries;
          filterInfo := {| start := primaryStartDate; end_ := primaryEndDate |} |} in
     ret dashboardMetrics
     end)%monad
    (fun error =>
       (logError "Error getting dashboard metrics:" error ;; throw error)%monad).

End Services.

(** ** Sample ledgers and worlds *)

Module Sample.

(** 2025-01-01T00:00:00.000Z *)
Definition jan1 : Z := 1735689600000.
Definition day : Z := JsDate.msPerDay.

Definition zones (name : string) : Z :=
  if String.eqb name "Europe/Nicosia" then 120
  else if String.eqb name "Europe/Istanbul" then 180
  else 0.

Definition sale (i : string) (at_ : Z) (total : Q) (st : TxStatus) (pay : string)
  : Transaction :=
  {| tx_id := i; tx_store := "store-1";
     items := [{| product_id := "p-1"; product_name := "Rice";
                  quantity := 2; unit_price := total / 2; total_price := total |}];
     total_amount := Some total; payment_method := Some pay;
     tx_status := st; order_source := Some "in-store"; created_at := at_ |}.

Definition purchase (at_ : Z) (cost : Q) : Expense :=
  {| ex_store := "store-1"; ex_date := at_; month_year := "January - 2025";
     ex_product_name := "Rice"; ex_amount := cost;
     ex_payment_method := "cash"; category := "food" |}.

Definition sales : list Transaction :=
  [ sale "t-1" (jan1 - 20 * day) 80 completed "cash";
    sale "t-2" (jan1 + 10 * day) 100 completed "card";
    sale "t-3" (jan1 + 12 * day) 50 pending "POS";
    sale "t-4" (jan1 + 12 * day + 1) 70 cancelled "cash" ].

(** Purchases in January and in April, none in between. *)
Definition purchases : list Expense :=
  [ purchase (jan1 + 10 * day) 10;
    purchase (jan1 + 12 * day) (5 # 2);
    purchase (jan1 + 100 * day) 7 ].

(** A process that runs in UTC for a store in [Europe/Nicosia]; the
    clock stands at [now]. *)
Definition worldAt (now : Z) (fails : Query -> bool) : World :=
  {| serverOffset := 0;
     zoneOffset := zones;
     dateParse := fun _ => None;
     clockAt := fun _ => now;
     transactionLedger := sales;
     expenseLedger := purchases;
     productCatalog := [];
     storeFails := fails;
     cacheRead := fun _ _ => CacheMiss |}.

(** 2025-01-15T12:00:00.000Z *)
Definition noon : Z := jan1 + 14 * day + 12 * JsDate.msPerHour.

Definition world : World := worldAt noon (fun _ => false).

(** 2025-01-01T22:30:00.000Z: already the second of January in the
    zone of the store. *)
Definition lateEvening : Z := jan1 + 22 * JsDate.msPerHour + 30 * JsDate.msPerMinute.

Definition monthOf (m y : Z) : DashboardFilters :=
  {| dateRange := None; paymentMethod := None; orderSource := None;
     status := None; startDate := None; endDate := None;
     month := Some m; year := Some y |}.

Definition withStatus (st : string) (f : DashboardFilters) : DashboardFilters :=
  {| dateRange := dateRange f; paymentMethod := paymentMethod f;
     orderSource := orderSource f; status := Some st;
     startDate := startDate f; endDate := endDate f;
     month := month f; year := year f |}.

Definition store : option string := Some "store-1".

(** A store that rejects the payment-method breakdown only. *)
Definition paymentBreakdownFails (q : Query) : bool :=
  match q with
  | QTransactions _ TxByPayment => true
  | _ => false
  end.

(** A store that rejects the requests of the product ranking, of the
    monthly chart, of the previous period and of the expense series. *)
Definition rankingsAndSeriesFail (q : Query) : bool :=
  match q with
  | QTransactions _ (TxTopProducts _) => true
  | QTransactions _ TxByMonthSplit => true
  | QTransactions _ TxTotalAndCount => true
  | QExpenses _ (ExByDateString _) => true
  | QExpenses _ ExFind => true
  | _ => false
  end.

End Sample.

(** * Vocabulary of the properties *)

(** ** Payment methods *)

(** A list of characters that does not open with white space. *)
Definition startsClean (l : list ascii) : Prop :=
  match l with
  | [] => True
  | x :: _ => JsString.isWhiteSpace x = false
  end.

(** A string is trimmed when neither end is white space. *)
Definition trimmed (l : list ascii) : Prop :=
  startsClean l /\ startsClean (rev l).

(** The labels [normalizePaymentMethod] has a case for. *)
Definition aliasLabels : list string :=
  ["card"; "pos"; "bank_card"; "debit_card"; "credit_card";
   "transfer"; "naira_transfer"; "bank_transfer";
   "crypto"; "crypto_payment";
   "cash_on_delivery"; "cod"; "cash"].

(** The key the [switch] of [normalizePaymentMethod] looks at. *)
Definition paymentKey (method : option string) : string :=
  JsString.toLowerCase (JsString.trim (orUnknown method)).

(** ** Calendar *)

(** Month lengths, month 1 being January. *)
Definition monthLength (m y : Z) : Z :=
  if m =? 2 then (if JsDate.isLeapYear y then 29 else 28)
  else if (m =? 4) || (m =? 6) || (m =? 9) || (m =? 11) then 30
  else 31.

(** The calendar month [m] (1 = January) of year [y] in the zone of the
    process: from the first instant of its first day to the last
    millisecond of its last day. *)
Definition calendarMonth (w : World) (m y : Z) : DateRange :=
  let first := localDate w y (m - 1) 1 0 0 0 0 in
  {| start := first;
     end_ := first + monthLength m y * JsDate.msPerDay - 1 |}.

(** The year, month and day fields of a date string: the first three
    parts of its date portion between dashes, read as numbers. *)
Definition dateFields (s : string) : jsnum * jsnum * jsnum :=
  let parts := map JsNumber.Number (JsString.split "-" (datePortion s)) in
  (component parts 0, component parts 1, component parts 2).

(** A date string is well formed when the three fields are numbers, the
    year from 1900 to 2100, the month from 1 to 12, the day from 1 to 31. *)
Definition wellFormedDate (s : string) : Prop :=
  exists y m d : Q,
    dateFields s = (Fin y, Fin m, Fin d) /\
    (1900 <= y <= 2100)%Q /\ (1 <= m <= 12)%Q /\ (1 <= d <= 31)%Q.

(** The first and the last instant of a day given by its fields. *)
Definition dayStart (w : World) (y m d : Q) : Z :=
  localDate w (JsMath.trunc y) (JsMath.trunc (m - 1)) (JsMath.trunc d) 0 0 0 0.

Definition dayEnd (w : World) (y m d : Q) : Z :=
  localDate w (JsMath.trunc y) (JsMath.trunc (m - 1)) (JsMath.trunc d) 23 59 59 999.

(** The window the specification asks of [todayRange]: from local
    midnight of the current day to one millisecond before the next, in
    the zone at [offset] minutes from UTC. *)
Definition todayRangeIn (offset now : Z) : DateRange :=
  let localMidnight :=
    JsDate.Day (now + offset * JsDate.msPerMinute) * JsDate.msPerDay
    - offset * JsDate.msPerMinute in
  {| start := localMidnight; end_ := localMidnight + JsDate.msPerDay - 1 |}.

(** The day of a time value in the zone of the process, the time value
    of the midnight that opens a day there, and the days of a window. *)
Definition processDay (w : World) (t : Z) : Z := JsDate.Day (LocalTime w t).

Definition midnightOf (w : World) (d : Z) : Z := UTC w (d * JsDate.msPerDay).

Definition daysOfWindow (w : World) (startDate endDate : Z) : list Z :=
  map (fun i => processDay w startDate + Z.of_nat i)
      (seq 0 (Z.to_nat (processDay w endDate - processDay w startDate + 1))).

Definition dayKey (w : World) (timezone : string) (d : Z) : string :=
  formatDateForTimezone w (midnightOf w d) timezone.

(** ** Requests and failures *)

(** [sends P m]: whatever the session, [m] only adds to the record of
    requests, and every request it adds satisfies [P]. *)
Definition sends {A : Type} (P : Query -> Prop) (m : M A) : Prop :=
  forall s, exists l, issued (snd (m s)) = l ++ issued s /\ Forall P l.

(** The pipelines [getDashboardMetrics] sends itself, over its own
    transaction filter. *)
Definition ownPipeline (p : TxPipeline) : Prop :=
  match p with
  | TxFacet _ _ | TxFind (Some _) | TxByPayment | TxBySource => True
  | _ => False
  end.

(** Every request for transactions has a status condition in [S] and a
    pipeline in [K]. *)
Definition kinded (S : option StatusCond -> Prop) (K : TxPipeline -> Prop)
    (q : Query) : Prop :=
  match q with
  | QTransactions f p => S (f_status f) /\ K p
  | _ => True
  end.

(** Every request for transactions filters on exactly [cond], the
    branches of a facet included. *)
Definition filtersStatus (cond : StatusCond) (q : Query) : Prop :=
  match q with
  | QTransactions f (TxFacet today monthly) =>
      f_status f = Some cond /\ f_status today = Some cond /\ f_status monthly = Some cond
  | QTransactions f _ => f_status f = Some cond
  | _ => True
  end.

(** The same for the requests [getDashboardMetrics] sends itself, the
    point totals among them. *)
Definition ownStatus (cond : StatusCond) (q : Query) : Prop :=
  match q with
  | QTransactions f p => ownPipeline p -> filtersStatus cond q
  | _ => True
  end.

(** The status the caller asked for. *)
Definition requestedStatus (filters : option DashboardFilters) : option string :=
  match filters with
  | Some f => status f
  | None => None
  end.

(** [succeeds m]: [m] ends normally from every session. *)
Definition succeeds {A : Type} (m : M A) : Prop :=
  forall s, exists a s', m s = (Ok a, s').

(** [throws m]: [m] ends with an error from every session. *)
Definition throws {A : Type} (m : M A) : Prop :=
  forall s, exists e s', m s = (Throw e, s').

(** [onSuccess P m]: when [m] ends normally, the requests it sent all
    satisfy [P]. *)
Definition onSuccess {A : Type} (P : Query -> Prop) (m : M A) : Prop :=
  forall s a s', m s = (Ok a, s') ->
                 exists l, issued s' = l ++ issued s /\ Forall P l.

(** [caughtAtBoundary w m d msg]: [m] always ends normally; either every
    request it sent was answered, or its result is the default [d] and the
    last entry of the log is [msg] with the error. *)
Definition caughtAtBoundary {A : Type} (w : World) (m : M A) (d : A) (msg : string)
  : Prop :=
  forall s, exists a s' l,
    m s = (Ok a, s') /\ issued s' = l ++ issued s /\
    (Forall (fun q => storeFails w q = false) l \/
     (a = d /\ exists e, hd_error (logged s') = Some {| message := msg; cause := Some e |})).

(** The requests sent outside every guarded sub-metric: by
    [getDashboardMetrics] itself, by [getExpenseStats] and by
    [getSalesAnalyticsByDateRange]. *)
Definition requiredRequest (q : Query) : bool :=
  match q with
  | QProducts _ => true
  | QTransactions _ p =>
      match p with
      | TxTopProducts _ | TxTotalAndCount | TxByMonthSplit => false
      | _ => true
      end
  | QExpenses _ p =>
      match p with
      | ExFind | ExByDateString _ => false
      | _ => true
      end
  end.

(** The month and year of the filters, when both are given, are ones
    [getMonthYearRange] accepts. *)
Definition monthResolves (filters : option DashboardFilters) : Prop :=
  match filters with
  | Some f =>
      match truthyNumber (month f), truthyNumber (year f) with
      | Some m, Some y => 1 <= m <= 12 /\ 1900 <= y <= 2100
      | _, _ => True
      end
  | None => True
  end.

(** ** Groups and buckets *)

(** The members of [l] grouped under [k]. *)
Definition membersUnder {A : Type} (key : A -> string) (k : string) (l : list A) : list A :=
  List.filter (fun x => String.eqb (key x) k) l.

(** The first group of a key, its sum and its count. *)
Definition groupAt (k : string) (gs : list (Group string)) : option (Group string) :=
  List.find (fun g => String.eqb k (g_key g)) gs.

Definition sumAt (k : string) (gs : list (Group string)) : Q :=
  match groupAt k gs with Some g => g_sum g | None => 0%Q end.

Definition countAt (k : string) (gs : list (Group string)) : Z :=
  match groupAt k gs with Some g => g_count g | None => 0 end.

(** One round of [groupBy]. *)
Definition bumpWith {A : Type} (key : A -> string) (val : A -> Q)
    (gs : list (Group string)) (x : A) : list (Group string) :=
  bump String.eqb (key x) (val x) gs.

(** A map filled from a list, a later entry replacing an earlier one of
    the same key. *)
Definition keyed {P V : Type} (key : P -> string) (val : P -> V)
    (series : list P) (m : gmap string V) : gmap string V :=
  fold_left (fun m p => <[key p := val p]> m) series m.

(** The filters of the two series. *)
Definition expenseWindow (storeId : option string) (startDate endDate : Z) : ExFilter :=
  {| e_store := truthy storeId; e_gte := Some startDate; e_lte := Some endDate |}.

Definition salesWindow (storeId : option string) (r : DateRange) : TxFilter :=
  {| f_store := truthy storeId; f_status := Some (StatusIn DEFAULT_STATUSES);
     f_payment := None; f_source := None;
     f_gte := Some (start r); f_lte := Some (end_ r) |}.

(** The expenses of the window whose date, seen in the zone, prints as [key]. *)
Definition expensesUnder (w : World) (f : ExFilter) (format timezone key : string)
  : list Expense :=
  List.filter
    (fun e => String.eqb (dateToString format (zoneOffset w timezone) (ex_date e)) key)
    (matchingExpenses w f).

(** The sales of the window whose date, seen in the zone, prints as [key]. *)
Definition salesUnder (w : World) (f : TxFilter) (format timezone key : string)
  : list Transaction :=
  List.filter
    (fun t => String.eqb (dateToString format (zoneOffset w timezone) (created_at t)) key)
    (matchingTransactions w f).

(** The bucket holds the number and the sum of the expenses under its key. *)
Definition bucketHolds (w : World) (f : ExFilter) (format timezone : string)
    (p : ExpensePoint) : Prop :=
  ep_count p = count (expensesUnder w f format timezone (ep_period p)) /\
  (amount p == sumQ (map ex_amount (expensesUnder w f format timezone (ep_period p))))%Q.

Definition salesHolds (w : World) (f : TxFilter) (format timezone : string)
    (p : SalesPoint) : Prop :=
  transactions p = count (salesUnder w f format timezone (period p)) /\
  (sp_revenue p == sumQ (map amountOf (salesUnder w f format timezone (period p))))%Q.

(** The map the expense series looks its buckets up in. *)
Definition seriesMap (series : list ExpensePoint) : gmap string (Q * Z) :=
  fold_left (fun m p => <[ep_period p := (amount p, ep_count p)]> m) series ∅.

(** The bucket the loop pushes for a key. *)
Definition bucketAt (m : gmap string (Q * Z)) (key : string) : ExpensePoint :=
  let v := match m !! key with Some v => v | None => (0%Q, 0) end in
  {| ep_period := key; amount := fst v; ep_count := snd v |}.

(** The tokens for which [getSalesByPeriod] fills the days, with the
    number of days it goes back. *)
Definition dailyToken (period_ : option string) : option Z :=
  match period_ with
  | Some p =>
      if String.eqb p "week" || String.eqb p "7d" then Some 7
      else if String.eqb p "month" || String.eqb p "30d" then Some 30
      else if String.eqb p "90d" then Some 90
      else None
  | None => None
  end.

(** ** Further vocabulary *)

Definition fieldsReadBack (y m d : Z) : bool :=
  match dateFields (ymdString y m d) with
  | (Fin qy, Fin qm, Fin qd) =>
      (JsMath.trunc qy =? y) && (JsMath.trunc (qm - 1) =? m - 1) && (JsMath.trunc qd =? d)
      && Qle_bool 1900 qy && Qle_bool qy 2100
      && Qle_bool 1 qm && Qle_bool qm 12
      && Qle_bool 1 qd && Qle_bool qd 31
  | _ => false
  end.

Definition upFrom (a : Z) (n : nat) : list Z := map (fun i => a + Z.of_nat i) (seq 0 n).

(** The period tokens [getDateFilter] has a case for. *)
Definition knownToken (token : string) : bool :=
  String.eqb token "today" || String.eqb token "this_month" || String.eqb token "7d"
  || String.eqb token "30d" || String.eqb token "90d" || String.eqb token "1y".

(** The source a group of the order-source breakdown is filed under. *)
Definition sourceOf (g : Group (option string)) : string :=
  match truthy (g_key g) with Some x => x | None => "in-store" end.

Definition sumZ (l : list Z) : Z := fold_right Z.add 0 l.

(** The filter [getSalesAnalyticsByDateRange] sends with each request. *)
Definition analyticsWindow (storeId : option string) (a b : Z) : TxFilter :=
  {| f_store := storeId; f_status := Some (StatusIn DEFAULT_STATUSES);
     f_payment := None; f_source := None; f_gte := Some a; f_lte := Some b |}.

(** The day of a time value in the zone, the date a day prints as, and
    the sales of a filter that fall on a day of the zone. *)
Definition zoneDay (w : World) (tz : string) (t : Z) : Z :=
  JsDate.Day (t + zoneOffset w tz * JsDate.msPerMinute).

Definition dateOfDay (d : Z) : string := dayStringAt 0 (d * JsDate.msPerDay).

Definition salesOfDay (w : World) (f : TxFilter) (tz : string) (d : Z)
  : list Transaction :=
  List.filter (fun t => zoneDay w tz (created_at t) =? d) (matchingTransactions w f).

(** The months counted from January of the year 0, the month of a time
    value in the zone, the first day of a month, the key the loop over
    the months prints for it, and the sales of a month of the zone. *)
Definition monthIndex (t : Z) : Z :=
  12 * JsDate.YearFromTime t + JsDate.MonthFromTime t.

Definition zoneMonth (w : World) (tz : string) (t : Z) : Z :=
  monthIndex (t + zoneOffset w tz * JsDate.msPerMinute).

Definition firstOfMonth (k : Z) : Z := JsDate.MakeDay 0 k 1.

Definition monthLabel (k : Z) : string :=
  decimal (k / 12) +:+ "-" +:+ padStart0 2 (k mod 12 + 1).

Definition salesOfMonth (w : World) (f : TxFilter) (tz : string) (k : Z)
  : list Transaction :=
  List.filter (fun t => zoneMonth w tz (created_at t) =? k) (matchingTransactions w f).

(** The sales of the store with status completed or pending, from a
    lower bound on. *)
Definition storeSales (storeId : option string) (from : option Z) : TxFilter :=
  {| f_store := truthy storeId; f_status := Some (StatusIn DEFAULT_STATUSES);
     f_payment := None; f_source := None; f_gte := from; f_lte := None |}.

(** The lower bound of the totals of [getSalesAnalytics] for a period
    token, the clock standing at [now]. *)
Definition totalsFrom (w : World) (now : Z) (period_ : option string) : option Z :=
  match period_ with
  | Some x =>
      if String.eqb x "today" then Some (midnightOf w (processDay w now))
      else if String.eqb x "week" || String.eqb x "7d"
      then Some (now - 7 * JsDate.msPerDay)
      else if String.eqb x "month" || String.eqb x "30d"
      then Some (now - 30 * JsDate.msPerDay)
      else if String.eqb x "90d" then Some (now - 90 * JsDate.msPerDay)
      else if String.eqb x "year" then Some (setFullYear w now (getFullYear w now - 1))
      else None
  | None => None
  end.

(** * Properties *)

(** ** Strings *)

Module JsStringFacts.
Import JsString.

Lemma chars_ofChars (l : list ascii) : chars (ofChars l) = l.
Proof. apply list_ascii_of_string_of_list_ascii. Qed.

Lemma ofChars_chars (s : string) : ofChars (chars s) = s.
Proof. apply string_of_list_ascii_of_string. Qed.

Lemma lowerChar_idem (c : ascii) : lowerChar (lowerChar c) = lowerChar c.
Proof. destruct c as [[] [] [] [] [] [] [] []]; reflexivity. Qed.

Lemma lowerChar_space (c : ascii) : isWhiteSpace (lowerChar c) = isWhiteSpace c.
Proof. destruct c as [[] [] [] [] [] [] [] []]; reflexivity. Qed.

Lemma lowerChar_not_upper (c : ascii) : isUpper (lowerChar c) = false.
Proof. destruct c as [[] [] [] [] [] [] [] []]; reflexivity. Qed.

(** What [dropSpaces] removes is white space, and what it leaves does
    not start with white space. *)
Lemma dropSpaces_split (l : list ascii) :
  exists c, l = c ++ dropSpaces l /\ Forall (fun x => isWhiteSpace x = true) c.
Proof.
  induction l as [|x l IH]; simpl.
  - exists []. split; [reflexivity | constructor].
  - destruct (isWhiteSpace x) eqn:Hx.
    + destruct IH as (c & Hc & Hall). exists (x :: c). split.
      * simpl. congruence.
      * constructor; assumption.
    + exists []. split; [reflexivity | constructor].
Qed.

Lemma dropSpaces_clean (l : list ascii) : startsClean (dropSpaces l).
Proof.
  induction l as [|x l IH]; simpl; [exact I|].
  destruct (isWhiteSpace x) eqn:Hx; [exact IH | exact Hx].
Qed.

Lemma dropSpaces_fixed (l : list ascii) : startsClean l -> dropSpaces l = l.
Proof. destruct l as [|x l]; simpl; intros H; [reflexivity | now rewrite H]. Qed.

Lemma startsClean_prefix (a b : list ascii) :
  startsClean (a ++ b) -> startsClean a.
Proof. destruct a; simpl; auto. Qed.

Lemma startsClean_after_spaces (c l : list ascii) :
  Forall (fun x => isWhiteSpace x = true) c -> startsClean (c ++ l) -> c = [].
Proof.
  destruct c as [|x c]; [reflexivity|].
  intros Hall Hclean. inversion Hall; subst. simpl in Hclean. congruence.
Qed.

Lemma trimChars_trimmed (l : list ascii) : trimmed (trimChars l).
Proof.
  unfold trimChars, trimmed.
  set (a := dropSpaces l).
  assert (Ha : startsClean a) by apply dropSpaces_clean.
  destruct (dropSpaces_split (rev a)) as (c & Hc & _).
  split.
  - assert (Hrev : a = rev (dropSpaces (rev a)) ++ rev c).
    { rewrite <- rev_app_distr, <- Hc. symmetry. apply rev_involutive. }
    rewrite Hrev in Ha. eapply startsClean_prefix, Ha.
  - rewrite rev_involutive. apply dropSpaces_clean.
Qed.

Lemma trimChars_fixed (l : list ascii) : trimmed l -> trimChars l = l.
Proof.
  intros [H1 H2]. unfold trimChars.
  rewrite (dropSpaces_fixed l H1), (dropSpaces_fixed _ H2).
  apply rev_involutive.
Qed.

Lemma trimChars_idem (l : list ascii) : trimChars (trimChars l) = trimChars l.
Proof. apply trimChars_fixed, trimChars_trimmed. Qed.

Lemma dropSpaces_lower (l : list ascii) :
  dropSpaces (map lowerChar l) = map lowerChar (dropSpaces l).
Proof.
  induction l as [|x l IH]; simpl; [reflexivity|].
  rewrite lowerChar_space. destruct (isWhiteSpace x); [exact IH | reflexivity].
Qed.

Lemma trimChars_lower (l : list ascii) :
  trimChars (map lowerChar l) = map lowerChar (trimChars l).
Proof.
  unfold trimChars.
  rewrite dropSpaces_lower, <- map_rev, dropSpaces_lower, map_rev. reflexivity.
Qed.

Lemma dropSpaces_all (l : list ascii) :
  Forall (fun x => isWhiteSpace x = true) l -> dropSpaces l = [].
Proof.
  induction 1 as [|x l Hx _ IH]; simpl; [reflexivity|]. now rewrite Hx.
Qed.

(** The key of the [switch] is a fixed point of both operations. *)
Lemma key_fixed (s : string) :
  toLowerCase (trim (toLowerCase (trim s))) = toLowerCase (trim s).
Proof.
  unfold toLowerCase, trim. rewrite !chars_ofChars.
  rewrite trimChars_lower, trimChars_idem, map_map.
  f_equal. apply map_ext. intros c. apply lowerChar_idem.
Qed.

Lemma trim_blank (s : string) :
  Forall (fun x => isWhiteSpace x = true) (chars s) -> trim s = "".
Proof.
  intros H. unfold trim, trimChars. now rewrite (dropSpaces_all _ H).
Qed.

Lemma toLowerCase_no_upper (s : string) :
  Forall (fun c => isUpper c = false) (chars (toLowerCase s)).
Proof.
  unfold toLowerCase. rewrite chars_ofChars.
  induction (chars s) as [|c l IH]; simpl; constructor;
    [apply lowerChar_not_upper | exact IH].
Qed.

End JsStringFacts.

(** ** Payment-method normalisation *)

Lemma normalize_by_key (method : option string) :
  normalizePaymentMethod method =
  normalizePaymentMethod (Some (paymentKey method)) \/
  paymentKey method = "".
Proof.
  destruct (String.eqb (paymentKey method) "") eqn:He.
  - right. now apply String.eqb_eq.
  - left. unfold normalizePaymentMethod at 2. fold (paymentKey method).
    assert (Hk : paymentKey (Some (paymentKey method)) = paymentKey method).
    { unfold paymentKey at 1. simpl. rewrite He. apply JsStringFacts.key_fixed. }
    unfold paymentKey at 1 in Hk. simpl in Hk. rewrite He in Hk.
    unfold orUnknown. rewrite He. rewrite Hk. reflexivity.
Qed.

Lemma normalize_fixed_outputs :
  normalizePaymentMethod (Some "pos") = "pos" /\
  normalizePaymentMethod (Some "naira_transfer") = "naira_transfer" /\
  normalizePaymentMethod (Some "crypto_payment") = "crypto_payment" /\
  normalizePaymentMethod (Some "cash") = "cash" /\
  normalizePaymentMethod (Some "unknown") = "unknown".
Proof. repeat split; reflexivity. Qed.

Lemma normalize_cases (method : option string) :
  let r := normalizePaymentMethod method in
  r = "pos" \/ r = "naira_transfer" \/ r = "crypto_payment" \/ r = "cash" \/
  r = "unknown" \/
  (r = paymentKey method /\ paymentKey method <> "" /\
   inCases (paymentKey method) aliasLabels = false).
Proof.
  unfold normalizePaymentMethod. fold (paymentKey method).
  set (k := paymentKey method).
  destruct (inCases k ["card"; "pos"; "bank_card"; "debit_card"; "credit_card"]) eqn:H1;
    [auto|].
  destruct (inCases k ["transfer"; "naira_transfer"; "bank_transfer"]) eqn:H2; [auto|].
  destruct (inCases k ["crypto"; "crypto_payment"]) eqn:H3; [auto 6|].
  destruct (inCases k ["cash_on_delivery"; "cod"; "cash"]) eqn:H4; [auto 6|].
  destruct (String.eqb k "") eqn:H5; [auto 8|].
  do 5 right. split; [reflexivity|]. split.
  - intros ->. discriminate.
  - unfold inCases, aliasLabels in *. simpl in *.
    repeat match goal with
           | H : (_ || _)%bool = false |- _ => apply orb_false_elim in H as [? ?]
           end.
    repeat match goal with
           | H : String.eqb k _ = false |- _ => rewrite H; clear H
           end.
    reflexivity.
Qed.




Lemma normalize_nonempty (x : option string) : normalizePaymentMethod x <> "".
Proof.
  destruct (normalize_cases x) as [H|[H|[H|[H|[H|(H & Hne & _)]]]]];
    rewrite H; try discriminate. exact Hne.
Qed.

Lemma normalize_no_upper (x : option string) :
  Forall (fun c => JsString.isUpper c = false)
         (JsString.chars (normalizePaymentMethod x)).
Proof.
  destruct (normalize_cases x) as [H|[H|[H|[H|[H|(H & _ & _)]]]]]; rewrite H;
    try (repeat constructor).
  apply JsStringFacts.toLowerCase_no_upper.
Qed.

Lemma normalize_blank (s : string) :
  Forall (fun c => JsString.isWhiteSpace c = true) (JsString.chars s) ->
  normalizePaymentMethod (Some s) = "unknown".
Proof.
  intros Hs. unfold normalizePaymentMethod, orUnknown.
  destruct (String.eqb s "") eqn:He; [reflexivity|].
  rewrite (JsStringFacts.trim_blank s Hs). reflexivity.
Qed.

(** Every key of the breakdown is the normal form of a key of the
    aggregation. *)
Lemma collectPaymentMethods_keys (groups : list (Group (option string))) (k : string) :
  k ∈ dom (collectPaymentMethods groups) ->
  exists g, In g groups /\ k = normalizePaymentMethod (g_key g).
Proof.
  unfold collectPaymentMethods.
  assert (Hgen : forall (m : gmap string Q),
             k ∈ dom (fold_left
                        (fun (paymentMethodsData : gmap string Q) item =>
                           let normalized := normalizePaymentMethod (g_key item) in
                           let before := match paymentMethodsData !! normalized with
                                         | Some v => JsMath.orZero v
                                         | None => 0%Q
                                         end in
                           <[normalized := (before + JsMath.orZero (g_sum item))%Q]>
                             paymentMethodsData) groups m) ->
             k ∈ dom m \/ exists g, In g groups /\ k = normalizePaymentMethod (g_key g)).
  { induction groups as [|g groups IH]; intros m Hk; simpl in Hk.
    - left. exact Hk.
    - apply IH in Hk as [Hk|(g' & Hin & Hg')].
      + cbv zeta in Hk. rewrite dom_insert_L in Hk.
        apply elem_of_union in Hk as [Hk|Hk].
        * right. exists g. split; [left; reflexivity|].
          apply elem_of_singleton in Hk. exact Hk.
        * left. exact Hk.
      + right. exists g'. split; [right; exact Hin | exact Hg']. }
  intros Hk. apply Hgen in Hk as [Hk|Hk]; [|exact Hk].
  rewrite dom_empty_L in Hk. set_solver.
Qed.

(** C10.  Whatever the method, absent, empty or blank included, the
    normal form is a non-empty key without upper-case letters; a missing,
    empty or blank method becomes ['unknown']; so the payment-method map of
    the dashboard has no empty key. *)
Theorem normalizePaymentMethod_never_empty :
  (forall x : option string,
      normalizePaymentMethod x <> "" /\
      Forall (fun c => JsString.isUpper c = false)
             (JsString.chars (normalizePaymentMethod x)) /\
      JsString.toLowerCase (normalizePaymentMethod x) = normalizePaymentMethod x) /\
  normalizePaymentMethod None = "unknown" /\
  normalizePaymentMethod (Some "") = "unknown" /\
  (forall s : string,
      Forall (fun c => JsString.isWhiteSpace c = true) (JsString.chars s) ->
      normalizePaymentMethod (Some s) = "unknown") /\
  (forall groups : list (Group (option string)),
      "" ∉ dom (collectPaymentMethods groups)).
Proof.
  split; [|split; [|split; [|split]]].
  - intros x. split; [apply normalize_nonempty|]. split; [apply normalize_no_upper|].
    destruct (normalize_cases x) as [H|[H|[H|[H|[H|(H & _ & _)]]]]]; rewrite H;
      try reflexivity.
    unfold paymentKey, JsString.toLowerCase.
    rewrite JsStringFacts.chars_ofChars, map_map. f_equal.
    apply map_ext. intros c. apply JsStringFacts.lowerChar_idem.
  - reflexivity.
  - reflexivity.
  - apply normalize_blank.
  - intros groups Hin. apply collectPaymentMethods_keys in Hin as (g & _ & Hg).
    symmetry in Hg. exact (normalize_nonempty _ Hg).
Qed.

Lemma normalizePaymentMethod_never_empty_witness :
  normalizePaymentMethod (Some (String "009" " ")) = "unknown".
Proof.
  destruct normalizePaymentMethod_never_empty as (_ & _ & _ & Hblank & _).
  apply Hblank. repeat constructor.
Defined.

(** ** Percentage change *)

Module PercentFacts.

Lemma isZero_true (x : Q) : JsMath.isZero x = true <-> (x == 0)%Q.
Proof. unfold JsMath.isZero. apply Qeq_bool_iff. Qed.

Lemma isZero_false (x : Q) : JsMath.isZero x = false <-> ~ (x == 0)%Q.
Proof.
  rewrite <- isZero_true. destruct (JsMath.isZero x); split; intros H;
    congruence || (exfalso; apply H; reflexivity) || discriminate.
Qed.

Lemma ltb_true (x y : Q) : JsMath.ltb x y = true <-> (x < y)%Q.
Proof.
  unfold JsMath.ltb. rewrite negb_true_iff. split.
  - intros H. apply Qnot_le_lt. intros Hle. apply Qle_bool_iff in Hle. congruence.
  - intros H. destruct (Qle_bool y x) eqn:E; [|reflexivity].
    apply Qle_bool_iff in E. exfalso. exact (Qlt_not_le _ _ H E).
Qed.

Lemma ltb_false (x y : Q) : JsMath.ltb x y = false <-> (y <= x)%Q.
Proof.
  unfold JsMath.ltb. rewrite negb_false_iff. apply Qle_bool_iff.
Qed.

(** [Math.round] is within one half of its argument. *)
Lemma round_near (y : Q) :
  (y - (1 # 2) < inject_Z (JsMath.round y) <= y + (1 # 2))%Q.
Proof.
  unfold JsMath.round.
  pose proof (Qfloor_le (y + (1 # 2))) as Hle.
  pose proof (Qlt_floor (y + (1 # 2))) as Hlt.
  rewrite inject_Z_plus in Hlt. change (inject_Z 1) with 1%Q in Hlt.
  split; lra.
Qed.

Lemma orZero_eq (x : Q) : (JsMath.orZero x == x)%Q.
Proof.
  unfold JsMath.orZero. destruct (JsMath.isZero x) eqn:E; [|reflexivity].
  apply isZero_true in E. symmetry. exact E.
Qed.

End PercentFacts.

Lemma calculatePercentageChange_zero_previous (previous current : Q) :
  (previous == 0)%Q ->
  calculatePercentageChange previous current =
  (if JsMath.isPositive current then 100 else 0)%Q.
Proof.
  intros Hp. unfold calculatePercentageChange.
  apply PercentFacts.isZero_true in Hp. now rewrite Hp.
Qed.

Lemma calculatePercentageChange_rounded (previous current : Q) :
  ~ (previous == 0)%Q ->
  let exact := (((current - previous) / previous) * 100)%Q in
  let result := calculatePercentageChange previous current in
  (result * 100 == inject_Z (JsMath.round (exact * 100)))%Q /\
  (exact - (1 # 200) < result <= exact + (1 # 200))%Q.
Proof.
  intros Hp exact result. subst result. unfold calculatePercentageChange.
  apply PercentFacts.isZero_false in Hp. rewrite Hp. fold exact.
  pose proof (PercentFacts.round_near (exact * 100)) as [Hlo Hhi].
  set (n := inject_Z (JsMath.round (exact * 100))) in *.
  split.
  - field.
  - assert (Hdiv : (n / 100 == n * (1 # 100))%Q) by field.
    rewrite Hdiv. split; lra.
Qed.

(** ** Reasoning about computations *)

Module MonadFacts.

Lemma bind_Ok {A B : Type} (m : M A) (k : A -> M B) s b s' :
  bind m k s = (Ok b, s') ->
  exists a s1, m s = (Ok a, s1) /\ k a s1 = (Ok b, s').
Proof.
  unfold bind. destruct (m s) as [[a|e] s1]; intros H.
  - exists a, s1. split; [reflexivity | exact H].
  - discriminate.
Qed.

Lemma bind_Throw {A B : Type} (m : M A) (k : A -> M B) s e s' :
  bind m k s = (Throw e, s') ->
  m s = (Throw e, s') \/
  exists a s1, m s = (Ok a, s1) /\ k a s1 = (Throw e, s').
Proof.
  unfold bind. destruct (m s) as [[a|e0] s1]; intros H.
  - right. exists a, s1. split; [reflexivity | exact H].
  - left. inversion H; subst. reflexivity.
Qed.

Lemma tryCatch_Ok {A : Type} (m : M A) (h : Error -> M A) s a s' :
  tryCatch m h s = (Ok a, s') ->
  m s = (Ok a, s') \/
  exists e s1, m s = (Throw e, s1) /\ h e s1 = (Ok a, s').
Proof.
  unfold tryCatch. destruct (m s) as [[a0|e] s1]; intros H.
  - left. exact H.
  - right. exists e, s1. split; [reflexivity | exact H].
Qed.

Lemma both_Ok {A B : Type} (ma : M A) (mb : M B) s (p : A * B) s' :
  both ma mb s = (Ok p, s') ->
  exists s1, ma s = (Ok (fst p), s1) /\ mb s1 = (Ok (snd p), s').
Proof.
  unfold both. destruct (ma s) as [[a|e] s1] eqn:Ea;
    destruct (mb s1) as [[b|e'] s2] eqn:Eb;
    intros H; inversion H; subst.
  exists s1. split; [reflexivity | exact Eb].
Qed.

Lemma request_Ok {A : Type} (w : World) (q : Query) (answer a : A) s s' :
  request w q answer s = (Ok a, s') ->
  a = answer /\ storeFails w q = false /\
  s' = {| reads := reads s; logged := logged s; issued := q :: issued s |}.
Proof.
  unfold request. destruct (storeFails w q); intros H; inversion H; auto.
Qed.

Lemma caught_default {A : Type} (msg : string) (d a : A) e s s' :
  bind (logError msg e) (fun _ => ret d) s = (Ok a, s') -> a = d.
Proof. unfold bind, logError, logWith, ret. intros H. inversion H. reflexivity. Qed.

End MonadFacts.

(** Inverts a hypothesis that says a sequence of steps ended normally. *)
Ltac invert_run H :=
  let a := fresh "a" in
  let s1 := fresh "s" in
  let H1 := fresh "Hrun" in
  first
    [ apply MonadFacts.bind_Ok in H as (a & s1 & H1 & H)
    | apply MonadFacts.both_Ok in H as (s1 & H1 & H) ];
  cbv beta in H.

Lemma calculateVsPreviousPeriodMetrics_deltas (w : World) (storeId : option string)
    (filters : option DashboardFilters) (currentSales currentTransactions currentExpenses : Q)
    (s s' : Session) (m : DeltaMetrics) :
  calculateVsPreviousPeriodMetrics w storeId filters
    currentSales currentTransactions currentExpenses s = (Ok m, s') ->
  m = zeroDeltas \/
  exists previousSales previousTransactions previousExpenses : Q,
    salesDelta m = calculatePercentageChange previousSales currentSales /\
    expensesDelta m = calculatePercentageChange previousExpenses currentExpenses /\
    profitDelta m = calculatePercentageChange (previousSales - previousExpenses)
                                              (currentSales - currentExpenses) /\
    transactionsDelta m = calculatePercentageChange previousTransactions currentTransactions.
Proof.
  unfold calculateVsPreviousPeriodMetrics. intros H.
  apply MonadFacts.tryCatch_Ok in H as [H|(e & s1 & _ & H)].
  - right. invert_run H. invert_run H. destruct a0 as [tx ex].
    unfold ret in H. inversion H; subst m. clear H.
    do 3 eexists. repeat split; reflexivity.
  - left. eapply MonadFacts.caught_default, H.
Qed.

Lemma calculateVsYesterdayMetrics_deltas (w : World) (storeId : option string)
    (filters : option DashboardFilters) (s s' : Session) (m : DeltaMetrics) :
  calculateVsYesterdayMetrics w storeId filters s = (Ok m, s') ->
  m = zeroDeltas \/
  exists yesterdaySales todaySales_ yesterdayExpenses todayExpenses
         yesterdayTransactions todayTransactions : Q,
    salesDelta m = calculatePercentageChange yesterdaySales todaySales_ /\
    expensesDelta m = calculatePercentageChange yesterdayExpenses todayExpenses /\
    profitDelta m = calculatePercentageChange (yesterdaySales - yesterdayExpenses)
                                              (todaySales_ - todayExpenses) /\
    transactionsDelta m = calculatePercentageChange yesterdayTransactions todayTransactions.
Proof.
  unfold calculateVsYesterdayMetrics. intros H.
  apply MonadFacts.tryCatch_Ok in H as [H|(e & s1 & _ & H)].
  - right. invert_run H. invert_run H. destruct a0 as [ts [tc te]].
    invert_run H. destruct a0 as [ys [yc ye]].
    unfold ret in H. inversion H; subst m. clear H.
    do 6 eexists. repeat split; reflexivity.
  - left. eapply MonadFacts.caught_default, H.
Qed.



(** ** The calendar *)

Module CalendarFacts.
Import JsDate.

Lemma DayFromYear_succ (y : Z) : DayFromYear (y + 1) = DayFromYear y + DaysInYear y.
Proof.
  unfold DayFromYear, DaysInYear, isLeapYear.
  destruct (Z.eqb_spec (y mod 4) 0); destruct (Z.eqb_spec (y mod 100) 0);
    destruct (Z.eqb_spec (y mod 400) 0); cbn [negb];
    replace (y + 1 - 1970) with (y - 1970 + 1) by lia;
    replace (y + 1 - 1969) with (y - 1968) by lia;
    replace (y + 1 - 1901) with (y - 1900) by lia;
    replace (y + 1 - 1601) with (y - 1600) by lia;
    Z.to_euclidean_division_equations; lia.
Qed.

(** The year found for a day contains that day. *)
Lemma YearFromDay_correct (d : Z) :
  DayFromYear (YearFromDay d) <= d < DayFromYear (YearFromDay d + 1).
Proof.
  unfold YearFromDay.
  set (y := 1970 + 400 * d / 146097).
  destruct (Z.ltb_spec d (DayFromYear y)) as [Hlt|Hge].
  - replace (y - 1 + 1) with y by lia. split; [|exact Hlt].
    clear Hlt. subst y. unfold DayFromYear.
    Z.to_euclidean_division_equations. lia.
  - destruct (Z.leb_spec (DayFromYear (y + 1)) d) as [Hle|Hlt].
    + split; [exact Hle|]. clear Hge Hle. subst y. unfold DayFromYear.
      Z.to_euclidean_division_equations. lia.
    + split; [exact Hge | exact Hlt].
Qed.

Lemma monthOfYearDay_range (leap : bool) (d : Z) : 0 <= monthOfYearDay leap d <= 11.
Proof.
  unfold monthOfYearDay.
  repeat match goal with
         | |- context [if ?c then _ else _] => destruct c
         end; lia.
Qed.

Ltac fold_literals :=
  repeat match goal with
         | |- context [Z.pos ?a - 1] =>
             let v := eval compute in (Z.pos a - 1) in change (Z.pos a - 1) with v
         | |- context [?a / 12] =>
             let v := eval compute in (a / 12) in change (a / 12) with v
         | |- context [?a mod 12] =>
             let v := eval compute in (a mod 12) in change (a mod 12) with v
         end.

(** Day 0 of the month after is the last day of the month. *)
Lemma MakeDay_month_end (y m : Z) :
  1 <= m <= 12 ->
  MakeDay y m 0 = MakeDay y (m - 1) 1 + monthLength m y - 1.
Proof.
  intros Hm. unfold MakeDay.
  assert (Hcases : m = 1 \/ m = 2 \/ m = 3 \/ m = 4 \/ m = 5 \/ m = 6 \/
                   m = 7 \/ m = 8 \/ m = 9 \/ m = 10 \/ m = 11 \/ m = 12) by lia.
  destruct Hcases as [->|[->|[->|[->|[->|[->|[->|[->|[->|[->|[->| ->]]]]]]]]]]];
    fold_literals; unfold monthLength;
    try rewrite DayFromYear_succ; unfold DaysInYear;
    replace (y + 0) with y by lia; destruct (isLeapYear y);
    cbn [monthStart Z.eqb Z.leb Z.compare Pos.compare Pos.compare_cont Pos.eqb orb]; lia.
Qed.

(** The fields of a day put together again give the day. *)
Lemma MakeDay_fields (t k : Z) :
  MakeDay (YearFromTime t) (MonthFromTime t) (DateFromTime t + k) = Day t + k.
Proof.
  unfold MakeDay, DateFromTime.
  pose proof (monthOfYearDay_range (InLeapYear t) (DayWithinYear t)) as Hm.
  fold (MonthFromTime t) in Hm.
  rewrite (Z.div_small (MonthFromTime t) 12) by lia.
  rewrite (Z.mod_small (MonthFromTime t) 12) by lia.
  replace (YearFromTime t + 0) with (YearFromTime t) by lia.
  fold (InLeapYear t). unfold DayWithinYear. lia.
Qed.

Lemma day_split (t : Z) : t = Day t * msPerDay + TimeWithinDay t.
Proof.
  unfold Day, TimeWithinDay, msPerDay.
  pose proof (Z.div_mod t 86400000). lia.
Qed.

End CalendarFacts.

Section LocalDateFacts.
Variable w : World.

Lemma setDate_shift (t k : Z) :
  setDate w t (getDate w t + k) = t + k * JsDate.msPerDay.
Proof.
  unfold setDate, getDate. rewrite CalendarFacts.MakeDay_fields.
  unfold UTC, JsDate.MakeDate.
  pose proof (CalendarFacts.day_split (LocalTime w t)) as Hs.
  unfold LocalTime in *. lia.
Qed.

Lemma localDate_month_end (y m : Z) :
  1 <= m <= 12 -> 100 <= y ->
  localDate w y m 0 23 59 59 999 =
  localDate w y (m - 1) 1 0 0 0 0 + monthLength m y * JsDate.msPerDay - 1.
Proof.
  intros Hm Hy. unfold localDate.
  destruct (Z.leb_spec y 99); [lia|]. rewrite andb_false_r.
  rewrite (CalendarFacts.MakeDay_month_end y m Hm).
  unfold UTC, JsDate.MakeDate, JsDate.MakeTime,
    JsDate.msPerDay, JsDate.msPerHour, JsDate.msPerMinute, JsDate.msPerSecond.
  lia.
Qed.

End LocalDateFacts.

(** ** The requests a computation sends *)

Module SendFacts.

Lemma sends_quiet {A : Type} (P : Query -> Prop) (m : M A) :
  (forall s, issued (snd (m s)) = issued s) -> sends P m.
Proof. intros H s. exists []. split; [apply H | constructor]. Qed.

Lemma sends_ret {A : Type} P (a : A) : sends P (ret a).
Proof. apply sends_quiet. reflexivity. Qed.

Lemma sends_throw {A : Type} P e : sends P (@throw A e).
Proof. apply sends_quiet. reflexivity. Qed.

Lemma sends_lift {A : Type} P (o : Outcome A) : sends P (lift o).
Proof. apply sends_quiet. reflexivity. Qed.

Lemma sends_logWith P msg e : sends P (logWith msg e).
Proof. apply sends_quiet. reflexivity. Qed.

Lemma sends_logError P msg e : sends P (logError msg e).
Proof. apply sends_quiet. reflexivity. Qed.

Lemma sends_newDate P w : sends P (newDate w).
Proof. apply sends_quiet. reflexivity. Qed.

Lemma sends_request {A : Type} (P : Query -> Prop) w q (answer : A) :
  P q -> sends P (request w q answer).
Proof.
  intros Hq s. exists [q]. unfold request.
  destruct (storeFails w q); simpl; (split; [reflexivity | repeat constructor; exact Hq]).
Qed.

Lemma sends_bind {A B : Type} P (m : M A) (k : A -> M B) :
  sends P m -> (forall a, sends P (k a)) -> sends P (bind m k).
Proof.
  intros Hm Hk s. unfold bind. destruct (Hm s) as (l & Hl & HP).
  destruct (m s) as [[a|e] s1]; simpl in *.
  - destruct (Hk a s1) as (l' & Hl' & HP'). exists (l' ++ l).
    rewrite Hl', Hl, app_assoc. split; [reflexivity | apply Forall_app; split; assumption].
  - exists l. split; assumption.
Qed.

Lemma sends_tryCatch {A : Type} P (m : M A) (h : Error -> M A) :
  sends P m -> (forall e, sends P (h e)) -> sends P (tryCatch m h).
Proof.
  intros Hm Hh s. unfold tryCatch. destruct (Hm s) as (l & Hl & HP).
  destruct (m s) as [[a|e] s1]; simpl in *.
  - exists l. split; assumption.
  - destruct (Hh e s1) as (l' & Hl' & HP'). exists (l' ++ l).
    rewrite Hl', Hl, app_assoc. split; [reflexivity | apply Forall_app; split; assumption].
Qed.

Lemma sends_both {A B : Type} P (ma : M A) (mb : M B) :
  sends P ma -> sends P mb -> sends P (both ma mb).
Proof.
  intros Ha Hb s. unfold both. destruct (Ha s) as (l & Hl & HP).
  destruct (ma s) as [oa s1]; simpl in *.
  destruct (Hb s1) as (l' & Hl' & HP'). destruct (mb s1) as [ob s2]; simpl in *.
  exists (l' ++ l). rewrite Hl', Hl, app_assoc.
  split; [reflexivity | apply Forall_app; split; assumption].
Qed.

Lemma sends_weaken {A : Type} (P R : Query -> Prop) (m : M A) :
  (forall q, P q -> R q) -> sends P m -> sends R m.
Proof.
  intros HPR Hm s. destruct (Hm s) as (l & Hl & HP). exists l. split; [exact Hl|].
  eapply Forall_impl; [exact HP | exact HPR].
Qed.

(** A request on record stays on record. *)
Lemma sends_keeps {A : Type} P (m : M A) q s :
  sends P m -> In q (issued s) -> In q (issued (snd (m s))).
Proof.
  intros Hm Hin. destruct (Hm s) as (l & Hl & _). rewrite Hl.
  apply in_or_app. right. exact Hin.
Qed.

End SendFacts.

(** One step of a proof that a service only sends requests of a kind. *)
Ltac sends_step :=
  lazymatch goal with
  | |- sends _ (ret _) => apply SendFacts.sends_ret
  | |- sends _ (throw _) => apply SendFacts.sends_throw
  | |- sends _ (lift _) => apply SendFacts.sends_lift
  | |- sends _ (logWith _ _) => apply SendFacts.sends_logWith
  | |- sends _ (logError _ _) => apply SendFacts.sends_logError
  | |- sends _ (newDate _) => apply SendFacts.sends_newDate
  | |- sends _ (bind _ _) => apply SendFacts.sends_bind; [|intros]
  | |- sends _ (tryCatch _ _) => apply SendFacts.sends_tryCatch; [|intros]
  | |- sends _ (both _ _) => apply SendFacts.sends_both
  | |- sends _ (request _ _ _) => apply SendFacts.sends_request
  | |- sends _ (match ?x with _ => _ end) => destruct x
  end.

Ltac sends_all := repeat sends_step.

Section SendsNothing.
Variable w : World.
Variable P : Query -> Prop.

Lemma sends_getTodayRange tz : sends P (getTodayRange w tz).
Proof. unfold getTodayRange. sends_all. Qed.

Lemma sends_getThisMonthRange tz : sends P (getThisMonthRange w tz).
Proof. unfold getThisMonthRange. sends_all. Qed.

Lemma sends_getLastNDaysRange n tz : sends P (getLastNDaysRange w n tz).
Proof. unfold getLastNDaysRange. sends_all. Qed.

Ltac sends_range :=
  lazymatch goal with
  | |- sends _ (getTodayRange _ _) => apply sends_getTodayRange
  | |- sends _ (getThisMonthRange _ _) => apply sends_getThisMonthRange
  | |- sends _ (getLastNDaysRange _ _ _) => apply sends_getLastNDaysRange
  end.

Lemma sends_getDateFilter filters tz : sends P (getDateFilter w filters tz).
Proof. unfold getDateFilter. sends_all; sends_range. Qed.

Lemma sends_growthPeriods filters tz : sends P (growthPeriods w filters tz).
Proof.
  unfold growthPeriods, customPeriods, tokenPeriods, monthlyPeriods, asDate.
  sends_all; sends_range.
Qed.

Lemma sends_previousPeriods filters tz : sends P (previousPeriods w filters tz).
Proof.
  unfold previousPeriods, monthYearPeriods, customPeriods, tokenPeriods,
    monthlyPeriods, asDate.
  sends_all; sends_range.
Qed.

End SendsNothing.

(** ** Month and year filters *)

Lemma getMonthYearRange_calendarMonth (w : World) (m y : Z) (tz : string) :
  1 <= m <= 12 -> 1900 <= y <= 2100 ->
  getMonthYearRange w m y tz = Ok (calendarMonth w m y).
Proof.
  intros Hm Hy. unfold getMonthYearRange, calendarMonth.
  destruct (Z.ltb_spec m 1); [lia|]. destruct (Z.ltb_spec 12 m); [lia|].
  destruct (Z.ltb_spec y 1900); [lia|]. destruct (Z.ltb_spec 2100 y); [lia|].
  cbn [orb]. replace (m - 1 + 1) with m by lia.
  rewrite (localDate_month_end w y m) by lia. reflexivity.
Qed.

Lemma getMonthYearRange_rejects_year (w : World) (m y : Z) (tz : string) :
  1 <= m <= 12 -> y < 1900 ->
  getMonthYearRange w m y tz = Throw (InvalidYear y).
Proof.
  intros Hm Hy. unfold getMonthYearRange.
  destruct (Z.ltb_spec m 1); [lia|]. destruct (Z.ltb_spec 12 m); [lia|].
  destruct (Z.ltb_spec y 1900); [|lia]. reflexivity.
Qed.

(** December ends one millisecond before January of the next year starts. *)
Lemma calendarMonth_december_adjacent (w : World) (y : Z) :
  1900 <= y ->
  end_ (calendarMonth w 12 (y - 1)) + 1 = start (calendarMonth w 1 y).
Proof.
  intros Hy. unfold calendarMonth. cbn [start end_].
  rewrite <- (localDate_month_end w (y - 1) 12) by lia.
  unfold localDate.
  destruct (Z.leb_spec y 99); [lia|]. destruct (Z.leb_spec (y - 1) 99); [lia|].
  rewrite !andb_false_r.
  unfold JsDate.MakeDay. change (12 / 12) with 1. change (12 mod 12) with 0.
  change (1 - 1) with 0. change (0 / 12) with 0. change (0 mod 12) with 0.
  replace (y - 1 + 1) with y by lia. replace (y + 0) with y by lia.
  unfold UTC, JsDate.MakeDate, JsDate.MakeTime,
    JsDate.msPerDay, JsDate.msPerHour, JsDate.msPerMinute, JsDate.msPerSecond.
  lia.
Qed.

Lemma sends_getExpenseStats (w : World) (P : Query -> Prop) storeId a b :
  (forall f p, P (QExpenses f p)) -> sends P (getExpenseStats w storeId a b).
Proof. intros HP. unfold getExpenseStats. sends_all; apply HP. Qed.

Lemma previousPeriods_month_year (w : World) (f : DashboardFilters) (tz : string)
    (s : Session) (m y : Z) :
  month f = Some m -> year f = Some y -> 1 <= m -> 1900 <= y ->
  previousPeriods w (Some f) tz s = monthYearPeriods w m y tz s.
Proof.
  intros Hm Hy Hm1 Hy1. unfold previousPeriods. rewrite Hm, Hy. unfold truthyNumber.
  destruct (Z.eqb_spec m 0); [lia|]. destruct (Z.eqb_spec y 0); [lia|]. reflexivity.
Qed.

(** C8 (the claim as amended).  Under a month and year filter the previous
    period of the comparison is the full calendar month before: December
    of the year before for January of a year from 1901 to 2100, and the
    month before in the same year for the months 2 to 12 of a year from
    1900 to 2100; the previous totals are requested over exactly that
    window. *)
Theorem previous_period_is_previous_month :
  forall (w : World) (storeId : option string) (f : DashboardFilters)
         (s : Session) (m y : Z) (currentSales currentTransactions currentExpenses : Q),
    month f = Some m -> year f = Some y ->
    (m = 1 /\ 1901 <= y <= 2100) \/ (2 <= m <= 12 /\ 1900 <= y <= 2100) ->
    let previous :=
      if m =? 1 then calendarMonth w 12 (y - 1) else calendarMonth w (m - 1) y in
    previousPeriods w (Some f) (getStoreTimezone storeId) s =
      (Ok {| currentPeriod := calendarMonth w m y; previousPeriod := previous |}, s) /\
    (m = 1 -> end_ previous + 1 = start (calendarMonth w m y)) /\
    In (QTransactions
          (within (baseFilterOf storeId (Some f) (StatusIn DEFAULT_STATUSES))
                  (Some (start previous)) (Some (end_ previous)))
          TxTotalAndCount)
       (issued (snd (calculateVsPreviousPeriodMetrics w storeId (Some f)
                       currentSales currentTransactions currentExpenses s))).
Proof.
  intros w storeId f s m y cs ct ce Hm Hy Hrange previous.
  assert (Hperiods :
            previousPeriods w (Some f) (getStoreTimezone storeId) s =
            (Ok {| currentPeriod := calendarMonth w m y; previousPeriod := previous |}, s)).
  { rewrite (previousPeriods_month_year w f _ s m y Hm Hy) by lia.
    unfold monthYearPeriods, bind, lift, ret.
    rewrite getMonthYearRange_calendarMonth by lia.
    subst previous. destruct Hrange as [[-> Hy1]|[Hm1 Hy1]].
    - change (1 - 1 <? 1) with true. cbv iota beta.
      rewrite getMonthYearRange_calendarMonth by lia. reflexivity.
    - destruct (Z.ltb_spec (m - 1) 1); [lia|]. destruct (Z.eqb_spec m 1); [lia|].
      cbv iota beta. rewrite getMonthYearRange_calendarMonth by lia. reflexivity. }
  split; [exact Hperiods|]. split.
  - intros ->. subst previous. change (1 =? 1) with true. cbv iota.
    apply calendarMonth_december_adjacent. lia.
  - unfold calculateVsPreviousPeriodMetrics, tryCatch, bind at 1.
    rewrite Hperiods. cbn [currentPeriod previousPeriod].
    set (q := QTransactions _ TxTotalAndCount).
    set (stats := getExpenseStats w storeId _ _).
    assert (Hstats : sends (fun _ => True) stats).
    { apply sends_getExpenseStats. intros. exact I. }
    unfold bind, both.
    destruct (request w q _ s) as [o1 s1] eqn:E1.
    assert (Hin1 : In q (issued s1)).
    { unfold request in E1. destruct (storeFails w q); inversion E1; subst; left; reflexivity. }
    pose proof (SendFacts.sends_keeps _ stats q s1 Hstats Hin1) as Hin2.
    destruct (stats s1) as [o2 s2]. cbn [snd] in Hin2.
    destruct o1 as [a1|e1]; destruct o2 as [a2|e2]; cbn; exact Hin2.
Qed.

Lemma previous_period_witness :
  previousPeriods Sample.world (Some (Sample.monthOf 1 2025))
    (getStoreTimezone Sample.store) freshSession =
  (Ok {| currentPeriod := calendarMonth Sample.world 1 2025;
         previousPeriod := calendarMonth Sample.world 12 2024 |}, freshSession).
Proof.
  refine (proj1 (previous_period_is_previous_month Sample.world Sample.store
                   (Sample.monthOf 1 2025) freshSession 1 2025 0 0 0 _ _ _)).
  - reflexivity.
  - reflexivity.
  - left. split; [reflexivity | split; discriminate].
Defined.

(** C8 as stated fails for January 1900: December 1899 is outside the
    years [getMonthYearRange] accepts, so no previous period is resolved
    and every delta is reported as 0. *)
Lemma previous_period_january_1900_counterexample :
  previousPeriods Sample.world (Some (Sample.monthOf 1 1900))
    (getStoreTimezone Sample.store) freshSession =
  (Throw (InvalidYear 1899), freshSession) /\
  fst (calculateVsPreviousPeriodMetrics Sample.world Sample.store
         (Some (Sample.monthOf 1 1900)) 150 2 10 freshSession) = Ok zeroDeltas.
Proof. split; vm_compute; reflexivity. Qed.

(** ** Date strings *)

Module ParseFacts.

Lemma length_ofChars (l : list ascii) :
  String.length (JsString.ofChars l) = List.length l.
Proof. induction l as [|c l IH]; simpl; [reflexivity | now rewrite IH]. Qed.

Lemma datePortion_short (s : string) :
  JsString.length (datePortion s) <= 10.
Proof.
  unfold datePortion. destruct (Z.ltb_spec 10 (JsString.length s)) as [H|H]; [|exact H].
  unfold JsString.length, JsString.slice0. rewrite length_ofChars.
  pose proof (firstn_le_length 10 (JsString.chars s)). lia.
Qed.

Lemma datePortion_idem (s : string) : datePortion (datePortion s) = datePortion s.
Proof.
  pose proof (datePortion_short s) as H.
  unfold datePortion at 1. destruct (Z.ltb_spec 10 (JsString.length (datePortion s))); [lia|].
  reflexivity.
Qed.

Lemma dateFields_portion (s : string) : dateFields (datePortion s) = dateFields s.
Proof. unfold dateFields. now rewrite datePortion_idem. Qed.

Lemma trunc_bounds (x : Q) (a b : Z) :
  0 <= a -> (inject_Z a <= x <= inject_Z b)%Q -> a <= JsMath.trunc x <= b.
Proof.
  intros Ha [Hlo Hhi]. unfold JsMath.trunc.
  assert (H0 : (0 <= x)%Q).
  { eapply Qle_trans; [|exact Hlo]. change 0%Q with (inject_Z 0).
    rewrite <- Zle_Qle. exact Ha. }
  apply Qle_bool_iff in H0. rewrite H0. split.
  - rewrite <- (Qfloor_Z a). apply Qfloor_resp_le. exact Hlo.
  - rewrite <- (Qfloor_Z b). apply Qfloor_resp_le. exact Hhi.
Qed.

(** What [parseDateInTimezone] returns, in terms of the fields. *)
Lemma parseDateInTimezone_fields (w : World) (s tz : string) (b : Boundary) :
  parseDateInTimezone w s tz b =
  match dateFields s with
  | (Fin y, Fin m, Fin d) =>
      if JsMath.ltb y 1900 || JsMath.ltb 2100 y
         || JsMath.ltb m 1 || JsMath.ltb 12 m
         || JsMath.ltb d 1 || JsMath.ltb 31 d
      then Throw InvalidDateComponents
      else match timeClip (match b with
                           | AtStart => dayStart w y m d
                           | AtEnd => dayEnd w y m d
                           end) with
           | Some t => Ok t
           | None => Throw InvalidDate
           end
  | _ => Throw InvalidDateComponents
  end.
Proof.
  unfold parseDateInTimezone, dateFields, dayStart, dayEnd.
  set (parts := map JsNumber.Number _).
  destruct (component parts 0) as [|y|]; [reflexivity| |reflexivity].
  destruct (component parts 1) as [|m|]; [reflexivity| |reflexivity].
  destruct (component parts 2) as [|d|]; [reflexivity| |reflexivity].
  destruct (_ || _); [reflexivity|]. destruct b; reflexivity.
Qed.

Lemma range_check (y m d : Q) :
  JsMath.ltb y 1900 || JsMath.ltb 2100 y
  || JsMath.ltb m 1 || JsMath.ltb 12 m
  || JsMath.ltb d 1 || JsMath.ltb 31 d = false <->
  (1900 <= y <= 2100)%Q /\ (1 <= m <= 12)%Q /\ (1 <= d <= 31)%Q.
Proof.
  rewrite !orb_false_iff, !PercentFacts.ltb_false. tauto.
Qed.

(** A parse that succeeds comes from a well-formed string. *)
Lemma parseDateInTimezone_Ok (w : World) (s tz : string) (b : Boundary) (t : Z) :
  parseDateInTimezone w s tz b = Ok t ->
  exists y m d : Q,
    dateFields s = (Fin y, Fin m, Fin d) /\
    ((1900 <= y <= 2100)%Q /\ (1 <= m <= 12)%Q /\ (1 <= d <= 31)%Q) /\
    t = match b with AtStart => dayStart w y m d | AtEnd => dayEnd w y m d end.
Proof.
  rewrite parseDateInTimezone_fields.
  destruct (dateFields s) as [[[|y|] [|m|]] [|d|]]; try discriminate.
  destruct (_ || _) eqn:Hr; [discriminate|].
  apply range_check in Hr.
  destruct (timeClip _) as [t'|] eqn:Hc; [|discriminate].
  intros H. inversion H; subst t'. exists y, m, d. split; [reflexivity|]. split; [exact Hr|].
  unfold timeClip in Hc. destruct (_ <=? _); [|discriminate]. now inversion Hc.
Qed.

Lemma MakeDay_bounds (y m d : Z) :
  1900 <= y <= 2100 -> 0 <= m <= 11 -> 1 <= d <= 31 ->
  -30000 <= JsDate.MakeDay y m d <= 50000.
Proof.
  intros Hy Hm Hd. unfold JsDate.MakeDay.
  rewrite (Z.div_small m 12) by lia. rewrite (Z.mod_small m 12) by lia.
  replace (y + 0) with y by lia.
  assert (Hs : 0 <= JsDate.monthStart (JsDate.isLeapYear y) m <= 366).
  { unfold JsDate.monthStart.
    repeat match goal with
           | |- context [if ?c then _ else _] => destruct c
           end; lia. }
  unfold JsDate.DayFromYear. Z.to_euclidean_division_equations. lia.
Qed.

(** In a zone within a day of UTC a well-formed date is never clipped. *)
Lemma wellFormed_not_clipped (w : World) (y m d : Q) (h mi sec ms : Z) :
  -1440 <= serverOffset w <= 1440 ->
  (1900 <= y <= 2100)%Q -> (1 <= m <= 12)%Q -> (1 <= d <= 31)%Q ->
  0 <= h <= 23 -> 0 <= mi <= 59 -> 0 <= sec <= 59 -> 0 <= ms <= 999 ->
  let t := localDate w (JsMath.trunc y) (JsMath.trunc (m - 1)) (JsMath.trunc d) h mi sec ms in
  timeClip t = Some t.
Proof.
  intros Hoff Hy Hm Hd Hh Hmi Hs Hms t.
  assert (Hy' : 1900 <= JsMath.trunc y <= 2100) by (apply trunc_bounds; [lia | exact Hy]).
  assert (Hm' : 0 <= JsMath.trunc (m - 1) <= 11).
  { apply trunc_bounds; [lia|]. change (inject_Z 0) with 0%Q.
    change (inject_Z 11) with 11%Q. destruct Hm. split; lra. }
  assert (Hd' : 1 <= JsMath.trunc d <= 31) by (apply trunc_bounds; [lia | exact Hd]).
  pose proof (MakeDay_bounds _ _ _ Hy' Hm' Hd') as Hday.
  subst t. unfold timeClip, localDate.
  destruct (Z.leb_spec (JsMath.trunc y) 99); [lia|]. rewrite andb_false_r.
  set (D := JsDate.MakeDay _ _ _) in *.
  unfold UTC, LocalTZA, JsDate.MakeDate, JsDate.MakeTime,
    JsDate.msPerDay, JsDate.msPerHour, JsDate.msPerMinute, JsDate.msPerSecond.
  destruct (Z.leb_spec (Z.abs (D * 86400000 + (h * 3600000 + mi * 60000 + sec * 1000 + ms)
                               - serverOffset w * 60000)) 8640000000000000);
    [reflexivity | lia].
Qed.

End ParseFacts.

Lemma parseDateRange_Some (w : World) (s e tz : string) (r : DateRange) :
  parseDateRange w (Some s) (Some e) tz = Some r ->
  exists y m d y' m' d' : Q,
    dateFields s = (Fin y, Fin m, Fin d) /\
    ((1900 <= y <= 2100)%Q /\ (1 <= m <= 12)%Q /\ (1 <= d <= 31)%Q) /\
    dateFields e = (Fin y', Fin m', Fin d') /\
    ((1900 <= y' <= 2100)%Q /\ (1 <= m' <= 12)%Q /\ (1 <= d' <= 31)%Q) /\
    r = {| start := dayStart w y m d; end_ := dayEnd w y' m' d' |}.
Proof.
  unfold parseDateRange. destruct (falsy (Some s) || falsy (Some e)); [discriminate|].
  destruct (parseDateInTimezone w (datePortion s) tz AtStart) as [t1|] eqn:E1;
    [|discriminate].
  destruct (parseDateInTimezone w (datePortion e) tz AtEnd) as [t2|] eqn:E2;
    [|discriminate].
  intros H. inversion H; subst r. clear H.
  apply ParseFacts.parseDateInTimezone_Ok in E1 as (y & m & d & F1 & R1 & ->).
  apply ParseFacts.parseDateInTimezone_Ok in E2 as (y' & m' & d' & F2 & R2 & ->).
  rewrite ParseFacts.dateFields_portion in F1, F2.
  exists y, m, d, y', m', d'. repeat split; tauto.
Qed.

Lemma localDate_day_bounds (w : World) (y m d : Z) :
  JsDate.TimeWithinDay (LocalTime w (localDate w y m d 0 0 0 0)) = 0 /\
  localDate w y m d 23 59 59 999 = localDate w y m d 0 0 0 0 + JsDate.msPerDay - 1.
Proof.
  unfold localDate, LocalTime, UTC, JsDate.TimeWithinDay, JsDate.MakeDate, JsDate.MakeTime,
    JsDate.msPerDay, JsDate.msPerHour, JsDate.msPerMinute, JsDate.msPerSecond.
  split; [|lia].
  match goal with
  | |- (?D * 86400000 + ?z - ?o + ?o) mod _ = 0 =>
      replace (D * 86400000 + z - o + o) with (D * 86400000) by lia
  end.
  apply Z.mod_mul. lia.
Qed.

Lemma parseDateRange_empty (w : World) (s e tz : string) :
  s = "" \/ e = "" -> parseDateRange w (Some s) (Some e) tz = None.
Proof.
  intros [-> | ->]; unfold parseDateRange.
  - reflexivity.
  - replace (falsy (Some "")) with true by reflexivity.
    rewrite orb_true_r. reflexivity.
Qed.

Lemma falsy_datePortion (x : string) :
  falsy (Some (datePortion x)) = falsy (Some x).
Proof.
  unfold datePortion.
  destruct (Z.ltb_spec 10 (JsString.length x)) as [Hl|Hl]; [|reflexivity].
  destruct x as [|c x]; [reflexivity|].
  unfold JsString.slice0, JsString.chars, falsy.
  cbn [list_ascii_of_string firstn JsString.ofChars string_of_list_ascii String.eqb].
  reflexivity.
Qed.

Lemma parseDateRange_truncates (w : World) (s e tz : string) :
  parseDateRange w (Some s) (Some e) tz =
  parseDateRange w (Some (datePortion s)) (Some (datePortion e)) tz.
Proof.
  unfold parseDateRange.
  rewrite !ParseFacts.datePortion_idem, !falsy_datePortion. reflexivity.
Qed.

Lemma parseDateRange_rejects (w : World) (s e tz : string) :
  ~ wellFormedDate s \/ ~ wellFormedDate e ->
  parseDateRange w (Some s) (Some e) tz = None.
Proof.
  intros Hbad.
  destruct (parseDateRange w (Some s) (Some e) tz) as [r|] eqn:E; [|reflexivity].
  exfalso. apply parseDateRange_Some in E
    as (y & m & d & y' & m' & d' & F1 & R1 & F2 & R2 & _).
  destruct Hbad as [Hbad|Hbad]; apply Hbad.
  - exists y, m, d. tauto.
  - exists y', m', d'. tauto.
Qed.

Lemma last_millisecond (t : Z) :
  JsDate.TimeWithinDay t = 0 ->
  JsDate.TimeWithinDay (t + JsDate.msPerDay - 1) = JsDate.msPerDay - 1.
Proof.
  unfold JsDate.TimeWithinDay, JsDate.msPerDay. intros H.
  pose proof (Z.div_mod t 86400000). Z.to_euclidean_division_equations. lia.
Qed.

Lemma dayEnd_within_day (w : World) (y m d : Q) :
  JsDate.TimeWithinDay (LocalTime w (dayEnd w y m d)) = JsDate.msPerDay - 1.
Proof.
  unfold dayEnd.
  destruct (localDate_day_bounds w (JsMath.trunc y) (JsMath.trunc (m - 1))
              (JsMath.trunc d)) as [H0 H1].
  rewrite H1. generalize dependent (localDate w (JsMath.trunc y) (JsMath.trunc (m - 1))
                                      (JsMath.trunc d) 0 0 0 0).
  intros t0 H0 _. unfold LocalTime in *.
  replace (t0 + JsDate.msPerDay - 1 + LocalTZA w)
    with ((t0 + LocalTZA w) + JsDate.msPerDay - 1) by lia.
  apply last_millisecond. exact H0.
Qed.

Lemma parseDateRange_day_bounds (w : World) (s e tz : string) (r : DateRange) :
  parseDateRange w (Some s) (Some e) tz = Some r ->
  exists y m d y' m' d' : Q,
    dateFields s = (Fin y, Fin m, Fin d) /\
    dateFields e = (Fin y', Fin m', Fin d') /\
    start r = dayStart w y m d /\
    end_ r = dayEnd w y' m' d' /\
    JsDate.TimeWithinDay (LocalTime w (start r)) = 0 /\
    JsDate.TimeWithinDay (LocalTime w (end_ r)) = JsDate.msPerDay - 1.
Proof.
  intros E. apply parseDateRange_Some in E
    as (y & m & d & y' & m' & d' & F1 & R1 & F2 & R2 & ->).
  exists y, m, d, y', m', d'. cbn [start end_].
  split; [exact F1|]. split; [exact F2|]. split; [reflexivity|]. split; [reflexivity|].
  split.
  - unfold dayStart. apply localDate_day_bounds.
  - apply dayEnd_within_day.
Qed.

Lemma wellFormedDate_truthy (s : string) : wellFormedDate s -> falsy (Some s) = false.
Proof.
  intros (y & m & d & F & _). destruct s; [|reflexivity].
  exfalso. vm_compute in F. discriminate.
Qed.

Lemma parseDateRange_accepts (w : World) (s e tz : string) :
  -1440 <= serverOffset w <= 1440 ->
  wellFormedDate s -> wellFormedDate e ->
  exists r, parseDateRange w (Some s) (Some e) tz = Some r.
Proof.
  intros Hoff Hs He.
  pose proof (wellFormedDate_truthy s Hs) as Ts.
  pose proof (wellFormedDate_truthy e He) as Te.
  destruct Hs as (y & m & d & F1 & Ry & Rm & Rd).
  destruct He as (y' & m' & d' & F2 & Ry' & Rm' & Rd').
  unfold parseDateRange. rewrite Ts, Te. cbn [orb].
  rewrite !ParseFacts.parseDateInTimezone_fields, !ParseFacts.dateFields_portion, F1, F2.
  assert (H1 : JsMath.ltb y 1900 || JsMath.ltb 2100 y || JsMath.ltb m 1
               || JsMath.ltb 12 m || JsMath.ltb d 1 || JsMath.ltb 31 d = false)
    by (apply ParseFacts.range_check; tauto).
  assert (H2 : JsMath.ltb y' 1900 || JsMath.ltb 2100 y' || JsMath.ltb m' 1
               || JsMath.ltb 12 m' || JsMath.ltb d' 1 || JsMath.ltb 31 d' = false)
    by (apply ParseFacts.range_check; tauto).
  rewrite H1, H2. unfold dayStart, dayEnd.
  rewrite !ParseFacts.wellFormed_not_clipped by (assumption || lia).
  eexists. reflexivity.
Qed.



(** ** Today *)

Lemma fields_by_day (t1 t2 : Z) :
  JsDate.Day t1 = JsDate.Day t2 ->
  JsDate.YearFromTime t1 = JsDate.YearFromTime t2 /\
  JsDate.MonthFromTime t1 = JsDate.MonthFromTime t2 /\
  JsDate.DateFromTime t1 = JsDate.DateFromTime t2.
Proof.
  intros H. unfold JsDate.DateFromTime, JsDate.MonthFromTime, JsDate.InLeapYear,
    JsDate.DayWithinYear, JsDate.YearFromTime. rewrite H. auto.
Qed.

(** The local midnight of the day of a time value, built from its fields. *)
Lemma localDate_of_fields (w : World) (t : Z) :
  100 <= getFullYear w t ->
  localDate w (getFullYear w t) (getMonth w t) (getDate w t) 0 0 0 0 =
  JsDate.Day (LocalTime w t) * JsDate.msPerDay - LocalTZA w.
Proof.
  intros Hy. unfold localDate.
  destruct (Z.leb_spec (getFullYear w t) 99); [lia|]. rewrite andb_false_r.
  unfold getFullYear, getMonth, getDate.
  replace (JsDate.DateFromTime (LocalTime w t))
    with (JsDate.DateFromTime (LocalTime w t) + 0) by lia.
  rewrite CalendarFacts.MakeDay_fields.
  unfold UTC, JsDate.MakeDate, JsDate.MakeTime. lia.
Qed.

Lemma getTodayRange_process_day (w : World) (tz : string) (s : Session) :
  100 <= getFullYear w (clockAt w (reads s)) ->
  fst (getTodayRange w tz s) =
  Ok (todayRangeIn (serverOffset w) (clockAt w (reads s))).
Proof.
  intros Hy. unfold getTodayRange, bind, newDate, ret. cbn [fst].
  set (now := clockAt w (reads s)) in *.
  set (today := localDate w (getFullYear w now) (getMonth w now) (getDate w now) 0 0 0 0).
  assert (Htoday : today = JsDate.Day (LocalTime w now) * JsDate.msPerDay - LocalTZA w)
    by (apply localDate_of_fields; exact Hy).
  assert (Hday : JsDate.Day (LocalTime w today) = JsDate.Day (LocalTime w now)).
  { rewrite Htoday. unfold LocalTime at 1.
    replace (JsDate.Day (LocalTime w now) * JsDate.msPerDay - LocalTZA w + LocalTZA w)
      with (JsDate.Day (LocalTime w now) * JsDate.msPerDay) by lia.
    unfold JsDate.Day at 1. apply Z.div_mul. unfold JsDate.msPerDay. lia. }
  destruct (fields_by_day _ _ Hday) as (Hyr & Hmo & Hdt).
  unfold getFullYear, getMonth, getDate in *. rewrite Hyr, Hmo, Hdt.
  fold (getFullYear w now) (getMonth w now) (getDate w now).
  destruct (localDate_day_bounds w (getFullYear w now) (getMonth w now) (getDate w now))
    as [_ Hend].
  rewrite Hend.
  change (localDate w (getFullYear w now) (getMonth w now) (getDate w now) 0 0 0 0)
    with today.
  rewrite Htoday.
  unfold todayRangeIn, LocalTime, LocalTZA. reflexivity.
Qed.

(** C4 fails on the code: [getTodayRange] never looks at its [timezone]
    argument.  Its window is the current day of the zone the process runs
    in; late in the evening of the first of January in UTC, for a store in
    [Europe/Nicosia], that is the first of January, while the day of the
    store is already the second. *)
Theorem getTodayRange_ignores_timezone :
  (forall (w : World) (tz tz' : string) (s : Session),
      getTodayRange w tz s = getTodayRange w tz' s) /\
  (forall (w : World) (tz : string) (s : Session),
      100 <= getFullYear w (clockAt w (reads s)) ->
      fst (getTodayRange w tz s) =
      Ok (todayRangeIn (serverOffset w) (clockAt w (reads s)))) /\
  (let w := Sample.worldAt Sample.lateEvening (fun _ => false) in
   fst (getTodayRange w "Europe/Nicosia" freshSession) =
     Ok {| start := Sample.jan1; end_ := Sample.jan1 + Sample.day - 1 |} /\
   todayRangeIn (zoneOffset w "Europe/Nicosia") Sample.lateEvening =
     {| start := Sample.jan1 + 22 * JsDate.msPerHour;
        end_ := Sample.jan1 + 22 * JsDate.msPerHour + Sample.day - 1 |}).
Proof.
  split; [|split].
  - reflexivity.
  - apply getTodayRange_process_day.
  - split; vm_compute; reflexivity.
Qed.

(** ** The status filter of the dashboard's requests *)

Ltac sends_request_goal :=
  cbn [kinded filtersStatus ownStatus ownPipeline f_status within baseFilterOf];
  repeat split; auto; try (intros []).

Ltac sends_helper :=
  lazymatch goal with
  | |- sends _ (getTodayRange _ _) => apply sends_getTodayRange
  | |- sends _ (getThisMonthRange _ _) => apply sends_getThisMonthRange
  | |- sends _ (getLastNDaysRange _ _ _) => apply sends_getLastNDaysRange
  | |- sends _ (getDateFilter _ _ _) => apply sends_getDateFilter
  | |- sends _ (growthPeriods _ _ _) => apply sends_growthPeriods
  | |- sends _ (previousPeriods _ _ _) => apply sends_previousPeriods
  | |- sends _ (let _ := _ in _) => cbv zeta
  end.

Ltac sends_service := repeat first [ sends_step | sends_helper ].

Section StatusOfRequests.
Variable w : World.
Variable storeId : option string.

Let anyStatus : option StatusCond -> Prop := fun _ => True.
Let other : TxPipeline -> Prop := fun p => ~ ownPipeline p.

Lemma sends_getExpenseSeries S K a b :
  sends (kinded S K) (getExpenseSeries w a b storeId).
Proof. unfold getExpenseSeries. sends_service; exact I. Qed.

Lemma sends_getExpenseStats_kinded S K a b :
  sends (kinded S K) (getExpenseStats w storeId a b).
Proof. apply sends_getExpenseStats. intros. exact I. Qed.

Lemma sends_getExpensesByDateRange S K a b :
  sends (kinded S K) (getExpensesByDateRange w a b storeId).
Proof. unfold getExpensesByDateRange. sends_service; exact I. Qed.

Lemma baseFilter_status filters :
  f_status (baseFilterOf storeId filters (StatusIn DEFAULT_STATUSES)) =
  Some (statusCondition (requestedStatus filters)).
Proof. destruct filters; reflexivity. Qed.

Lemma sends_getTopProducts limit filters :
  sends (kinded (eq (Some (statusCondition (requestedStatus filters)))) other)
        (getTopProducts w storeId limit filters).
Proof.
  unfold getTopProducts. sends_service;
    repeat match goal with
           | |- context [match ?x with _ => _ end] => is_var x; destruct x
           end;
    cbn [kinded f_status within]; rewrite ?baseFilter_status;
    (split; [reflexivity | intros []]).
Qed.

Lemma sends_getSalesByMonth filters :
  sends (kinded (eq (Some (statusCondition (requestedStatus filters)))) other)
        (getSalesByMonth w storeId filters).
Proof.
  unfold getSalesByMonth. sends_service.
  cbn [kinded f_status within]. rewrite baseFilter_status.
  split; [reflexivity | intros []].
Qed.

Lemma sends_calculateGrowthRate filters :
  sends (kinded (eq (Some (statusCondition (requestedStatus filters)))) other)
        (calculateGrowthRate w storeId filters).
Proof.
  unfold calculateGrowthRate. sends_service;
    cbn [kinded f_status within]; rewrite ?baseFilter_status;
    (split; [reflexivity | intros []]).
Qed.

Lemma sends_calculateVsPreviousPeriodMetrics filters cs ct ce :
  sends (kinded (eq (Some (statusCondition (requestedStatus filters)))) other)
        (calculateVsPreviousPeriodMetrics w storeId filters cs ct ce).
Proof.
  unfold calculateVsPreviousPeriodMetrics. sends_service;
    try apply sends_getExpenseStats_kinded;
    cbn [kinded f_status within]; rewrite ?baseFilter_status;
    (split; [reflexivity | intros []]).
Qed.

(** With a filter object the comparison with yesterday filters on the
    requested status. *)
Lemma sends_calculateVsYesterdayMetrics_filtered f :
  sends (kinded (eq (Some (statusCondition (status f)))) other)
        (calculateVsYesterdayMetrics w storeId (Some f)).
Proof.
  unfold calculateVsYesterdayMetrics. sends_service;
    try apply sends_getExpensesByDateRange;
    cbn [kinded f_status within baseFilterOf];
    (split; [reflexivity | intros []]).
Qed.

Lemma sends_calculateVsYesterdayMetrics filters :
  sends (kinded anyStatus other) (calculateVsYesterdayMetrics w storeId filters).
Proof.
  unfold calculateVsYesterdayMetrics. sends_service;
    try apply sends_getExpensesByDateRange;
    cbn [kinded]; (split; [exact I | intros []]).
Qed.

Lemma sends_getSalesByPeriod period_ :
  sends (kinded anyStatus other) (getSalesByPeriod w storeId period_).
Proof.
  unfold getSalesByPeriod. sends_service;
    cbn [kinded]; (split; [exact I | intros []]).
Qed.

Lemma sends_getSalesAnalyticsByDateRange a b :
  sends (kinded anyStatus other) (getSalesAnalyticsByDateRange w storeId a b).
Proof.
  unfold getSalesAnalyticsByDateRange. sends_service;
    cbn [kinded]; (split; [exact I | intros []]).
Qed.

Lemma other_ownStatus cond S q : kinded S other q -> ownStatus cond q.
Proof.
  destruct q as [|f p|]; cbn; auto. intros [_ Hp] Hown. contradiction.
Qed.

Lemma kinded_filtersStatus cond q :
  kinded (eq (Some cond)) other q -> filtersStatus cond q.
Proof.
  destruct q as [|f p|]; cbn; auto. intros [Hs Hp].
  destruct p; try (symmetry; exact Hs). exfalso. apply Hp. exact I.
Qed.

Ltac sends_sub_service :=
  lazymatch goal with
  | |- sends _ (getExpenseStats _ _ _ _) =>
      eapply SendFacts.sends_weaken;
      [apply other_ownStatus | apply (sends_getExpenseStats_kinded anyStatus other)]
  | |- sends _ (getExpenseSeries _ _ _ _) =>
      eapply SendFacts.sends_weaken;
      [apply other_ownStatus | apply (sends_getExpenseSeries anyStatus other)]
  | |- sends _ (getTopProducts _ _ _ _) =>
      eapply SendFacts.sends_weaken;
      [apply other_ownStatus | apply sends_getTopProducts]
  | |- sends _ (calculateGrowthRate _ _ _) =>
      eapply SendFacts.sends_weaken;
      [apply other_ownStatus | apply sends_calculateGrowthRate]
  | |- sends _ (calculateVsPreviousPeriodMetrics _ _ _ _ _ _) =>
      eapply SendFacts.sends_weaken;
      [apply other_ownStatus | apply sends_calculateVsPreviousPeriodMetrics]
  | |- sends _ (calculateVsYesterdayMetrics _ _ _) =>
      eapply SendFacts.sends_weaken;
      [apply other_ownStatus | apply sends_calculateVsYesterdayMetrics]
  | |- sends _ (getSalesAnalyticsByDateRange _ _ _ _) =>
      eapply SendFacts.sends_weaken;
      [apply other_ownStatus | apply sends_getSalesAnalyticsByDateRange]
  | |- sends _ (getSalesByPeriod _ _ _) =>
      eapply SendFacts.sends_weaken;
      [apply other_ownStatus | apply sends_getSalesByPeriod]
  | |- sends _ (getSalesByMonth _ _ _) =>
      eapply SendFacts.sends_weaken;
      [apply other_ownStatus | apply sends_getSalesByMonth]
  end.

Lemma sends_getDashboardMetrics filters :
  sends (ownStatus (statusCondition (requestedStatus filters)))
        (getDashboardMetrics w storeId filters).
Proof.
  unfold getDashboardMetrics, primaryDateRange.
  repeat first [ sends_step | sends_helper | sends_sub_service ];
    try exact I;
    cbn [ownStatus filtersStatus f_status within primaryTransactionFilter]; intros _;
    destruct filters; repeat split; reflexivity.
Qed.

End StatusOfRequests.

Lemma statusCondition_default (requested : option string) :
  requested = None \/ requested = Some "" \/ requested = Some "all" ->
  statusCondition requested = StatusIn ["completed"; "pending"].
Proof. intros [-> | [-> | ->]]; reflexivity. Qed.

Lemma statusCondition_single (s : string) :
  s <> "" -> s <> "all" -> statusCondition (Some s) = StatusIs s.
Proof.
  intros H1 H2. unfold statusCondition, truthy.
  destruct (String.eqb_spec s ""); [contradiction|].
  destruct (String.eqb_spec s "all"); [contradiction|]. reflexivity.
Qed.

Lemma statusMatches_default (t : Transaction) :
  statusMatches (Some (StatusIn DEFAULT_STATUSES)) t = true <->
  tx_status t = pending \/ tx_status t = completed.
Proof.
  unfold statusMatches, DEFAULT_STATUSES.
  destruct (tx_status t); cbn; split; intros H; auto; try discriminate;
    destruct H; discriminate.
Qed.

Lemma statusMatches_single (s : string) (t : Transaction) :
  statusMatches (Some (StatusIs s)) t = true <-> statusName (tx_status t) = s.
Proof. unfold statusMatches. apply String.eqb_eq. Qed.

(** C6 (the claim as amended).  The requests of the dashboard for point
    totals, top products, sales by month and the growth rate, and those of
    the comparison with yesterday when a filter object is given, all filter
    transactions on one status condition: the caller's status when it is
    given, not empty and not ['all'], and otherwise, ['all'] included, the
    set of pending and completed. *)
Theorem dashboard_requests_filter_status :
  forall (w : World) (storeId : option string) (filters : option DashboardFilters),
    let cond := statusCondition (requestedStatus filters) in
    (requestedStatus filters = None \/ requestedStatus filters = Some "" \/
     requestedStatus filters = Some "all" ->
     cond = StatusIn ["completed"; "pending"]) /\
    (forall s, requestedStatus filters = Some s -> s <> "" -> s <> "all" ->
               cond = StatusIs s) /\
    (forall t, statusMatches (Some (StatusIn ["completed"; "pending"])) t = true <->
               tx_status t = pending \/ tx_status t = completed) /\
    (forall s t, statusMatches (Some (StatusIs s)) t = true <->
                 statusName (tx_status t) = s) /\
    sends (ownStatus cond) (getDashboardMetrics w storeId filters) /\
    (forall limit, sends (filtersStatus cond) (getTopProducts w storeId limit filters)) /\
    sends (filtersStatus cond) (getSalesByMonth w storeId filters) /\
    sends (filtersStatus cond) (calculateGrowthRate w storeId filters) /\
    (filters <> None ->
     sends (filtersStatus cond) (calculateVsYesterdayMetrics w storeId filters)).
Proof.
  intros w storeId filters cond. subst cond.
  repeat match goal with |- _ /\ _ => split end.
  - apply statusCondition_default.
  - intros s Hs H1 H2. rewrite Hs. apply statusCondition_single; assumption.
  - apply statusMatches_default.
  - apply statusMatches_single.
  - apply sends_getDashboardMetrics.
  - intros limit. eapply SendFacts.sends_weaken;
      [apply kinded_filtersStatus | apply sends_getTopProducts].
  - eapply SendFacts.sends_weaken;
      [apply kinded_filtersStatus | apply sends_getSalesByMonth].
  - eapply SendFacts.sends_weaken;
      [apply kinded_filtersStatus | apply sends_calculateGrowthRate].
  - intros Hf. destruct filters as [f|]; [|contradiction].
    eapply SendFacts.sends_weaken;
      [apply kinded_filtersStatus | apply sends_calculateVsYesterdayMetrics_filtered].
Qed.

Lemma dashboard_requests_filter_status_witness :
  statusCondition (requestedStatus (Some (Sample.withStatus "voided" noFilters))) =
  StatusIs "voided" /\
  sends (filtersStatus (StatusIs "voided"))
        (calculateVsYesterdayMetrics Sample.world Sample.store
           (Some (Sample.withStatus "voided" noFilters))).
Proof.
  pose proof (dashboard_requests_filter_status Sample.world Sample.store
                (Some (Sample.withStatus "voided" noFilters)))
    as (_ & Hsingle & _ & _ & _ & _ & _ & _ & Hyesterday).
  split.
  - apply Hsingle; [reflexivity | discriminate | discriminate].
  - apply Hyesterday. discriminate.
Defined.

(** C6 as stated fails for the status ['all']: it does not lift the
    restriction.  Of the three January sales of the sample ledger one is
    cancelled; the dashboard for January with status ['all'] counts two
    transactions worth 150, not three worth 220. *)
Lemma status_all_counterexample :
  statusCondition (Some "all") = StatusIn ["completed"; "pending"] /\
  match getDashboardMetrics Sample.world Sample.store
          (Some (Sample.withStatus "all" (Sample.monthOf 1 2025))) freshSession with
  | (Ok m, _) =>
      Qeq_bool (totalTransactions m) 2 = true /\
      Qeq_bool (totalSales m) 150 = true /\
      count (filter (fun t => inWindow (Some (start (filterInfo m)))
                                        (Some (end_ (filterInfo m))) (created_at t))
                    (transactionLedger Sample.world)) = 3
  | _ => False
  end.
Proof. split; [reflexivity|]. vm_compute. repeat split; reflexivity. Qed.

(** ** Failures of the backing store *)

Module FailureFacts.

Lemma succeeds_ret {A : Type} (a : A) : succeeds (ret a).
Proof. intros s. exists a, s. reflexivity. Qed.

Lemma succeeds_logWith msg e : succeeds (logWith msg e).
Proof. intros s. eexists _, _. reflexivity. Qed.

Lemma succeeds_logError msg e : succeeds (logError msg e).
Proof. intros s. eexists _, _. reflexivity. Qed.

Lemma succeeds_newDate w : succeeds (newDate w).
Proof. intros s. eexists _, _. reflexivity. Qed.

Lemma succeeds_request {A : Type} w q (answer : A) :
  storeFails w q = false -> succeeds (request w q answer).
Proof. intros H s. unfold request. rewrite H. eexists _, _. reflexivity. Qed.

Lemma succeeds_bind {A B : Type} (m : M A) (k : A -> M B) :
  succeeds m -> (forall a, succeeds (k a)) -> succeeds (bind m k).
Proof.
  intros Hm Hk s. unfold bind. destruct (Hm s) as (a & s1 & ->). apply Hk.
Qed.

Lemma succeeds_both {A B : Type} (ma : M A) (mb : M B) :
  succeeds ma -> succeeds mb -> succeeds (both ma mb).
Proof.
  intros Ha Hb s. unfold both. destruct (Ha s) as (a & s1 & ->).
  destruct (Hb s1) as (b & s2 & ->). eexists _, _. reflexivity.
Qed.

(** A handler that ends normally makes the whole [try] end normally. *)
Lemma succeeds_caught {A : Type} (m : M A) (h : Error -> M A) :
  (forall e, succeeds (h e)) -> succeeds (tryCatch m h).
Proof.
  intros Hh s. unfold tryCatch. destruct (m s) as [[a|e] s1].
  - exists a, s1. reflexivity.
  - apply Hh.
Qed.

Lemma succeeds_tryCatch {A : Type} (m : M A) (h : Error -> M A) :
  succeeds m -> succeeds (tryCatch m h).
Proof.
  intros Hm s. unfold tryCatch. destruct (Hm s) as (a & s1 & ->).
  exists a, s1. reflexivity.
Qed.

Lemma onSuccess_quiet {A : Type} P (m : M A) :
  sends (fun _ => False) m -> onSuccess P m.
Proof.
  intros Hm s a s' E. destruct (Hm s) as (l & Hl & HF). rewrite E in Hl. cbn in Hl.
  destruct l as [|q l]; [|inversion HF; contradiction].
  exists []. split; [exact Hl | constructor].
Qed.

Lemma onSuccess_ret {A : Type} P (a : A) : onSuccess P (ret a).
Proof. apply onSuccess_quiet, SendFacts.sends_ret. Qed.

Lemma onSuccess_throw {A : Type} P e : onSuccess P (@throw A e).
Proof. apply onSuccess_quiet, SendFacts.sends_throw. Qed.

Lemma onSuccess_lift {A : Type} P (o : Outcome A) : onSuccess P (lift o).
Proof. apply onSuccess_quiet, SendFacts.sends_lift. Qed.

Lemma onSuccess_request {A : Type} (P : Query -> Prop) w q (answer : A) :
  (storeFails w q = false -> P q) -> onSuccess P (request w q answer).
Proof.
  intros HP s a s' E. apply MonadFacts.request_Ok in E as (_ & Hq & ->).
  exists [q]. split; [reflexivity | repeat constructor; auto].
Qed.

Lemma onSuccess_bind {A B : Type} P (m : M A) (k : A -> M B) :
  onSuccess P m -> (forall a, onSuccess P (k a)) -> onSuccess P (bind m k).
Proof.
  intros Hm Hk s b s' E. apply MonadFacts.bind_Ok in E as (a & s1 & E1 & E2).
  destruct (Hm _ _ _ E1) as (l1 & Hl1 & HP1).
  destruct (Hk _ _ _ _ E2) as (l2 & Hl2 & HP2).
  exists (l2 ++ l1). rewrite Hl2, Hl1, app_assoc.
  split; [reflexivity | apply Forall_app; split; assumption].
Qed.

Lemma onSuccess_both {A B : Type} P (ma : M A) (mb : M B) :
  onSuccess P ma -> onSuccess P mb -> onSuccess P (both ma mb).
Proof.
  intros Ha Hb s p s' E. apply MonadFacts.both_Ok in E as (s1 & E1 & E2).
  destruct (Ha _ _ _ E1) as (l1 & Hl1 & HP1).
  destruct (Hb _ _ _ E2) as (l2 & Hl2 & HP2).
  exists (l2 ++ l1). rewrite Hl2, Hl1, app_assoc.
  split; [reflexivity | apply Forall_app; split; assumption].
Qed.

(** A [catch] that logs and throws again does not turn a failure into
    a normal end. *)
Lemma onSuccess_rethrow {A : Type} P (m : M A) msg :
  onSuccess P m ->
  onSuccess P (tryCatch m (fun e => bind (logError msg e) (fun _ => throw e))).
Proof.
  intros Hm s a s' E. unfold tryCatch in E. destruct (m s) as [[a0|e] s1] eqn:E1.
  - inversion E; subst. eapply Hm, E1.
  - discriminate.
Qed.

(** The shape of every guarded sub-metric. *)
Lemma guarded_boundary {A : Type} (w : World) (body : M A) (d : A) (msg : string) :
  onSuccess (fun q => storeFails w q = false) body ->
  sends (fun _ => True) body ->
  caughtAtBoundary w
    (tryCatch body (fun e => bind (logError msg e) (fun _ => ret d))) d msg.
Proof.
  intros Hok Hsends s. unfold tryCatch.
  destruct (body s) as [[a|e] s1] eqn:E.
  - destruct (Hok _ _ _ E) as (l & Hl & HP).
    exists a, s1, l. split; [reflexivity|]. split; [exact Hl|]. left. exact HP.
  - destruct (Hsends s) as (l & Hl & _). rewrite E in Hl. cbn in Hl.
    eexists d, _, l. split; [reflexivity|]. split; [exact Hl|].
    right. split; [reflexivity|]. exists e. reflexivity.
Qed.

Lemma caughtAtBoundary_succeeds {A : Type} w (m : M A) d msg :
  caughtAtBoundary w m d msg -> succeeds m.
Proof. intros H s. destruct (H s) as (a & s' & _ & E & _). exists a, s'. exact E. Qed.

End FailureFacts.

Ltac on_success_step :=
  lazymatch goal with
  | |- onSuccess _ (ret _) => apply FailureFacts.onSuccess_ret
  | |- onSuccess _ (throw _) => apply FailureFacts.onSuccess_throw
  | |- onSuccess _ (lift _) => apply FailureFacts.onSuccess_lift
  | |- onSuccess _ (bind _ _) => apply FailureFacts.onSuccess_bind; [|intros]
  | |- onSuccess _ (both _ _) => apply FailureFacts.onSuccess_both
  | |- onSuccess _ (request _ _ _) =>
      apply FailureFacts.onSuccess_request; intros ?; assumption
  | |- onSuccess _ (getTodayRange _ _) =>
      apply FailureFacts.onSuccess_quiet, sends_getTodayRange
  | |- onSuccess _ (getThisMonthRange _ _) =>
      apply FailureFacts.onSuccess_quiet, sends_getThisMonthRange
  | |- onSuccess _ (getLastNDaysRange _ _ _) =>
      apply FailureFacts.onSuccess_quiet, sends_getLastNDaysRange
  | |- onSuccess _ (getDateFilter _ _ _) =>
      apply FailureFacts.onSuccess_quiet, sends_getDateFilter
  | |- onSuccess _ (growthPeriods _ _ _) =>
      apply FailureFacts.onSuccess_quiet, sends_growthPeriods
  | |- onSuccess _ (previousPeriods _ _ _) =>
      apply FailureFacts.onSuccess_quiet, sends_previousPeriods
  | |- onSuccess _ (newDate _) =>
      apply FailureFacts.onSuccess_quiet, SendFacts.sends_newDate
  | |- onSuccess _ (let _ := _ in _) => cbv zeta
  | |- onSuccess _ (match ?x with _ => _ end) => destruct x
  end.

Section Boundaries.
Variable w : World.
Variable storeId : option string.

Let answered : Query -> Prop := fun q => storeFails w q = false.

Lemma onSuccess_getExpenseStats a b : onSuccess answered (getExpenseStats w storeId a b).
Proof.
  unfold getExpenseStats. apply FailureFacts.onSuccess_rethrow.
  repeat on_success_step.
Qed.

Lemma onSuccess_getExpensesByDateRange a b :
  onSuccess answered (getExpensesByDateRange w a b storeId).
Proof.
  unfold getExpensesByDateRange. apply FailureFacts.onSuccess_rethrow.
  repeat on_success_step.
Qed.

Ltac boundary :=
  apply FailureFacts.guarded_boundary;
  [ repeat first [ on_success_step
                 | apply onSuccess_getExpenseStats
                 | apply onSuccess_getExpensesByDateRange ]
  | repeat first [ sends_step | sends_helper
                 | apply sends_getExpenseStats; intros; exact I ];
    try exact I ].

Lemma boundary_getExpenseSeries a b :
  caughtAtBoundary w (getExpenseSeries w a b storeId) [] "Error getting expense series:".
Proof. unfold getExpenseSeries. boundary. Qed.

Lemma boundary_getTopProducts limit filters :
  caughtAtBoundary w (getTopProducts w storeId limit filters) []
                   "Error getting top products:".
Proof. unfold getTopProducts. boundary. Qed.

Lemma boundary_getSalesByMonth filters :
  caughtAtBoundary w (getSalesByMonth w storeId filters) []
                   "Error getting sales by month:".
Proof. unfold getSalesByMonth. boundary. Qed.

Lemma boundary_getSalesByPeriod period_ :
  caughtAtBoundary w (getSalesByPeriod w storeId period_) []
                   "Error getting sales by period:".
Proof. unfold getSalesByPeriod. boundary. Qed.

Lemma boundary_calculateGrowthRate filters :
  caughtAtBoundary w (calculateGrowthRate w storeId filters) 0%Q
                   "Error calculating growth rate:".
Proof. unfold calculateGrowthRate. boundary. Qed.

Lemma boundary_calculateVsPreviousPeriodMetrics filters cs ct ce :
  caughtAtBoundary w (calculateVsPreviousPeriodMetrics w storeId filters cs ct ce)
                   zeroDeltas "Error calculating vs previous period metrics:".
Proof. unfold calculateVsPreviousPeriodMetrics. boundary. Qed.

Lemma boundary_calculateVsYesterdayMetrics filters :
  caughtAtBoundary w (calculateVsYesterdayMetrics w storeId filters)
                   zeroDeltas "Error calculating vs yesterday metrics:".
Proof.
  unfold calculateVsYesterdayMetrics. boundary.
  all: unfold getExpensesByDateRange; repeat first [ sends_step | sends_helper ]; exact I.
Qed.

End Boundaries.

(** ** The dashboard *)

(** What a dashboard computed on a cache miss is made of. *)
Lemma getDashboardMetrics_inversion (w : World) (storeId : option string)
    (filters : option DashboardFilters) (s s' : Session) (m : DashboardMetrics) :
  cacheGet w storeId filters = None ->
  getDashboardMetrics w storeId filters s = (Ok m, s') ->
  exists (pdf : option DateRange) (ps pe : Z) (s1 sa sb sc sd : Session)
         (es : ExpenseStats) (series : list ExpensePoint),
    primaryDateRange w storeId filters s = (Ok (pdf, ps, pe), s1) /\
    getExpenseStats w storeId (Some ps) (Some pe) sa = (Ok es, sb) /\
    getExpenseSeries w ps pe storeId sc = (Ok series, sd) /\
    let tf := primaryTransactionFilter storeId filters ps pe in
    storeFails w (QProducts (truthy storeId)) = false /\
    (exists today monthly, storeFails w (QTransactions tf (TxFacet today monthly)) = false) /\
    storeFails w (QTransactions tf (TxFind (Some 10%nat))) = false /\
    storeFails w (QTransactions tf TxByPayment) = false /\
    storeFails w (QTransactions tf TxBySource) = false /\
    totalSales m = JsMath.orZero (JsMath.orZero (fst (pointTotals w tf))) /\
    totalTransactions m =
      JsMath.orZero (JsMath.orZero (inject_Z (snd (pointTotals w tf)))) /\
    totalExpenses m = JsMath.orZero (totalAmount_ es) /\
    netProfit m = (JsMath.orZero (fst (pointTotals w tf)) - totalAmount_ es)%Q /\
    expensesByPeriod m = series /\
    paymentMethods m = collectPaymentMethods (paymentGroupsOf w tf) /\
    filterInfo m = {| start := ps; end_ := pe |}.
Proof.
  intros Hcache H. unfold getDashboardMetrics in H. rewrite Hcache in H.
  apply MonadFacts.tryCatch_Ok in H as [H|(e & s1 & _ & H)].
  2:{ unfold bind, logError, logWith, throw in H. discriminate. }
  cbv zeta in H.
  invert_run H.
  match goal with
  | x : (option DateRange * Z * Z)%type |- _ => destruct x as [[pdf ps] pe]
  end.
  do 6 invert_run H.
  match goal with
  | x : ((Z * Z) * _)%type |- _ =>
      destruct x as [productStats [[[totalStats todayStats] monthlyStats] [recent top]]]
  end.
  do 8 invert_run H.
  unfold ret in H. inversion H; subst m s'. clear H.
  repeat match goal with
         | B : both _ _ _ = (Ok _, _) |- _ =>
             apply MonadFacts.both_Ok in B as (? & ? & ?); cbn [fst snd] in *
         end.
  repeat match goal with
         | R : request _ _ _ _ = (Ok _, _) |- _ =>
             apply MonadFacts.request_Ok in R as (? & ? & ?)
         end.
  match goal with
  | E : (_, _, _) = (pointTotals _ _, _, _) |- _ => inversion E; subst; clear E
  end.
  subst.
  exists pdf, ps, pe. do 5 eexists. do 2 eexists.
  split; [eassumption|]. split; [eassumption|]. split; [eassumption|].
  cbv zeta. cbn [totalSales totalTransactions totalExpenses netProfit expensesByPeriod
                 paymentMethods filterInfo].
  split; [assumption|]. split; [eexists _, _; eassumption|].
  repeat split; try assumption; reflexivity.
Qed.

(** The value of the expense series does not depend on the session. *)
Lemma getExpenseSeries_value (w : World) (a b : Z) (storeId : option string)
    (s1 s2 : Session) :
  fst (getExpenseSeries w a b storeId s1) = fst (getExpenseSeries w a b storeId s2).
Proof.
  unfold getExpenseSeries, tryCatch, bind, request, ret, logError, logWith.
  destruct (daysBetween a b <=? 31);
    match goal with
    | |- context [storeFails w ?q] => destruct (storeFails w q)
    end; reflexivity.
Qed.

(** The total of the expense statistics is the sum over the window. *)
Lemma getExpenseStats_total (w : World) (storeId : option string) (a b : option Z)
    (s s' : Session) (es : ExpenseStats) :
  getExpenseStats w storeId a b s = (Ok es, s') ->
  (totalAmount_ es ==
   sumQ (map ex_amount
           (matchingExpenses w {| e_store := truthy storeId; e_gte := a; e_lte := b |})))%Q.
Proof.
  unfold getExpenseStats. intros H.
  apply MonadFacts.tryCatch_Ok in H as [H|(e & s1 & _ & H)].
  2:{ unfold bind, logError, logWith, throw in H. discriminate. }
  cbv zeta in H. invert_run H.
  destruct a0 as [n [total [c [p [mo top]]]]].
  unfold ret in H. inversion H; subst es s'. clear H. cbn [totalAmount_].
  repeat match goal with
         | B : both _ _ _ = (Ok _, _) |- _ =>
             apply MonadFacts.both_Ok in B as (? & ? & ?); cbn [fst snd] in *
         end.
  repeat match goal with
         | R : request _ _ _ _ = (Ok _, _) |- _ =>
             apply MonadFacts.request_Ok in R as (? & ? & ?)
         end.
  subst. destruct (matchingExpenses w _) as [|x l]; [reflexivity|].
  apply PercentFacts.orZero_eq.
Qed.

(** C2.  A dashboard that is computed resolves one window, the primary
    period, and its total sales, transaction count, total expenses and
    expense series are all taken over that window; the net profit is the
    total sales minus the total expenses. *)
Theorem dashboard_uses_one_primary_window :
  forall (w : World) (storeId : option string) (filters : option DashboardFilters)
         (s s' : Session) (m : DashboardMetrics),
    cacheGet w storeId filters = None ->
    getDashboardMetrics w storeId filters s = (Ok m, s') ->
    exists (pdf : option DateRange) (ps pe : Z) (s1 : Session),
      primaryDateRange w storeId filters s = (Ok (pdf, ps, pe), s1) /\
      filterInfo m = {| start := ps; end_ := pe |} /\
      let sold :=
        matchingTransactions w (primaryTransactionFilter storeId filters ps pe) in
      let spent :=
        matchingExpenses w {| e_store := truthy storeId;
                              e_gte := Some ps; e_lte := Some pe |} in
      f_gte (primaryTransactionFilter storeId filters ps pe) = Some ps /\
      f_lte (primaryTransactionFilter storeId filters ps pe) = Some pe /\
      (totalSales m == sumQ (map amountOf sold))%Q /\
      (totalTransactions m == inject_Z (count sold))%Q /\
      (totalExpenses m == sumQ (map ex_amount spent))%Q /\
      fst (getExpenseSeries w ps pe storeId freshSession) = Ok (expensesByPeriod m) /\
      (netProfit m == totalSales m - totalExpenses m)%Q.
Proof.
  intros w storeId filters s s' m Hcache Hrun.
  destruct (getDashboardMetrics_inversion w storeId filters s s' m Hcache Hrun)
    as (pdf & ps & pe & s1 & sa & sb & sc & sd & es & series
        & Hprimary & Hstats & Hseries & _ & _ & _ & _ & _
        & Hsales & Hcount & Hexp & Hnet & Hperiod & _ & Hinfo).
  exists pdf, ps, pe, s1. split; [exact Hprimary|]. split; [exact Hinfo|].
  cbv zeta. split; [reflexivity|]. split; [reflexivity|].
  pose proof (getExpenseStats_total _ _ _ _ _ _ _ Hstats) as Htotal.
  assert (Hs : (totalSales m ==
                sumQ (map amountOf (matchingTransactions w
                       (primaryTransactionFilter storeId filters ps pe))))%Q).
  { rewrite Hsales, !PercentFacts.orZero_eq. reflexivity. }
  assert (He : (totalExpenses m == totalAmount_ es)%Q).
  { rewrite Hexp. apply PercentFacts.orZero_eq. }
  split; [exact Hs|]. split.
  - rewrite Hcount, !PercentFacts.orZero_eq. reflexivity.
  - split; [rewrite He; exact Htotal|]. split.
    + rewrite (getExpenseSeries_value w ps pe storeId freshSession sc), Hseries, Hperiod.
      reflexivity.
    + rewrite Hnet, Hs, He, PercentFacts.orZero_eq. reflexivity.
Qed.

Lemma dashboard_uses_one_primary_window_witness :
  exists (m : DashboardMetrics) (ps pe : Z),
    filterInfo m = {| start := ps; end_ := pe |} /\
    (totalSales m ==
     sumQ (map amountOf
             (matchingTransactions Sample.world
                (primaryTransactionFilter Sample.store
                   (Some (Sample.monthOf 1 2025)) ps pe))))%Q /\
    (netProfit m == totalSales m - totalExpenses m)%Q.
Proof.
  destruct (getDashboardMetrics Sample.world Sample.store
              (Some (Sample.monthOf 1 2025)) freshSession) as [[m|e] s'] eqn:E.
  - destruct (dashboard_uses_one_primary_window Sample.world Sample.store
                (Some (Sample.monthOf 1 2025)) freshSession s' m eq_refl E)
      as (pdf & ps & pe & s1 & _ & Hinfo & _ & _ & Hs & _ & _ & _ & Hnet).
    exists m, ps, pe. split; [exact Hinfo|]. split; [exact Hs | exact Hnet].
  - exfalso. vm_compute in E. discriminate.
Defined.

(** ** Which failures reach the caller *)

Section Propagation.
Variable w : World.
Variable storeId : option string.
Hypothesis answered : forall q, requiredRequest q = true -> storeFails w q = false.

Ltac succeeds_step :=
  lazymatch goal with
  | |- succeeds (ret _) => apply FailureFacts.succeeds_ret
  | |- succeeds (logWith _ _) => apply FailureFacts.succeeds_logWith
  | |- succeeds (logError _ _) => apply FailureFacts.succeeds_logError
  | |- succeeds (newDate _) => apply FailureFacts.succeeds_newDate
  | |- succeeds (bind _ _) => apply FailureFacts.succeeds_bind; [|intros]
  | |- succeeds (both _ _) => apply FailureFacts.succeeds_both
  | |- succeeds (request _ _ _) =>
      apply FailureFacts.succeeds_request; apply answered; reflexivity
  | |- succeeds (let _ := _ in _) => cbv zeta
  | |- succeeds (match ?x with _ => _ end) => destruct x
  end.

Lemma succeeds_getTodayRange tz : succeeds (getTodayRange w tz).
Proof. unfold getTodayRange. repeat succeeds_step. Qed.

Lemma succeeds_getThisMonthRange tz : succeeds (getThisMonthRange w tz).
Proof. unfold getThisMonthRange. repeat succeeds_step. Qed.

Lemma succeeds_getLastNDaysRange n tz : succeeds (getLastNDaysRange w n tz).
Proof. unfold getLastNDaysRange. repeat succeeds_step. Qed.

Ltac succeeds_range :=
  lazymatch goal with
  | |- succeeds (getTodayRange _ _) => apply succeeds_getTodayRange
  | |- succeeds (getThisMonthRange _ _) => apply succeeds_getThisMonthRange
  | |- succeeds (getLastNDaysRange _ _ _) => apply succeeds_getLastNDaysRange
  end.

Lemma succeeds_getDateFilter filters tz : succeeds (getDateFilter w filters tz).
Proof. unfold getDateFilter. repeat first [succeeds_step | succeeds_range]. Qed.

Lemma succeeds_primaryDateRange filters : succeeds (primaryDateRange w storeId filters).
Proof.
  unfold primaryDateRange.
  repeat first [succeeds_step | apply succeeds_getDateFilter].
Qed.

Lemma succeeds_getExpenseStats a b : succeeds (getExpenseStats w storeId a b).
Proof.
  unfold getExpenseStats. apply FailureFacts.succeeds_tryCatch. repeat succeeds_step.
Qed.

Lemma succeeds_getSalesAnalyticsByDateRange a b :
  succeeds (getSalesAnalyticsByDateRange w storeId a b).
Proof.
  unfold getSalesAnalyticsByDateRange. apply FailureFacts.succeeds_tryCatch.
  repeat succeeds_step.
Qed.

Ltac succeeds_service :=
  lazymatch goal with
  | |- succeeds (getTodayRange _ _) => apply succeeds_getTodayRange
  | |- succeeds (getThisMonthRange _ _) => apply succeeds_getThisMonthRange
  | |- succeeds (primaryDateRange _ _ _) => apply succeeds_primaryDateRange
  | |- succeeds (getExpenseStats _ _ _ _) => apply succeeds_getExpenseStats
  | |- succeeds (getSalesAnalyticsByDateRange _ _ _ _) =>
      apply succeeds_getSalesAnalyticsByDateRange
  | |- succeeds (getExpenseSeries _ _ _ _) =>
      eapply FailureFacts.caughtAtBoundary_succeeds, boundary_getExpenseSeries
  | |- succeeds (getTopProducts _ _ _ _) =>
      eapply FailureFacts.caughtAtBoundary_succeeds, boundary_getTopProducts
  | |- succeeds (getSalesByMonth _ _ _) =>
      eapply FailureFacts.caughtAtBoundary_succeeds, boundary_getSalesByMonth
  | |- succeeds (getSalesByPeriod _ _ _) =>
      eapply FailureFacts.caughtAtBoundary_succeeds, boundary_getSalesByPeriod
  | |- succeeds (calculateGrowthRate _ _ _) =>
      eapply FailureFacts.caughtAtBoundary_succeeds, boundary_calculateGrowthRate
  | |- succeeds (calculateVsPreviousPeriodMetrics _ _ _ _ _ _) =>
      eapply FailureFacts.caughtAtBoundary_succeeds,
        boundary_calculateVsPreviousPeriodMetrics
  | |- succeeds (calculateVsYesterdayMetrics _ _ _) =>
      eapply FailureFacts.caughtAtBoundary_succeeds,
        boundary_calculateVsYesterdayMetrics
  | |- succeeds (tryCatch _ _) =>
      apply FailureFacts.succeeds_caught; intros
  | |- succeeds (lift (Ok _)) => apply FailureFacts.succeeds_ret
  end.

(** When the requests outside the guarded sub-metrics are answered and
    the month resolves, the dashboard is returned. *)
Lemma succeeds_getDashboardMetrics filters :
  monthResolves filters -> succeeds (getDashboardMetrics w storeId filters).
Proof.
  intros Hmonth. unfold getDashboardMetrics.
  apply FailureFacts.succeeds_tryCatch.
  destruct (cacheGet w storeId filters); [apply FailureFacts.succeeds_ret|].
  cbv zeta. apply FailureFacts.succeeds_bind; [apply succeeds_primaryDateRange|].
  intros [[pdf ps] pe].
  apply FailureFacts.succeeds_bind; [apply succeeds_getTodayRange|]. intros todayRange.
  apply FailureFacts.succeeds_bind.
  { unfold monthResolves in Hmonth. destruct filters as [f|];
      [|apply succeeds_getThisMonthRange].
    destruct (truthyNumber (month f)) as [mo|]; [|apply succeeds_getThisMonthRange].
    destruct (truthyNumber (year f)) as [yr|]; [|apply succeeds_getThisMonthRange].
    destruct Hmonth as [Hm Hy].
    rewrite (getMonthYearRange_calendarMonth w mo yr _ Hm Hy).
    apply FailureFacts.succeeds_ret. }
  intros monthRange. clear Hmonth.
  repeat first [succeeds_step | succeeds_service].
Qed.

End Propagation.

(** An error that leaves [getDashboardMetrics] was logged there first. *)
Lemma getDashboardMetrics_rethrows (w : World) (storeId : option string)
    (filters : option DashboardFilters) (s s' : Session) (e : Error) :
  getDashboardMetrics w storeId filters s = (Throw e, s') ->
  hd_error (logged s') =
  Some {| message := "Error getting dashboard metrics:"; cause := Some e |}.
Proof.
  unfold getDashboardMetrics, tryCatch.
  match goal with
  | |- context [match ?body s with _ => _ end] => destruct (body s) as [[a|e0] s1]
  end.
  - discriminate.
  - unfold bind, logError, logWith, throw. intros H. inversion H; subst. reflexivity.
Qed.

(** ** Failures that reach the caller *)

Module ThrowFacts.

Lemma throws_lift {A : Type} (e : Error) : throws (@lift A (Throw e)).
Proof. intros s. exists e, s. reflexivity. Qed.

Lemma throws_request {A : Type} (w : World) (q : Query) (answer : A) :
  storeFails w q = true -> throws (request w q answer).
Proof. intros H s. unfold request. rewrite H. eauto. Qed.

Lemma throws_bind_l {A B : Type} (m : M A) (k : A -> M B) :
  throws m -> throws (bind m k).
Proof.
  intros H s. destruct (H s) as (e & s' & E). exists e, s'.
  unfold bind. rewrite E. reflexivity.
Qed.

Lemma throws_bind_r {A B : Type} (m : M A) (k : A -> M B) :
  (forall a, throws (k a)) -> throws (bind m k).
Proof.
  intros H s. unfold bind. destruct (m s) as [[a|e] s1].
  - apply H.
  - eauto.
Qed.

Lemma throws_both_l {A B : Type} (ma : M A) (mb : M B) :
  throws ma -> throws (both ma mb).
Proof.
  intros H s. destruct (H s) as (e & s1 & E).
  unfold both. rewrite E. destruct (mb s1) as [[b|e'] s2]; eauto.
Qed.

Lemma throws_both_r {A B : Type} (ma : M A) (mb : M B) :
  throws mb -> throws (both ma mb).
Proof.
  intros H s. unfold both. destruct (ma s) as [[a|e] s1].
  - destruct (H s1) as (e' & s2 & E). rewrite E. eauto.
  - destruct (mb s1) as [[b|e'] s2]; eauto.
Qed.

Lemma throws_rethrow {A : Type} (m : M A) (msg : string) :
  throws m ->
  throws (tryCatch m (fun e => bind (logError msg e) (fun _ => throw e))).
Proof.
  intros H s. destruct (H s) as (e & s1 & E).
  unfold tryCatch. rewrite E. unfold bind, logError, logWith, throw. eauto.
Qed.

End ThrowFacts.

(** Finds the step that throws. *)
Ltac throws_here :=
  solve [ apply ThrowFacts.throws_request; auto
        | apply ThrowFacts.throws_lift
        | apply ThrowFacts.throws_both_l; throws_here
        | apply ThrowFacts.throws_both_r; throws_here
        | apply ThrowFacts.throws_rethrow; cbv zeta; throws_here
        | apply ThrowFacts.throws_bind_l; throws_here ].

Ltac throws_step :=
  lazymatch goal with
  | |- throws (bind _ _) =>
      first [ apply ThrowFacts.throws_bind_l; throws_here
            | apply ThrowFacts.throws_bind_r; intros ]
  | |- throws (let _ := _ in _) => cbv zeta
  | |- throws (match ?x with _ => _ end) => destruct x
  end.

(** A month or a year out of range is refused. *)
Lemma getMonthYearRange_rejects (w : World) (m y : Z) (tz : string) :
  ~ (1 <= m <= 12 /\ 1900 <= y <= 2100) ->
  exists e, getMonthYearRange w m y tz = Throw e.
Proof.
  intros H. unfold getMonthYearRange.
  destruct (Z.ltb_spec m 1); [cbn [orb]; eauto|].
  destruct (Z.ltb_spec 12 m); [cbn [orb]; eauto|].
  destruct (Z.ltb_spec y 1900); [cbn [orb]; eauto|].
  destruct (Z.ltb_spec 2100 y); [cbn [orb]; eauto|].
  exfalso. apply H. lia.
Qed.

Lemma throws_getExpenseStats (w : World) (storeId : option string) (a b : option Z) :
  (forall f, storeFails w (QExpenses f ExCount) = true) ->
  throws (getExpenseStats w storeId a b).
Proof. intros H. unfold getExpenseStats. throws_here. Qed.

(** On a cache miss, a store that rejects the product statistics, the
    point totals, the recent transactions, one of the two breakdowns or
    the expense statistics, or a month or year out of range, fails the
    whole dashboard. *)
Lemma throws_getDashboardMetrics (w : World) (storeId : option string)
    (filters : option DashboardFilters) :
  cacheGet w storeId filters = None ->
  (forall st, storeFails w (QProducts st) = true) \/
  (forall f today monthly, storeFails w (QTransactions f (TxFacet today monthly)) = true) \/
  (forall f, storeFails w (QTransactions f (TxFind (Some 10%nat))) = true) \/
  (forall f, storeFails w (QTransactions f TxByPayment) = true) \/
  (forall f, storeFails w (QTransactions f TxBySource) = true) \/
  (forall f, storeFails w (QExpenses f ExCount) = true) \/
  ~ monthResolves filters ->
  throws (getDashboardMetrics w storeId filters).
Proof.
  intros Hcache Hfails. unfold getDashboardMetrics. rewrite Hcache.
  apply ThrowFacts.throws_rethrow. cbv zeta.
  destruct Hfails as [H|[H|[H|[H|[H|[H|H]]]]]].
  1-5: repeat throws_step.
  - apply ThrowFacts.throws_bind_r; intros [[pdf ps] pe].
    do 2 (apply ThrowFacts.throws_bind_r; intros).
    apply ThrowFacts.throws_bind_l, throws_getExpenseStats, H.
  - apply ThrowFacts.throws_bind_r; intros [[pdf ps] pe].
    apply ThrowFacts.throws_bind_r; intros todayRange.
    apply ThrowFacts.throws_bind_l.
    unfold monthResolves in H.
    destruct filters as [f|]; [|exfalso; apply H; exact I].
    destruct (truthyNumber (month f)) as [mo|]; [|exfalso; apply H; exact I].
    destruct (truthyNumber (year f)) as [yr|]; [|exfalso; apply H; exact I].
    destruct (getMonthYearRange_rejects w mo yr (getStoreTimezone storeId) H) as [e ->].
    apply ThrowFacts.throws_lift.
Qed.




(** ** Buckets of a series *)

Module GroupFacts.
Section Under.
Context {A : Type} (key : A -> string).

Lemma under_nil (l : list A) (k : string) :
  membersUnder key k l = [] <-> ~ In k (map key l).
Proof.
  unfold membersUnder. induction l as [|x l IH]; simpl; [tauto|].
  destruct (String.eqb_spec (key x) k) as [E|E].
  - split; [discriminate | intros H; exfalso; apply H; now left].
  - rewrite IH. tauto.
Qed.

End Under.

Section Groups.
Context {A : Type} (key : A -> string) (val : A -> Q).

Lemma bump_keys (k : string) (v : Q) (gs : list (Group string)) (k' : string) :
  In k' (map g_key (bump String.eqb k v gs)) <-> k' = k \/ In k' (map g_key gs).
Proof.
  induction gs as [|g gs IH]; simpl.
  - split; intros [H|H]; auto.
  - destruct (String.eqb_spec k (g_key g)) as [E|E]; simpl.
    + subst. split; [intros [H|H] | intros [H|[H|H]]]; auto.
    + rewrite IH. tauto.
Qed.

Lemma bump_NoDup (k : string) (v : Q) (gs : list (Group string)) :
  List.NoDup (map g_key gs) -> List.NoDup (map g_key (bump String.eqb k v gs)).
Proof.
  induction gs as [|g gs IH]; simpl; intros H.
  - constructor; [intros []|constructor].
  - apply Stdlib.Lists.List.NoDup_cons_iff in H. destruct H as [Hg Hgs].
    destruct (String.eqb_spec k (g_key g)) as [E|E]; simpl.
    + apply Stdlib.Lists.List.NoDup_cons_iff. split; assumption.
    + apply Stdlib.Lists.List.NoDup_cons_iff. split; [|apply IH, Hgs].
      rewrite bump_keys. intros [H|H]; [congruence | contradiction].
Qed.

Lemma bump_sumAt (k : string) (v : Q) (gs : list (Group string)) (k' : string) :
  (sumAt k' (bump String.eqb k v gs) ==
   if String.eqb k' k then sumAt k' gs + v else sumAt k' gs)%Q.
Proof.
  unfold sumAt, groupAt. induction gs as [|g gs IH]; simpl.
  - destruct (String.eqb_spec k' k); simpl; ring.
  - destruct (String.eqb_spec k (g_key g)) as [E|E]; simpl.
    + subst k. destruct (String.eqb_spec k' (g_key g)); reflexivity.
    + destruct (String.eqb_spec k' (g_key g)) as [E'|E'].
      * destruct (String.eqb_spec k' k); [congruence | reflexivity].
      * exact IH.
Qed.

Lemma bump_countAt (k : string) (v : Q) (gs : list (Group string)) (k' : string) :
  countAt k' (bump String.eqb k v gs) =
  if String.eqb k' k then countAt k' gs + 1 else countAt k' gs.
Proof.
  unfold countAt, groupAt. induction gs as [|g gs IH]; simpl.
  - destruct (String.eqb_spec k' k); reflexivity.
  - destruct (String.eqb_spec k (g_key g)) as [E|E]; simpl.
    + subst k. destruct (String.eqb_spec k' (g_key g)); reflexivity.
    + destruct (String.eqb_spec k' (g_key g)) as [E'|E'].
      * destruct (String.eqb_spec k' k); [congruence | reflexivity].
      * exact IH.
Qed.

Lemma fold_keys (l : list A) (gs : list (Group string)) (k : string) :
  In k (map g_key (fold_left (bumpWith key val) l gs)) <-> In k (map key l) \/ In k (map g_key gs).
Proof.
  revert gs. induction l as [|x l IH]; intros gs; simpl.
  - tauto.
  - rewrite IH. unfold bumpWith. rewrite bump_keys. intuition.
Qed.

Lemma fold_NoDup (l : list A) (gs : list (Group string)) :
  List.NoDup (map g_key gs) -> List.NoDup (map g_key (fold_left (bumpWith key val) l gs)).
Proof.
  revert gs. induction l as [|x l IH]; intros gs H; simpl; [exact H|].
  apply IH, bump_NoDup, H.
Qed.

Lemma fold_sumAt (l : list A) (gs : list (Group string)) (k : string) :
  (sumAt k (fold_left (bumpWith key val) l gs) == sumAt k gs + sumQ (map val (membersUnder key k l)))%Q.
Proof.
  revert gs. induction l as [|x l IH]; intros gs; simpl.
  - ring.
  - rewrite IH. unfold bumpWith. rewrite bump_sumAt. unfold membersUnder. simpl.
    rewrite (String.eqb_sym k (key x)).
    destruct (String.eqb (key x) k); simpl; ring.
Qed.

Lemma fold_countAt (l : list A) (gs : list (Group string)) (k : string) :
  countAt k (fold_left (bumpWith key val) l gs) = countAt k gs + count (membersUnder key k l).
Proof.
  revert gs. induction l as [|x l IH]; intros gs; simpl.
  - unfold count. simpl. lia.
  - rewrite IH. unfold bumpWith. rewrite bump_countAt. unfold membersUnder. simpl.
    rewrite (String.eqb_sym k (key x)).
    destruct (String.eqb (key x) k); unfold count; simpl length; lia.
Qed.

Lemma groupAt_member (gs : list (Group string)) (g : Group string) :
  List.NoDup (map g_key gs) -> In g gs -> groupAt (g_key g) gs = Some g.
Proof.
  unfold groupAt. induction gs as [|h gs IH]; simpl; intros Hnd Hin; [contradiction|].
  apply Stdlib.Lists.List.NoDup_cons_iff in Hnd. destruct Hnd as [Hh Hgs].
  destruct Hin as [->|Hin].
  - now rewrite String.eqb_refl.
  - destruct (String.eqb_spec (g_key g) (g_key h)) as [E|E]; [|apply IH; assumption].
    exfalso. apply Hh. rewrite <- E. apply in_map, Hin.
Qed.

Lemma groupBy_keys (l : list A) (k : string) :
  In k (map g_key (groupBy String.eqb key val l)) <-> In k (map key l).
Proof. unfold groupBy. rewrite (fold_keys l [] k). simpl. tauto. Qed.

Lemma groupBy_NoDup (l : list A) :
  List.NoDup (map g_key (groupBy String.eqb key val l)).
Proof. apply fold_NoDup. constructor. Qed.

(** A group holds the sum and the number of the members under its key. *)
Lemma groupBy_group (l : list A) (g : Group string) :
  In g (groupBy String.eqb key val l) ->
  g_count g = count (membersUnder key (g_key g) l) /\
  (g_sum g == sumQ (map val (membersUnder key (g_key g) l)))%Q.
Proof.
  intros Hin.
  pose proof (groupAt_member _ g (groupBy_NoDup l) Hin) as Hat.
  pose proof (fold_sumAt l [] (g_key g)) as Hs.
  pose proof (fold_countAt l [] (g_key g)) as Hc.
  change (fold_left (bumpWith key val) l []) with (groupBy String.eqb key val l) in Hs, Hc.
  unfold sumAt, countAt in Hs, Hc. rewrite Hat in Hs, Hc. simpl in Hs, Hc.
  split; [lia|]. rewrite Hs. ring.
Qed.

End Groups.

Lemma insertSorted_perm {A : Type} (le : A -> A -> bool) (x : A) (l : list A) :
  Permutation (insertSorted le x l) (x :: l).
Proof.
  induction l as [|y l IH]; simpl; [reflexivity|].
  destruct (le x y); [reflexivity|].
  rewrite IH. apply perm_swap.
Qed.

Lemma sortBy_perm {A : Type} (le : A -> A -> bool) (l : list A) :
  Permutation (sortBy le l) l.
Proof.
  induction l as [|x l IH]; simpl; [reflexivity|].
  rewrite insertSorted_perm. now constructor.
Qed.

End GroupFacts.

Section ExpenseBuckets.
Variable w : World.
Variable f : ExFilter.
Variables format timezone : string.

Lemma periods_of_groups (gs : list (Group string)) :
  map ep_period (map toExpensePoint gs) = map g_key gs.
Proof. rewrite map_map. reflexivity. Qed.

Lemma expenseSeriesOf_NoDup :
  List.NoDup (map ep_period (expenseSeriesOf w f format timezone)).
Proof.
  unfold expenseSeriesOf. rewrite periods_of_groups.
  eapply Permutation_NoDup.
  - symmetry. apply Permutation_map, GroupFacts.sortBy_perm.
  - apply GroupFacts.groupBy_NoDup.
Qed.

Lemma expenseSeriesOf_keys (k : string) :
  In k (map ep_period (expenseSeriesOf w f format timezone)) <->
  expensesUnder w f format timezone k <> [].
Proof.
  unfold expenseSeriesOf, groupExpenses. rewrite periods_of_groups.
  set (key := fun e => dateToString format (zoneOffset w timezone) (ex_date e)).
  transitivity (In k (map g_key (groupBy String.eqb key ex_amount (matchingExpenses w f)))).
  - split; apply Permutation_in, Permutation_map;
      [|symmetry]; apply GroupFacts.sortBy_perm.
  - rewrite GroupFacts.groupBy_keys.
    pose proof (GroupFacts.under_nil key (matchingExpenses w f) k) as Hnil.
    change (membersUnder key k (matchingExpenses w f))
      with (expensesUnder w f format timezone k) in Hnil.
    destruct (expensesUnder w f format timezone k) eqn:E.
    + split; [intros H; exfalso; now apply Hnil | congruence].
    + split; [discriminate|]. intros _.
      destruct (in_dec string_dec k (map key (matchingExpenses w f))) as [H|H]; [exact H|].
      apply Hnil in H. discriminate.
Qed.

Lemma expenseSeriesOf_bucket (p : ExpensePoint) :
  In p (expenseSeriesOf w f format timezone) -> bucketHolds w f format timezone p.
Proof.
  unfold expenseSeriesOf, groupExpenses. intros Hin.
  apply in_map_iff in Hin. destruct Hin as (g & <- & Hg).
  apply (Permutation_in _ (GroupFacts.sortBy_perm _ _)) in Hg.
  apply GroupFacts.groupBy_group in Hg. exact Hg.
Qed.

End ExpenseBuckets.

Module FillFacts.

Section Keyed.
Context {P V : Type} (key : P -> string) (val : P -> V).

Lemma keyed_Some (series : list P) (m : gmap string V) (k : string) (v : V) :
  keyed key val series m !! k = Some v ->
  (exists p, In p series /\ key p = k /\ v = val p) \/ m !! k = Some v.
Proof.
  unfold keyed. revert m.
  induction series as [|p series IH]; intros m H; simpl in H; [now right|].
  apply IH in H. destruct H as [(q & Hq & Hk & Hv)|H].
  - left. exists q. simpl. auto.
  - destruct (decide (key p = k)) as [E|E].
    + rewrite E, lookup_insert_eq in H. left. exists p. simpl.
      split; [now left|]. split; [exact E | congruence].
    + rewrite lookup_insert_ne in H by exact E. now right.
Qed.

Lemma keyed_keep (series : list P) (m : gmap string V) (k : string) :
  is_Some (m !! k) -> is_Some (keyed key val series m !! k).
Proof.
  unfold keyed. revert m.
  induction series as [|p series IH]; intros m Hm; simpl; [exact Hm|].
  apply IH. destruct (decide (key p = k)) as [E|E].
  - rewrite E, lookup_insert_eq. eauto.
  - rewrite lookup_insert_ne by exact E. exact Hm.
Qed.

Lemma keyed_member (series : list P) (m : gmap string V) (k : string) :
  In k (map key series) -> is_Some (keyed key val series m !! k).
Proof.
  revert m. induction series as [|p series IH]; intros m Hin; simpl in *; [contradiction|].
  destruct Hin as [E|Hin]; [|apply IH, Hin].
  apply keyed_keep. rewrite E, lookup_insert_eq. eauto.
Qed.

End Keyed.

(** What the loop pushes for a key: the bucket of the aggregate, or a
    zero bucket when the aggregate has none. *)
Lemma bucketAt_cases (series : list ExpensePoint) (k : string) :
  (In (bucketAt (seriesMap series) k) series) \/
  (~ In k (map ep_period series) /\
   bucketAt (seriesMap series) k = {| ep_period := k; amount := 0; ep_count := 0 |}).
Proof.
  unfold bucketAt, seriesMap.
  change (fold_left _ series ∅)
    with (keyed ep_period (fun p => (amount p, ep_count p)) series ∅).
  destruct (keyed _ _ series ∅ !! k) as [v|] eqn:E.
  - left. apply keyed_Some in E. destruct E as [(p & Hin & Hk & Hv)|E].
    + subst. destruct p; exact Hin.
    + rewrite lookup_empty in E. discriminate.
  - right. split; [|reflexivity]. intros Hin.
    apply (keyed_member ep_period (fun p => (amount p, ep_count p)) series ∅) in Hin.
    rewrite E in Hin. destruct Hin as [? Hin]. discriminate.
Qed.

Lemma salesPointAt_cases (series : list SalesPoint) (k : string) :
  (In (salesPointAt (salesMapOf series) k) series) \/
  (~ In k (map period series) /\
   salesPointAt (salesMapOf series) k =
   {| period := k; sp_revenue := 0; transactions := 0 |}).
Proof.
  unfold salesPointAt, salesMapOf.
  change (fold_left _ series ∅) with (keyed period (fun p => p) series ∅).
  destruct (keyed _ _ series ∅ !! k) as [v|] eqn:E.
  - left. apply keyed_Some in E. destruct E as [(p & Hin & Hk & Hv)|E].
    + subst. destruct p; exact Hin.
    + rewrite lookup_empty in E. discriminate.
  - right. split; [|reflexivity]. intros Hin.
    apply (keyed_member period (fun p => p) series ∅) in Hin.
    rewrite E in Hin. destruct Hin as [? Hin]. discriminate.
Qed.

Section Fill.
Variable w : World.

Lemma fillExpenseDays_periods (timezone : string) (m : gmap string (Q * Z)) (n : nat) :
  forall (fuel : nat) (cursor end0 : Z),
    (n <= fuel)%nat ->
    end0 < cursor + Z.of_nat n * JsDate.msPerDay ->
    ((0 < n)%nat -> cursor + (Z.of_nat n - 1) * JsDate.msPerDay <= end0) ->
    fillExpenseDays w fuel cursor end0 timezone m =
    map (fun i => bucketAt m (formatDateForTimezone w
                                (cursor + Z.of_nat i * JsDate.msPerDay) timezone))
        (seq 0 n).
Proof.
  induction n as [|n IH]; intros fuel cursor end0 Hfuel Hlt Hle.
  - simpl. destruct fuel; [reflexivity|]. simpl.
    destruct (Z.leb_spec cursor end0); [lia | reflexivity].
  - destruct fuel as [|fuel]; [lia|].
    assert (Hday : 0 < JsDate.msPerDay) by (unfold JsDate.msPerDay; lia).
    assert (Hin : cursor <= end0) by (specialize (Hle ltac:(lia)); nia).
    cbn [fillExpenseDays]. destruct (Z.leb_spec cursor end0); [|lia].
    cbn [seq map]. f_equal.
    + replace (cursor + Z.of_nat 0 * JsDate.msPerDay) with cursor by lia. reflexivity.
    + rewrite setDate_shift.
      rewrite (IH fuel (cursor + 1 * JsDate.msPerDay) end0); [|lia|nia|intros; nia].
      rewrite <- seq_shift, map_map. apply map_ext. intros i.
      do 2 f_equal. lia.
Qed.

Lemma fillSalesDays_periods (timezone : string) (m : gmap string SalesPoint) (n : nat) :
  forall (fuel : nat) (cursor endLocal : Z),
    (n <= fuel)%nat ->
    endLocal < cursor + Z.of_nat n * JsDate.msPerDay ->
    ((0 < n)%nat -> cursor + (Z.of_nat n - 1) * JsDate.msPerDay <= endLocal) ->
    fillSalesDays w fuel cursor endLocal timezone m =
    map (fun i => salesPointAt m (formatDateForTimezone w
                                    (cursor + Z.of_nat i * JsDate.msPerDay) timezone))
        (seq 0 n).
Proof.
  induction n as [|n IH]; intros fuel cursor endLocal Hfuel Hlt Hle.
  - simpl. destruct fuel; [reflexivity|]. simpl.
    destruct (Z.leb_spec cursor endLocal); [lia | reflexivity].
  - destruct fuel as [|fuel]; [lia|].
    assert (Hday : 0 < JsDate.msPerDay) by (unfold JsDate.msPerDay; lia).
    assert (Hin : cursor <= endLocal) by (specialize (Hle ltac:(lia)); nia).
    cbn [fillSalesDays]. destruct (Z.leb_spec cursor endLocal); [|lia].
    cbn [seq map]. f_equal.
    + replace (cursor + Z.of_nat 0 * JsDate.msPerDay) with cursor by lia. reflexivity.
    + rewrite setDate_shift.
      rewrite (IH fuel (cursor + 1 * JsDate.msPerDay) endLocal); [|lia|nia|intros; nia].
      rewrite <- seq_shift, map_map. apply map_ext. intros i.
      do 2 f_equal. lia.
Qed.

End Fill.

End FillFacts.

Section SalesBuckets.
Variable w : World.
Variable f : TxFilter.
Variables format timezone : string.

Lemma periods_of_sales_groups (gs : list (Group string)) :
  map period (map toSalesPoint gs) = map g_key gs.
Proof. rewrite map_map. reflexivity. Qed.

Lemma salesSeriesOf_NoDup :
  List.NoDup (map period (salesSeriesOf w f format timezone)).
Proof.
  unfold salesSeriesOf. rewrite periods_of_sales_groups.
  eapply Permutation_NoDup.
  - symmetry. apply Permutation_map, GroupFacts.sortBy_perm.
  - apply GroupFacts.groupBy_NoDup.
Qed.

Lemma salesSeriesOf_keys (k : string) :
  In k (map period (salesSeriesOf w f format timezone)) <->
  salesUnder w f format timezone k <> [].
Proof.
  unfold salesSeriesOf. rewrite periods_of_sales_groups.
  set (key := fun t => dateToString format (zoneOffset w timezone) (created_at t)).
  transitivity (In k (map g_key (groupBy String.eqb key amountOf (matchingTransactions w f)))).
  - split; apply Permutation_in, Permutation_map;
      [|symmetry]; apply GroupFacts.sortBy_perm.
  - rewrite GroupFacts.groupBy_keys.
    pose proof (GroupFacts.under_nil key (matchingTransactions w f) k) as Hnil.
    change (membersUnder key k (matchingTransactions w f))
      with (salesUnder w f format timezone k) in Hnil.
    destruct (salesUnder w f format timezone k) eqn:E.
    + split; [intros H; exfalso; now apply Hnil | congruence].
    + split; [discriminate|]. intros _.
      destruct (in_dec string_dec k (map key (matchingTransactions w f))) as [H|H];
        [exact H|].
      apply Hnil in H. discriminate.
Qed.

Lemma salesSeriesOf_bucket (p : SalesPoint) :
  In p (salesSeriesOf w f format timezone) -> salesHolds w f format timezone p.
Proof.
  unfold salesSeriesOf. intros Hin.
  apply in_map_iff in Hin. destruct Hin as (g & <- & Hg).
  apply (Permutation_in _ (GroupFacts.sortBy_perm _ _)) in Hg.
  apply GroupFacts.groupBy_group in Hg. exact Hg.
Qed.

End SalesBuckets.

Section ProcessDays.
Variable w : World.

Lemma processDay_midnight (d x : Z) :
  0 <= x < JsDate.msPerDay -> processDay w (midnightOf w d + x) = d.
Proof.
  intros Hx. unfold processDay, midnightOf, UTC, LocalTime, JsDate.Day.
  replace (d * JsDate.msPerDay - LocalTZA w + x + LocalTZA w)
    with (x + d * JsDate.msPerDay) by lia.
  unfold JsDate.msPerDay in *. rewrite Z.div_add by lia.
  rewrite Z.div_small by lia. lia.
Qed.

Lemma processDay_shift (t k : Z) :
  processDay w (t + k * JsDate.msPerDay) = processDay w t + k.
Proof.
  unfold processDay, LocalTime, JsDate.Day.
  replace (t + k * JsDate.msPerDay + LocalTZA w)
    with (t + LocalTZA w + k * JsDate.msPerDay) by lia.
  unfold JsDate.msPerDay. rewrite Z.div_add by lia. reflexivity.
Qed.

Lemma same_day_fields (t1 t2 : Z) :
  processDay w t1 = processDay w t2 ->
  getFullYear w t1 = getFullYear w t2 /\
  getMonth w t1 = getMonth w t2 /\
  getDate w t1 = getDate w t2.
Proof. intros H. apply fields_by_day, H. Qed.

Lemma localDate_day_start (t : Z) :
  100 <= getFullYear w t ->
  localDate w (getFullYear w t) (getMonth w t) (getDate w t) 0 0 0 0 =
  midnightOf w (processDay w t).
Proof. intros H. rewrite (localDate_of_fields w t H). reflexivity. Qed.

Lemma localDate_day_end (t : Z) :
  100 <= getFullYear w t ->
  localDate w (getFullYear w t) (getMonth w t) (getDate w t) 23 59 59 999 =
  midnightOf w (processDay w t) + (JsDate.msPerDay - 1).
Proof.
  intros H.
  destruct (localDate_day_bounds w (getFullYear w t) (getMonth w t) (getDate w t))
    as [_ ->].
  rewrite (localDate_day_start t H). lia.
Qed.

Lemma getFullYear_day_start (t : Z) :
  100 <= getFullYear w t ->
  getFullYear w (localDate w (getFullYear w t) (getMonth w t) (getDate w t) 0 0 0 0) =
  getFullYear w t.
Proof.
  intros H. rewrite (localDate_day_start t H).
  apply same_day_fields.
  replace (midnightOf w (processDay w t)) with (midnightOf w (processDay w t) + 0) by lia.
  apply processDay_midnight. unfold JsDate.msPerDay. lia.
Qed.

Lemma getFullYear_day_end (t : Z) :
  100 <= getFullYear w t ->
  getFullYear w (localDate w (getFullYear w t) (getMonth w t) (getDate w t) 23 59 59 999) =
  getFullYear w t.
Proof.
  intros H. rewrite (localDate_day_end t H).
  apply same_day_fields, processDay_midnight. unfold JsDate.msPerDay. lia.
Qed.

Lemma dayRounds_days (a b : Z) :
  dayRounds (midnightOf w (processDay w a)) (midnightOf w (processDay w b)) =
  Z.to_nat (processDay w b - processDay w a + 1).
Proof.
  unfold dayRounds, midnightOf, UTC. f_equal.
  replace (processDay w b * JsDate.msPerDay - LocalTZA w
           - (processDay w a * JsDate.msPerDay - LocalTZA w))
    with ((processDay w b - processDay w a) * JsDate.msPerDay) by lia.
  rewrite Z.div_mul by (unfold JsDate.msPerDay; lia). reflexivity.
Qed.

(** The loop of the expense series, run with the rounds the model gives
    it, pushes one bucket for each day of the window. *)
Lemma fillExpenseDays_window (timezone : string) (m : gmap string (Q * Z)) (a b : Z) :
  100 <= getFullYear w a -> 100 <= getFullYear w b ->
  let startLocal := localDate w (getFullYear w a) (getMonth w a) (getDate w a) 0 0 0 0 in
  let endLocal := localDate w (getFullYear w b) (getMonth w b) (getDate w b) 0 0 0 0 in
  fillExpenseDays w (dayRounds startLocal endLocal) startLocal endLocal timezone m =
  map (fun d => bucketAt m (dayKey w timezone d)) (daysOfWindow w a b).
Proof.
  intros Ha Hb. cbv zeta.
  rewrite (localDate_day_start a Ha), (localDate_day_start b Hb), dayRounds_days.
  assert (Hday : 0 < JsDate.msPerDay) by (unfold JsDate.msPerDay; lia).
  rewrite (FillFacts.fillExpenseDays_periods w _ _
             (Z.to_nat (processDay w b - processDay w a + 1)));
    [|lia|unfold midnightOf, UTC; nia|unfold midnightOf, UTC; intros; nia].
  unfold daysOfWindow. rewrite map_map. apply map_ext. intros i.
  unfold dayKey, midnightOf, UTC. do 3 f_equal. lia.
Qed.

Lemma fillSalesDays_window (timezone : string) (m : gmap string SalesPoint) (a b : Z) :
  100 <= getFullYear w a -> 100 <= getFullYear w b ->
  let startLocal := localDate w (getFullYear w a) (getMonth w a) (getDate w a) 0 0 0 0 in
  let endLocal := localDate w (getFullYear w b) (getMonth w b) (getDate w b) 0 0 0 0 in
  fillSalesDays w (dayRounds startLocal endLocal) startLocal endLocal timezone m =
  map (fun d => salesPointAt m (dayKey w timezone d)) (daysOfWindow w a b).
Proof.
  intros Ha Hb. cbv zeta.
  rewrite (localDate_day_start a Ha), (localDate_day_start b Hb), dayRounds_days.
  assert (Hday : 0 < JsDate.msPerDay) by (unfold JsDate.msPerDay; lia).
  rewrite (FillFacts.fillSalesDays_periods w _ _
             (Z.to_nat (processDay w b - processDay w a + 1)));
    [|lia|unfold midnightOf, UTC; nia|unfold midnightOf, UTC; intros; nia].
  unfold daysOfWindow. rewrite map_map. apply map_ext. intros i.
  unfold dayKey, midnightOf, UTC. do 3 f_equal. lia.
Qed.

End ProcessDays.

Lemma getExpenseSeries_daily (w : World) (a b : Z) (sid : option string) (s : Session) :
  100 <= getFullYear w a -> 100 <= getFullYear w b ->
  daysBetween a b <= 31 ->
  storeFails w (QExpenses (expenseWindow sid a b) (ExByDateString "%Y-%m-%d")) = false ->
  exists s',
    getExpenseSeries w a b sid s =
    (Ok (map (fun d =>
                bucketAt
                  (seriesMap (expenseSeriesOf w (expenseWindow sid a b) "%Y-%m-%d"
                                              (getStoreTimezone sid)))
                  (dayKey w (getStoreTimezone sid) d))
             (daysOfWindow w a b)), s').
Proof.
  intros Ha Hb Hdays Hstore.
  unfold getExpenseSeries, tryCatch, bind.
  destruct (Z.leb_spec (daysBetween a b) 31) as [_|]; [|lia].
  unfold request. fold (expenseWindow sid a b). rewrite Hstore.
  unfold ret. eexists. f_equal. f_equal.
  apply (fillExpenseDays_window w _ _ a b Ha Hb).
Qed.

Lemma getExpenseSeries_monthly (w : World) (a b : Z) (sid : option string) (s : Session) :
  31 < daysBetween a b ->
  storeFails w (QExpenses (expenseWindow sid a b) (ExByDateString "%Y-%m")) = false ->
  exists s',
    getExpenseSeries w a b sid s =
    (Ok (expenseSeriesOf w (expenseWindow sid a b) "%Y-%m" (getStoreTimezone sid)), s').
Proof.
  intros Hdays Hstore.
  unfold getExpenseSeries, tryCatch, bind.
  destruct (Z.leb_spec (daysBetween a b) 31) as [|_]; [lia|].
  unfold request. fold (expenseWindow sid a b). rewrite Hstore.
  unfold ret. eexists. reflexivity.
Qed.

Lemma getLastNDaysRange_run (w : World) (n : Z) (tz : string) (s : Session) :
  getLastNDaysRange w n tz s =
  (let end0 := clockAt w (reads s) in
   let start1 := clockAt w (S (reads s)) - n * JsDate.msPerDay in
   (Ok {| start := localDate w (getFullYear w start1) (getMonth w start1)
                             (getDate w start1) 0 0 0 0;
          end_ := localDate w (getFullYear w end0) (getMonth w end0)
                            (getDate w end0) 23 59 59 999 |},
    {| reads := S (S (reads s)); logged := logged s; issued := issued s |})).
Proof.
  unfold getLastNDaysRange, bind, newDate, ret. cbn.
  replace (getDate w (clockAt w (S (reads s))) - n)
    with (getDate w (clockAt w (S (reads s))) + - n) by lia.
  rewrite setDate_shift.
  replace (clockAt w (S (reads s)) + - n * JsDate.msPerDay)
    with (clockAt w (S (reads s)) - n * JsDate.msPerDay) by lia.
  reflexivity.
Qed.

Ltac run_period Hstore :=
  cbv beta iota zeta; cbn [orb]; unfold bind, getTodayRange, bind, newDate; try rewrite getLastNDaysRange_run;
  cbv beta iota zeta; unfold ret, request, within, salesWindow;
  cbn [negb start end_ f_store f_status f_payment f_source reads logged issued];
  rewrite Hstore.

Ltac next_token x name :=
  destruct (String.eqb x name); cbn [orb] in *.

Lemma getSalesByPeriod_daily (w : World) (sid : option string) (p : option string)
    (n : Z) (s : Session) :
  dailyToken p = Some n ->
  100 <= getFullYear w (clockAt w (reads s)) ->
  100 <= getFullYear w (clockAt w (S (reads s)) - n * JsDate.msPerDay) ->
  (forall f, storeFails w (QTransactions f (TxByDateString "%Y-%m-%d")) = false) ->
  exists r s1 s',
    getLastNDaysRange w n (getStoreTimezone sid) s = (Ok r, s1) /\
    getSalesByPeriod w sid p s =
    (Ok (map (fun d =>
                salesPointAt
                  (salesMapOf (salesSeriesOf w (salesWindow sid r) "%Y-%m-%d"
                                             (getStoreTimezone sid)))
                  (dayKey w (getStoreTimezone sid) d))
             (daysOfWindow w (start r) (end_ r))), s').
Proof.
  intros Htoken Hend Hstart Hstore.
  destruct p as [x|]; [|discriminate].
  rewrite getLastNDaysRange_run. cbv zeta.
  eexists _, _, _. split; [reflexivity|].
  unfold getSalesByPeriod, tryCatch. cbv beta iota zeta.
  unfold dailyToken in Htoken.
  destruct (String.eqb x "today") eqn:E0.
  { apply String.eqb_eq in E0. subst x. discriminate. }
  assert (Hfilled : forall m,
    fillSalesDays w
      (dayRounds _ _)
      (localDate w (getFullYear w _) (getMonth w _) (getDate w _) 0 0 0 0)
      (localDate w (getFullYear w _) (getMonth w _) (getDate w _) 0 0 0 0)
      (getStoreTimezone sid) m = _)
    by (intros m; apply (fillSalesDays_window w (getStoreTimezone sid) m);
        [rewrite getFullYear_day_start; exact Hstart
        |rewrite getFullYear_day_end; exact Hend]).
  next_token x "week"; [|next_token x "7d"; [|next_token x "month";
    [|next_token x "30d"; [|next_token x "90d"; [|discriminate Htoken]]]]];
    injection Htoken as <-; run_period Hstore; rewrite Hfilled; reflexivity.
Qed.

Lemma getSalesByPeriod_unfilled (w : World) (sid : option string) (p : option string)
    (s : Session) :
  dailyToken p = None ->
  (forall f fmt, storeFails w (QTransactions f (TxByDateString fmt)) = false) ->
  exists r fmt s',
    getSalesByPeriod w sid p s =
    (Ok (salesSeriesOf w (salesWindow sid r) fmt (getStoreTimezone sid)), s').
Proof.
  intros Htoken Hstore.
  unfold getSalesByPeriod, tryCatch. cbv beta iota zeta.
  destruct p as [x|].
  - unfold dailyToken in Htoken.
    destruct (String.eqb x "today");
      [eexists {| start := _; end_ := _ |}, _, _; run_period Hstore; reflexivity|].
    next_token x "week"; [discriminate|]. next_token x "7d"; [discriminate|].
    next_token x "month"; [discriminate|]. next_token x "30d"; [discriminate|].
    next_token x "90d"; [discriminate|].
    destruct (String.eqb x "1y");
      eexists {| start := _; end_ := _ |}, _, _; run_period Hstore; reflexivity.
  - eexists {| start := _; end_ := _ |}, _, _. run_period Hstore. reflexivity.
Qed.

Lemma filled_expense_buckets (w : World) (f : ExFilter) (format timezone : string)
    (keys : list string) :
  Forall (bucketHolds w f format timezone)
         (map (bucketAt (seriesMap (expenseSeriesOf w f format timezone))) keys).
Proof.
  induction keys as [|k keys IH]; simpl; constructor; [|exact IH].
  destruct (FillFacts.bucketAt_cases (expenseSeriesOf w f format timezone) k)
    as [Hin|[Hout ->]].
  - apply expenseSeriesOf_bucket, Hin.
  - unfold bucketHolds. cbn [ep_period amount ep_count].
    rewrite expenseSeriesOf_keys in Hout.
    destruct (expensesUnder w f format timezone k); [|exfalso; apply Hout; discriminate].
    split; reflexivity.
Qed.

Lemma filled_sales_buckets (w : World) (f : TxFilter) (format timezone : string)
    (keys : list string) :
  Forall (salesHolds w f format timezone)
         (map (salesPointAt (salesMapOf (salesSeriesOf w f format timezone))) keys).
Proof.
  induction keys as [|k keys IH]; simpl; constructor; [|exact IH].
  destruct (FillFacts.salesPointAt_cases (salesSeriesOf w f format timezone) k)
    as [Hin|[Hout ->]].
  - apply salesSeriesOf_bucket, Hin.
  - unfold salesHolds. cbn [period sp_revenue transactions].
    rewrite salesSeriesOf_keys in Hout.
    destruct (salesUnder w f format timezone k); [|exfalso; apply Hout; discriminate].
    split; reflexivity.
Qed.

Lemma periods_of_buckets (m : gmap string (Q * Z)) (keys : list string) :
  map ep_period (map (bucketAt m) keys) = keys.
Proof. rewrite map_map. unfold bucketAt. cbn [ep_period]. apply map_id. Qed.

Lemma periods_of_sales (m : gmap string SalesPoint) (keys : list string) :
  map period (map (salesPointAt m) keys) = keys.
Proof.
  rewrite map_map. rewrite <- (map_id keys) at 2. apply map_ext. intros k.
  unfold salesPointAt. destruct (m !! k); reflexivity.
Qed.

Lemma Forall_in {A : Type} (P : A -> Prop) (l : list A) :
  (forall x, In x l -> P x) -> Forall P l.
Proof.
  induction l as [|x l IH]; intros H; constructor.
  - apply H. now left.
  - apply IH. intros y Hy. apply H. now right.
Qed.




(** * Further properties of the code *)

(** ** The calendar ranges of utils/timezone.ts *)

Module MonthFacts.
Import JsDate.

Lemma DayWithinYear_range (t : Z) :
  0 <= DayWithinYear t < DaysInYear (YearFromTime t).
Proof.
  unfold DayWithinYear, YearFromTime.
  pose proof (CalendarFacts.YearFromDay_correct (Day t)) as H.
  rewrite CalendarFacts.DayFromYear_succ in H. lia.
Qed.

(** The date of a time value is a day of its month. *)
Lemma DateFromTime_range (t : Z) :
  1 <= DateFromTime t <= monthLength (MonthFromTime t + 1) (YearFromTime t).
Proof.
  pose proof (DayWithinYear_range t) as Hd.
  unfold DateFromTime, MonthFromTime, monthLength, DaysInYear, InLeapYear in *.
  set (d := DayWithinYear t) in *. clearbody d.
  destruct (isLeapYear (YearFromTime t));
    unfold monthOfYearDay;
    repeat match goal with
           | |- context [if ?a <? ?b then _ else _] => destruct (Z.ltb_spec a b)
           end;
    cbn in *;
    repeat match goal with
           | |- context [?a =? ?b] => destruct (Z.eqb_spec a b); try lia
           end;
    cbn [orb]; lia.
Qed.

End MonthFacts.

Section CalendarRanges.
Variable w : World.

Lemma localDate_month_start (t : Z) :
  100 <= getFullYear w t ->
  localDate w (getFullYear w t) (getMonth w t) 1 0 0 0 0 =
  midnightOf w (processDay w t - (getDate w t - 1)).
Proof.
  intros Hy. unfold localDate.
  destruct (Z.leb_spec (getFullYear w t) 99); [lia|]. rewrite andb_false_r.
  unfold getFullYear, getMonth, getDate, processDay, midnightOf.
  replace 1 with (JsDate.DateFromTime (LocalTime w t)
                  + (1 - JsDate.DateFromTime (LocalTime w t))) at 1 by lia.
  rewrite CalendarFacts.MakeDay_fields.
  unfold JsDate.MakeDate, JsDate.MakeTime. f_equal. lia.
Qed.

Lemma time_in_day (t : Z) :
  midnightOf w (processDay w t) <= t < midnightOf w (processDay w t) + JsDate.msPerDay.
Proof.
  unfold midnightOf, processDay, UTC.
  pose proof (CalendarFacts.day_split (LocalTime w t)) as Hs.
  assert (0 <= JsDate.TimeWithinDay (LocalTime w t) < JsDate.msPerDay)
    by (unfold JsDate.TimeWithinDay, JsDate.msPerDay; apply Z.mod_pos_bound; lia).
  unfold LocalTime in *. lia.
Qed.

End CalendarRanges.


(** X2.  [getThisMonthRange] answers with the calendar month, in the zone
    of the process, that the clock is in: the range holds the instant the
    clock was read and is the month [getMonthYearRange] gives for the
    month and year of that instant. *)
Theorem getThisMonthRange_holds_now :
  forall (w : World) (tz : string) (s : Session),
    100 <= getFullYear w (clockAt w (reads s)) ->
    exists r s',
      getThisMonthRange w tz s = (Ok r, s') /\
      r = calendarMonth w (getMonth w (clockAt w (reads s)) + 1)
                        (getFullYear w (clockAt w (reads s))) /\
      start r <= clockAt w (reads s) <= end_ r.
Proof.
  intros w tz s Hy. set (now := clockAt w (reads s)) in *.
  pose proof (CalendarFacts.monthOfYearDay_range
                (JsDate.InLeapYear (LocalTime w now))
                (JsDate.DayWithinYear (LocalTime w now))) as Hm.
  fold (JsDate.MonthFromTime (LocalTime w now)) in Hm. fold (getMonth w now) in Hm.
  pose proof (MonthFacts.DateFromTime_range (LocalTime w now)) as Hd.
  fold (getMonth w now) (getFullYear w now) (getDate w now) in Hd.
  assert (Hend : localDate w (getFullYear w now) (getMonth w now + 1) 0 23 59 59 999 =
                 localDate w (getFullYear w now) (getMonth w now) 1 0 0 0 0
                 + monthLength (getMonth w now + 1) (getFullYear w now) * JsDate.msPerDay - 1).
  { rewrite (localDate_month_end w (getFullYear w now) (getMonth w now + 1)) by lia.
    replace (getMonth w now + 1 - 1) with (getMonth w now) by lia. reflexivity. }
  eexists _, _. split; [reflexivity|]. cbn [start end_].
  change (clockAt w (reads s)) with now.
  split.
  - unfold calendarMonth. rewrite Hend.
    replace (getMonth w now + 1 - 1) with (getMonth w now) by lia. reflexivity.
  - rewrite Hend, (localDate_month_start w now Hy).
    pose proof (time_in_day w now) as Hnow.
    unfold midnightOf, UTC in *.
    assert (Hday : JsDate.msPerDay = 86400000) by reflexivity.
    nia.
Qed.

Lemma getThisMonthRange_holds_now_witness :
  exists r s',
    getThisMonthRange Sample.world "Europe/Nicosia" freshSession = (Ok r, s') /\
    r = calendarMonth Sample.world 1 2025 /\
    start r <= Sample.noon <= end_ r.
Proof.
  apply (getThisMonthRange_holds_now Sample.world "Europe/Nicosia" freshSession).
  vm_compute. discriminate.
Defined.






Lemma allReadBack :
  forallb (fun y => forallb (fun m => forallb (fun d => fieldsReadBack y m d)
                                              (upFrom 1 31)) (upFrom 1 12))
          (upFrom 1900 201) = true.
Proof. vm_compute. reflexivity. Qed.

Lemma upFrom_In (a : Z) (n : nat) (x : Z) :
  a <= x < a + Z.of_nat n -> In x (upFrom a n).
Proof.
  intros H. unfold upFrom. apply in_map_iff.
  exists (Z.to_nat (x - a)). split; [lia|].
  apply in_seq. lia.
Qed.

(** A date printed as [YYYY-MM-DD] reads back as its three fields, for
    the years [parseDateInTimezone] accepts. *)
Lemma fieldsReadBack_true (y m d : Z) :
  1900 <= y <= 2100 -> 1 <= m <= 12 -> 1 <= d <= 31 ->
  fieldsReadBack y m d = true.
Proof.
  intros Hy Hm Hd.
  assert (Iy : In y (upFrom 1900 201)) by (apply upFrom_In; lia).
  assert (Im : In m (upFrom 1 12)) by (apply upFrom_In; lia).
  assert (Id : In d (upFrom 1 31)) by (apply upFrom_In; lia).
  pose proof (proj1 (Stdlib.Lists.List.forallb_forall _ _) allReadBack y Iy) as H1.
  pose proof (proj1 (Stdlib.Lists.List.forallb_forall _ _) H1 m Im) as H2.
  exact (proj1 (Stdlib.Lists.List.forallb_forall _ _) H2 d Id).
Qed.

Lemma dateFields_ymdString (y m d : Z) :
  1900 <= y <= 2100 -> 1 <= m <= 12 -> 1 <= d <= 31 ->
  exists qy qm qd : Q,
    dateFields (ymdString y m d) = (Fin qy, Fin qm, Fin qd) /\
    JsMath.trunc qy = y /\ JsMath.trunc (qm - 1) = m - 1 /\ JsMath.trunc qd = d /\
    (1900 <= qy <= 2100)%Q /\ (1 <= qm <= 12)%Q /\ (1 <= qd <= 31)%Q.
Proof.
  intros Hy Hm Hd. pose proof (fieldsReadBack_true y m d Hy Hm Hd) as H.
  unfold fieldsReadBack in H.
  destruct (dateFields (ymdString y m d)) as [[[|qy|] [|qm|]] [|qd|]]; try discriminate.
  repeat (apply andb_prop in H; destruct H as [H ?]).
  exists qy, qm, qd. split; [reflexivity|].
  repeat match goal with
         | E : (_ =? _) = true |- _ => apply Z.eqb_eq in E
         | E : Qle_bool _ _ = true |- _ => apply Qle_bool_iff in E
         end.
  repeat split; assumption.
Qed.



Section RollOver.
Variable w : World.

Lemma localDate_date_offset (y m d : Z) :
  localDate w y m d 0 0 0 0 = localDate w y m 1 0 0 0 0 + (d - 1) * JsDate.msPerDay.
Proof.
  unfold localDate, UTC, JsDate.MakeDate, JsDate.MakeDay, JsDate.MakeTime. lia.
Qed.

Lemma localDate_next_month (y m : Z) :
  100 <= y -> 0 <= m <= 11 ->
  localDate w y (m + 1) 1 0 0 0 0 =
  localDate w y m 1 0 0 0 0 + monthLength (m + 1) y * JsDate.msPerDay.
Proof.
  intros Hy Hm.
  pose proof (localDate_month_end w y (m + 1) ltac:(lia) Hy) as Hend.
  replace (m + 1 - 1) with m in Hend by lia.
  destruct (localDate_day_bounds w y (m + 1) 0) as [_ Hlast].
  rewrite (localDate_date_offset y (m + 1) 0) in Hlast.
  assert (Hday : JsDate.msPerDay = 86400000) by reflexivity.
  lia.
Qed.

End RollOver.

(** X6.  [parseDateRange] takes the day of the month as an offset from
    the first of the month and never checks it against the length of the
    month: a day that the month does not have, such as the 30th of
    February, is accepted and the range starts in the month after. *)
Theorem parseDateRange_rolls_over_month_end :
  forall (w : World) (s e tz : string) (r : DateRange) (y m d : Q),
    parseDateRange w (Some s) (Some e) tz = Some r ->
    dateFields s = (Fin y, Fin m, Fin d) ->
    start r = dayStart w y m 1 + (JsMath.trunc d - 1) * JsDate.msPerDay /\
    (monthLength (JsMath.trunc (m - 1) + 1) (JsMath.trunc y) < JsMath.trunc d ->
     localDate w (JsMath.trunc y) (JsMath.trunc (m - 1) + 1) 1 0 0 0 0 <= start r).
Proof.
  intros w s e tz r y m d Hr Hfields.
  destruct (parseDateRange_Some w s e tz r Hr)
    as (y1 & m1 & d1 & y2 & m2 & d2 & Hf1 & (Hy & Hm & Hd) & _ & _ & ->).
  rewrite Hfields in Hf1. injection Hf1 as <- <- <-.
  cbn [start]. unfold dayStart.
  change (JsMath.trunc 1) with 1.
  rewrite (localDate_date_offset w (JsMath.trunc y) (JsMath.trunc (m - 1)) (JsMath.trunc d)).
  split; [reflexivity|]. intros Hover.
  assert (Hty : 1900 <= JsMath.trunc y <= 2100)
    by (apply ParseFacts.trunc_bounds; [lia | exact Hy]).
  assert (Htm : 0 <= JsMath.trunc (m - 1) <= 11).
  { apply ParseFacts.trunc_bounds; [lia|].
    change (inject_Z 0) with 0%Q. change (inject_Z 11) with 11%Q.
    destruct Hm. split; lra. }
  rewrite (localDate_next_month w (JsMath.trunc y) (JsMath.trunc (m - 1))) by (lia || exact Htm).
  assert (Hday : JsDate.msPerDay = 86400000) by reflexivity.
  nia.
Qed.

Lemma parseDateRange_rolls_over_month_end_witness :
  exists r,
    parseDateRange Sample.world (Some "2025-02-30") (Some "2025-02-30") "Europe/Nicosia"
    = Some r /\
    start r = Sample.jan1 + 60 * Sample.day.
Proof.
  assert (Hr : parseDateRange Sample.world (Some "2025-02-30") (Some "2025-02-30")
                 "Europe/Nicosia"
               = Some {| start := Sample.jan1 + 60 * Sample.day;
                         end_ := Sample.jan1 + 61 * Sample.day - 1 |})
    by (vm_compute; reflexivity).
  eexists. split; [exact Hr|].
  destruct (parseDateRange_rolls_over_month_end Sample.world "2025-02-30" "2025-02-30"
              "Europe/Nicosia" _ 2025 2 30 Hr) as [Hstart _].
  - vm_compute. reflexivity.
  - reflexivity.
Defined.

(** ** The date filter of AnalyticsService *)



(** ** Growth and comparison windows *)

(** X8.  When its two totals are answered, [calculateGrowthRate] is
    [calculatePercentageChange] of the sales of the previous window and
    the sales of the current one, each total counting as 0 when no
    transaction falls in its window. *)
Theorem calculateGrowthRate_is_percentage_change :
  forall (w : World) (storeId : option string) (filters : option DashboardFilters)
         (s s1 : Session) (p : Periods),
    growthPeriods w filters (getStoreTimezone storeId) s = (Ok p, s1) ->
    (forall f, storeFails w (QTransactions f TxTotal) = false) ->
    let base := baseFilterOf storeId filters (StatusIn DEFAULT_STATUSES) in
    let current :=
      within base (Some (start (currentPeriod p))) (Some (end_ (currentPeriod p))) in
    let previous :=
      within base (Some (start (previousPeriod p))) (Some (end_ (previousPeriod p))) in
    exists s',
      calculateGrowthRate w storeId filters s =
      (Ok (calculatePercentageChange (orZeroOpt (totalOf w previous))
                                     (orZeroOpt (totalOf w current))), s').
Proof.
  intros w storeId filters s s1 p Hp Hstore base current previous.
  unfold calculateGrowthRate, tryCatch, bind. rewrite Hp. cbv zeta.
  unfold both, request. rewrite !Hstore. cbv beta iota.
  fold base. fold current. fold previous.
  unfold calculatePercentageChange.
  destruct (JsMath.isZero (orZeroOpt (totalOf w previous))); eexists; reflexivity.
Qed.

Lemma calculateGrowthRate_is_percentage_change_witness :
  exists g s',
    calculateGrowthRate Sample.world Sample.store None freshSession = (Ok g, s').
Proof.
  destruct (growthPeriods Sample.world None (getStoreTimezone Sample.store) freshSession)
    as [[p|e] s1] eqn:Hp; [|vm_compute in Hp; discriminate].
  destruct (calculateGrowthRate_is_percentage_change Sample.world Sample.store None
              freshSession s1 p Hp) as [s' Hrun].
  - intros f. reflexivity.
  - eexists _, s'. exact Hrun.
Defined.

(** X9.  For a negative previous value the sign of the change is turned
    round: a rise is reported as a change that is not positive and a fall
    as one that is not negative, the difference being divided by the
    previous value and not by its size. *)
Theorem calculatePercentageChange_negative_base :
  forall previous current : Q,
    (previous < 0)%Q ->
    ((previous < current)%Q -> (calculatePercentageChange previous current <= 0)%Q) /\
    ((current < previous)%Q -> (0 <= calculatePercentageChange previous current)%Q).
Proof.
  intros previous current Hneg.
  assert (Hnz : ~ (previous == 0)%Q) by (intros E; rewrite E in Hneg; discriminate).
  unfold calculatePercentageChange.
  apply PercentFacts.isZero_false in Hnz as Hz. rewrite Hz. cbv zeta.
  set (q := ((current - previous) / previous)%Q).
  assert (Hq : (q * previous == current - previous)%Q)
    by (unfold q; rewrite Qmult_comm; apply Qmult_div_r, Hnz).
  pose proof (PercentFacts.round_near (q * 100 * 100)) as [Hlo Hhi].
  set (n := JsMath.round (q * 100 * 100)) in *.
  split; intros Hdir.
  - assert (Hq0 : (q <= 0)%Q).
    { apply Qnot_lt_le. intros Hpos.
      assert (0 < q * - previous)%Q by (apply Qmult_lt_0_compat; lra).
      lra. }
    assert (Hn : n <= 0).
    { apply Z.lt_succ_r. rewrite Zlt_Qlt. change (inject_Z (Z.succ 0)) with 1%Q. lra. }
    rewrite Zle_Qle in Hn. change (inject_Z 0) with 0%Q in Hn.
    unfold Qdiv. change (/ 100)%Q with (1 # 100). lra.
  - assert (Hq0 : (0 <= q)%Q).
    { apply Qnot_lt_le. intros Hnegq.
      assert (0 < - q * - previous)%Q by (apply Qmult_lt_0_compat; lra).
      lra. }
    assert (Hn : 0 <= n).
    { apply Z.lt_pred_le. rewrite Zlt_Qlt. change (inject_Z (Z.pred 0)) with (-1)%Q. lra. }
    rewrite Zle_Qle in Hn. change (inject_Z 0) with 0%Q in Hn.
    unfold Qdiv. change (/ 100)%Q with (1 # 100). lra.
Qed.

Lemma calculatePercentageChange_negative_base_witness :
  (calculatePercentageChange (-100) (-50) <= 0)%Q.
Proof.
  destruct (calculatePercentageChange_negative_base (-100) (-50)) as [Hrise _];
    [reflexivity|].
  apply Hrise. reflexivity.
Defined.



(** ** Sorted and limited answers *)

Module SortFacts.
Section Sort.
Context {A : Type} (le : A -> A -> bool).
Hypothesis le_total : forall a b, le a b = true \/ le b a = true.

Lemma insertSorted_HdRel (a x : A) (l : list A) :
  le a x = true -> HdRel (fun u v => le u v = true) a l ->
  HdRel (fun u v => le u v = true) a (insertSorted le x l).
Proof.
  intros Hax Hal. destruct l as [|y l]; simpl.
  - constructor. exact Hax.
  - destruct (le x y); constructor; [exact Hax|].
    inversion Hal; assumption.
Qed.

Lemma insertSorted_Sorted (x : A) (l : list A) :
  Sorted (fun u v => le u v = true) l ->
  Sorted (fun u v => le u v = true) (insertSorted le x l).
Proof.
  induction l as [|y l IH]; intros Hs; simpl.
  - repeat constructor.
  - destruct (le x y) eqn:E.
    + constructor; [exact Hs | constructor; exact E].
    + inversion Hs as [|? ? Hl Hhd]; subst. constructor; [apply IH, Hl|].
      apply insertSorted_HdRel; [|exact Hhd].
      destruct (le_total x y) as [H|H]; [congruence | exact H].
Qed.

Lemma sortBy_Sorted (l : list A) : Sorted (fun u v => le u v = true) (sortBy le l).
Proof.
  induction l as [|x l IH]; simpl; [constructor|].
  apply insertSorted_Sorted, IH.
Qed.

End Sort.

Lemma firstn_Sorted {A : Type} (R : A -> A -> Prop) (n : nat) (l : list A) :
  Sorted R l -> Sorted R (firstn n l).
Proof.
  revert l. induction n as [|n IH]; intros l Hs; simpl; [constructor|].
  destruct l as [|x l]; [constructor|].
  inversion Hs as [|? ? Hl Hhd]; subst. constructor; [apply IH, Hl|].
  destruct n; simpl; [constructor|].
  destruct l as [|y l]; [constructor|].
  inversion Hhd; subst. constructor. assumption.
Qed.

Lemma firstn_NoDup {A : Type} (n : nat) (l : list A) :
  List.NoDup l -> List.NoDup (firstn n l).
Proof.
  intros H. rewrite <- (firstn_skipn n l) in H.
  exact (Stdlib.Lists.List.NoDup_app_remove_r _ _ H).
Qed.

Lemma Sorted_impl {A : Type} (R R' : A -> A -> Prop) (l : list A) :
  (forall a b, R a b -> R' a b) -> Sorted R l -> Sorted R' l.
Proof.
  intros HR. induction 1 as [|x l Hl IH Hhd]; constructor; [exact IH|].
  destruct Hhd; constructor. apply HR. assumption.
Qed.

End SortFacts.

(** X11.  [getExpensesByDateRange] answers with exactly the expenses of
    the store dated within the two bounds, each as often as the ledger
    holds it, the newest first; when the store fails, the failure is
    logged and thrown on. *)
Theorem getExpensesByDateRange_newest_first :
  forall (w : World) (startDate endDate : Z) (storeId : option string) (s : Session),
    let filter := expenseWindow storeId startDate endDate in
    match getExpensesByDateRange w startDate endDate storeId s with
    | (Ok l, s') =>
        Permutation l (matchingExpenses w filter) /\
        Sorted (fun a b => ex_date b <= ex_date a) l /\
        (forall x, In x l ->
                   startDate <= ex_date x <= endDate /\
                   (forall sid, truthy storeId = Some sid -> ex_store x = sid))
    | (Throw e, s') =>
        storeFails w (QExpenses filter ExFind) = true /\
        hd_error (logged s') =
        Some {| message := "Error getting expenses by date range:"; cause := Some e |}
    end.
Proof.
  intros w a b sid s filter.
  unfold getExpensesByDateRange, tryCatch, bind, request. fold (expenseWindow sid a b).
  fold filter. destruct (storeFails w (QExpenses filter ExFind)) eqn:Hstore.
  - split; reflexivity.
  - unfold ret. split; [|split].
    + apply GroupFacts.sortBy_perm.
    + eapply SortFacts.Sorted_impl; [|apply (SortFacts.sortBy_Sorted laterFirst)].
      * intros x y H. unfold laterFirst in H. lia.
      * intros x y. unfold laterFirst. lia.
    + intros x Hin.
      apply (Permutation_in _ (GroupFacts.sortBy_perm _ _)) in Hin.
      apply list_elem_of_In, list_elem_of_filter in Hin. destruct Hin as [Hm _].
      apply Is_true_true in Hm.
      unfold exMatches, inWindow, fieldIs in Hm. cbn in Hm.
      apply andb_prop in Hm. destruct Hm as [Hstore' Hwin].
      split; [lia|]. intros sid' Hsid. rewrite Hsid in Hstore'.
      apply String.eqb_eq in Hstore'. congruence.
Qed.

Module RankFacts.

Lemma bumpProduct_ids (named priced : bool) (it : TransactionItem) (l : list TopProduct)
    (k : string) :
  In k (map productId (bumpProduct named priced it l)) <->
  k = product_id it \/ In k (map productId l).
Proof.
  induction l as [|p l IH]; simpl.
  - split; intros [H|H]; auto.
  - destruct (String.eqb_spec (product_id it) (productId p)) as [E|E]; simpl.
    + rewrite E. split; [intros [H|H] | intros [H|[H|H]]]; auto.
    + rewrite IH. tauto.
Qed.

Lemma bumpProduct_NoDup (named priced : bool) (it : TransactionItem) (l : list TopProduct) :
  List.NoDup (map productId l) ->
  List.NoDup (map productId (bumpProduct named priced it l)).
Proof.
  induction l as [|p l IH]; simpl; intros H.
  - constructor; [intros []|constructor].
  - apply Stdlib.Lists.List.NoDup_cons_iff in H. destruct H as [Hp Hl].
    destruct (String.eqb_spec (product_id it) (productId p)) as [E|E]; simpl.
    + apply Stdlib.Lists.List.NoDup_cons_iff. split; assumption.
    + apply Stdlib.Lists.List.NoDup_cons_iff. split; [|apply IH, Hl].
      rewrite bumpProduct_ids. intros [H|H]; [congruence | contradiction].
Qed.

Lemma grouped_NoDup (named priced : bool) (its : list TransactionItem)
    (acc : list TopProduct) :
  List.NoDup (map productId acc) ->
  List.NoDup (map productId
                (fold_left (fun acc it => bumpProduct named priced it acc) its acc)).
Proof.
  revert acc. induction its as [|it its IH]; intros acc H; simpl; [exact H|].
  apply IH, bumpProduct_NoDup, H.
Qed.

(** The ranking of a filter: no more entries than the limit, the
    highest revenue first, no product twice. *)
Lemma topProductsOf_ranked (w : World) (named priced : bool) (f : TxFilter) (limit : nat) :
  (List.length (topProductsOf w named priced f limit) <= limit)%nat /\
  Sorted (fun a b => (revenue b <= revenue a)%Q) (topProductsOf w named priced f limit) /\
  List.NoDup (map productId (topProductsOf w named priced f limit)).
Proof.
  unfold topProductsOf. split; [|split].
  - rewrite length_firstn. lia.
  - apply SortFacts.firstn_Sorted.
    eapply SortFacts.Sorted_impl; [|apply (SortFacts.sortBy_Sorted byRevenueDescending)].
    + intros a b H. unfold byRevenueDescending in H. apply Qle_bool_iff, H.
    + intros a b. unfold byRevenueDescending.
      destruct (Qlt_le_dec (revenue a) (revenue b)) as [H|H].
      * right. apply Qle_bool_iff, Qlt_le_weak, H.
      * left. apply Qle_bool_iff, H.
  - rewrite <- firstn_map. apply SortFacts.firstn_NoDup.
    eapply Permutation_NoDup.
    + symmetry. apply Permutation_map, GroupFacts.sortBy_perm.
    + apply grouped_NoDup. constructor.
Qed.

End RankFacts.

(** X12.  [getTopProducts] never throws and answers with a ranking: no
    more products than the limit, the highest revenue first, no product
    twice; when the store fails the ranking is empty. *)
Theorem getTopProducts_ranking :
  forall (w : World) (storeId : option string) (limit : nat)
         (filters : option DashboardFilters) (s : Session),
    exists l s',
      getTopProducts w storeId limit filters s = (Ok l, s') /\
      (List.length l <= limit)%nat /\
      Sorted (fun a b => (revenue b <= revenue a)%Q) l /\
      List.NoDup (map productId l).
Proof.
  intros w storeId limit filters s.
  destruct (boundary_getTopProducts w storeId limit filters s)
    as (l & s' & sent & Hrun & _ & _).
  exists l, s'. split; [exact Hrun|].
  unfold getTopProducts in Hrun.
  apply MonadFacts.tryCatch_Ok in Hrun as [H|(e & s1 & _ & H)].
  - cbv zeta in H. invert_run H. invert_run H.
    apply MonadFacts.request_Ok in Hrun0 as (-> & _ & _).
    unfold ret in H. injection H as <- _.
    apply RankFacts.topProductsOf_ranked.
  - apply MonadFacts.caught_default in H. subst l.
    split; [simpl; lia|]. split; constructor.
Qed.

(** ** The breakdowns of the dashboard *)

Module MapFacts.

Lemma sumQ_app (l k : list Q) : (sumQ (l ++ k) == sumQ l + sumQ k)%Q.
Proof. induction l as [|x l IH]; simpl; [ring | rewrite IH; ring]. Qed.

Lemma filter_snoc {A : Type} (p : A -> bool) (l : list A) (x : A) :
  List.filter p (l ++ [x]) = List.filter p l ++ (if p x then [x] else []).
Proof. rewrite Stdlib.Lists.List.filter_app. reflexivity. Qed.

End MapFacts.

(** X13.  In the payment-method breakdown of the dashboard the aliases of
    a channel add up: the amount under a key is the sum of the amounts of
    all groups whose method normalises to that key, and a key is present
    exactly when there is such a group. *)
Theorem collectPaymentMethods_adds_aliases :
  forall (groups : list (Group (option string))) (key : string),
    let merged :=
      List.filter (fun g => String.eqb (normalizePaymentMethod (g_key g)) key) groups in
    match collectPaymentMethods groups !! key with
    | Some amount => merged <> [] /\ (amount == sumQ (map g_sum merged))%Q
    | None => merged = []
    end.
Proof.
  intros groups key. cbv zeta. unfold collectPaymentMethods.
  induction groups as [|g groups IH] using rev_ind.
  - simpl. rewrite lookup_empty. reflexivity.
  - rewrite fold_left_app, MapFacts.filter_snoc. cbn [fold_left].
    set (acc := fold_left _ groups ∅) in *.
    destruct (String.eqb_spec (normalizePaymentMethod (g_key g)) key) as [E|E].
    + rewrite E, lookup_insert_eq. split; [intros H; apply app_eq_nil in H as [_ H]; discriminate|].
      rewrite map_app, MapFacts.sumQ_app. cbn [map sumQ fold_right].
      rewrite PercentFacts.orZero_eq.
      destruct (acc !! key) as [v|].
      * destruct IH as [_ IH]. rewrite PercentFacts.orZero_eq, IH. ring.
      * rewrite IH. cbn. ring.
    + rewrite lookup_insert_ne by exact E. rewrite app_nil_r. exact IH.
Qed.

(** X14.  In the order-source breakdown nothing is added up: the amount
    under a source is the amount of the last group filed under it, so of
    the groups without a source, with an empty source and with the source
    [in-store], which are all filed under [in-store], only one is
    reported. *)
Theorem collectOrderSources_keeps_last :
  forall (groups : list (Group (option string))) (key : string),
    collectOrderSources groups !! key =
    option_map g_sum
      (hd_error (rev (List.filter (fun g => String.eqb (sourceOf g) key) groups))).
Proof.
  intros groups key. unfold collectOrderSources.
  induction groups as [|g groups IH] using rev_ind.
  - simpl. apply lookup_empty.
  - rewrite fold_left_app, MapFacts.filter_snoc. cbn [fold_left].
    fold (sourceOf g).
    destruct (String.eqb_spec (sourceOf g) key) as [E|E].
    + rewrite E, lookup_insert_eq, rev_app_distr. reflexivity.
    + rewrite lookup_insert_ne by exact E. rewrite app_nil_r. exact IH.
Qed.

(** ** The expense statistics *)

Module StatsFacts.
Section Totals.
Context {A : Type} (key : A -> string) (val : A -> Q).

Lemma bump_sum (k : string) (v : Q) (gs : list (Group string)) :
  (sumQ (map g_sum (bump String.eqb k v gs)) == sumQ (map g_sum gs) + v)%Q.
Proof.
  induction gs as [|g gs IH]; simpl; [ring|].
  destruct (String.eqb k (g_key g)); simpl; [ring | rewrite IH; ring].
Qed.

Lemma bump_count (k : string) (v : Q) (gs : list (Group string)) :
  sumZ (map g_count (bump String.eqb k v gs)) = sumZ (map g_count gs) + 1.
Proof.
  unfold sumZ. induction gs as [|g gs IH]; simpl; [lia|].
  destruct (String.eqb k (g_key g)); simpl; lia.
Qed.

Lemma groups_sum (l : list A) (gs : list (Group string)) :
  (sumQ (map g_sum (fold_left (bumpWith key val) l gs)) ==
   sumQ (map g_sum gs) + sumQ (map val l))%Q.
Proof.
  revert gs. induction l as [|x l IH]; intros gs; simpl; [ring|].
  rewrite IH. unfold bumpWith. rewrite bump_sum. ring.
Qed.

Lemma groups_count (l : list A) (gs : list (Group string)) :
  sumZ (map g_count (fold_left (bumpWith key val) l gs)) =
  sumZ (map g_count gs) + count l.
Proof.
  revert gs. induction l as [|x l IH]; intros gs; simpl.
  - unfold count. simpl. lia.
  - rewrite IH. unfold bumpWith. rewrite bump_count.
    unfold count. simpl length. lia.
Qed.

(** The groups of a [$group] stage add up to the whole. *)
Lemma groupBy_totals (l : list A) :
  (sumQ (map g_sum (groupBy String.eqb key val l)) == sumQ (map val l))%Q /\
  sumZ (map g_count (groupBy String.eqb key val l)) = count l.
Proof.
  change (groupBy String.eqb key val l) with (fold_left (bumpWith key val) l []).
  rewrite groups_sum, groups_count. simpl. split; [ring | lia].
Qed.

End Totals.
End StatsFacts.



(** ** The current date and the payment key *)

Lemma ymdString_fields (y m d y' m' d' : Z) :
  1900 <= y <= 2100 -> 1 <= m <= 12 -> 1 <= d <= 31 ->
  1900 <= y' <= 2100 -> 1 <= m' <= 12 -> 1 <= d' <= 31 ->
  ymdString y m d = ymdString y' m' d' -> y = y' /\ m = m' /\ d = d'.
Proof.
  intros Hy Hm Hd Hy' Hm' Hd' E.
  destruct (dateFields_ymdString y m d Hy Hm Hd)
    as (qy & qm & qd & F & Ty & Tm & Td & _).
  destruct (dateFields_ymdString y' m' d' Hy' Hm' Hd')
    as (qy' & qm' & qd' & F' & Ty' & Tm' & Td' & _).
  rewrite E, F' in F. injection F as <- <- <-. lia.
Qed.

Lemma date_of_month (t : Z) : 1 <= JsDate.DateFromTime t <= 31.
Proof.
  pose proof (MonthFacts.DateFromTime_range t) as Hd.
  split; [lia|]. eapply Z.le_trans; [apply Hd|].
  unfold monthLength.
  repeat match goal with
         | |- context [if ?c then _ else _] => destruct c
         end; lia.
Qed.

Lemma month_of_year (t : Z) : 0 <= JsDate.MonthFromTime t <= 11.
Proof. apply CalendarFacts.monthOfYearDay_range. Qed.

(** Within the years 1900 to 2100 two instants print as the same date
    exactly when they fall on the same day. *)
Lemma same_date_same_day (t1 t2 : Z) :
  1900 <= JsDate.YearFromTime t1 <= 2100 ->
  1900 <= JsDate.YearFromTime t2 <= 2100 ->
  dayStringAt 0 t1 = dayStringAt 0 t2 <-> JsDate.Day t1 = JsDate.Day t2.
Proof.
  intros H1 H2. unfold dayStringAt. cbv zeta.
  replace (t1 + 0 * JsDate.msPerMinute) with t1 by lia.
  replace (t2 + 0 * JsDate.msPerMinute) with t2 by lia.
  pose proof (month_of_year t1). pose proof (month_of_year t2).
  pose proof (date_of_month t1). pose proof (date_of_month t2).
  split.
  - intros E. apply ymdString_fields in E; try lia.
    destruct E as (Ey & Em & Ed).
    pose proof (CalendarFacts.MakeDay_fields t1 0) as Hn.
    pose proof (CalendarFacts.MakeDay_fields t2 0) as Hl.
    replace (JsDate.MonthFromTime t1) with (JsDate.MonthFromTime t2) in Hn by lia.
    rewrite Ey, Ed, Hl in Hn. lia.
  - intros E. destruct (fields_by_day t1 t2 E) as (-> & -> & ->). reflexivity.
Qed.

Lemma dayStringAt_offset (offset t : Z) :
  dayStringAt offset t = dayStringAt 0 (t + offset * JsDate.msPerMinute).
Proof.
  unfold dayStringAt. cbv zeta.
  replace (t + offset * JsDate.msPerMinute + 0 * JsDate.msPerMinute)
    with (t + offset * JsDate.msPerMinute) by lia.
  reflexivity.
Qed.

(** X16.  [getCurrentDateString] gives the date of the instant in UTC,
    whatever zone it is asked for: it is the date [formatDateForTimezone]
    gives for the zone exactly when the instant falls on the same day in
    UTC and in the zone. *)
Theorem getCurrentDateString_is_the_utc_date :
  forall (w : World) (tz : string) (s : Session),
    1900 <= JsDate.YearFromTime (clockAt w (reads s)) <= 2100 ->
    1900 <= JsDate.YearFromTime
              (clockAt w (reads s) + zoneOffset w tz * JsDate.msPerMinute) <= 2100 ->
    exists d s',
      getCurrentDateString w tz s = (Ok d, s') /\
      (forall tz', getCurrentDateString w tz' s = (Ok d, s')) /\
      (d = formatDateForTimezone w (clockAt w (reads s)) tz <->
       JsDate.Day (clockAt w (reads s)) =
       JsDate.Day (clockAt w (reads s) + zoneOffset w tz * JsDate.msPerMinute)).
Proof.
  intros w tz s Hutc Hzone. set (now := clockAt w (reads s)) in *.
  eexists _, _. split; [reflexivity|]. split; [reflexivity|].
  change (clockAt w (reads s)) with now.
  assert (Hiso : isoDateString now = dayStringAt 0 now).
  { unfold isoDateString, dayStringAt. cbv zeta.
    replace (now + 0 * JsDate.msPerMinute) with now by lia.
    destruct (Z.leb_spec 0 (JsDate.YearFromTime now)); [|lia].
    destruct (Z.leb_spec (JsDate.YearFromTime now) 9999); [|lia].
    reflexivity. }
  rewrite Hiso. unfold formatDateForTimezone.
  rewrite (dayStringAt_offset (zoneOffset w tz) now).
  apply same_date_same_day; assumption.
Qed.

Lemma getCurrentDateString_is_the_utc_date_witness :
  exists d s',
    getCurrentDateString (Sample.worldAt Sample.lateEvening (fun _ => false))
      "Europe/Nicosia" freshSession = (Ok d, s') /\
    d <> formatDateForTimezone (Sample.worldAt Sample.lateEvening (fun _ => false))
           Sample.lateEvening "Europe/Nicosia".
Proof.
  destruct (getCurrentDateString_is_the_utc_date
              (Sample.worldAt Sample.lateEvening (fun _ => false))
              "Europe/Nicosia" freshSession) as (d & s' & Hrun & _ & Hsame).
  - vm_compute. split; discriminate.
  - vm_compute. split; discriminate.
  - exists d, s'. split; [exact Hrun|]. intros E. apply Hsame in E.
    vm_compute in E. discriminate.
Defined.


(** ** Sales analytics of a window *)

Lemma ret_Ok {A : Type} (a b : A) (s s' : Session) :
  ret a s = (Ok b, s') -> b = a /\ s' = s.
Proof. unfold ret. intros H. injection H as <- <-. split; reflexivity. Qed.

Lemma getSalesAnalyticsByDateRange_value (w : World) (storeId : option string)
    (a b : Z) (s s' : Session) (sa : SalesAnalytics) :
  getSalesAnalyticsByDateRange w storeId a b s = (Ok sa, s') ->
  let q := analyticsWindow storeId a b in
  let tz := getStoreTimezone storeId in
  totalRevenue sa = orZeroOpt (totalOf w q) /\
  sa_totalTransactions sa = count (matchingTransactions w q) /\
  sa_averageTransactionValue sa =
    (if 0 <? count (matchingTransactions w q)
     then (orZeroOpt (totalOf w q) / inject_Z (count (matchingTransactions w q)))%Q
     else 0%Q) /\
  sa_topProducts sa = topProductsOf w false false q 10 /\
  paymentMethodBreakdown sa = paymentBreakdownOf w q /\
  (daysBetween a b <= 31 ->
   let a' := inTimezone w tz a in
   let b' := inTimezone w tz b in
   let startLocal := localDate w (getFullYear w a') (getMonth w a') (getDate w a') 0 0 0 0 in
   let endLocal := localDate w (getFullYear w b') (getMonth w b') (getDate w b') 0 0 0 0 in
   salesByPeriod_ sa =
   fillSalesDays w (dayRounds startLocal endLocal) startLocal endLocal tz
     (salesMapOf (salesSeriesOf w q "%Y-%m-%d" tz))) /\
  (31 < daysBetween a b ->
   let a' := inTimezone w tz a in
   let b' := inTimezone w tz b in
   let current := localDate w (getFullYear w a') (getMonth w a') 1 0 0 0 0 in
   let endMonth := localDate w (getFullYear w b') (getMonth w b' + 1) 0 23 59 59 0 in
   salesByPeriod_ sa =
   fillSalesMonths w (monthRounds current endMonth) current endMonth
     (salesMapOf (salesSeriesOf w q "%Y-%m" tz))).
Proof.
  intros H q tz.
  unfold getSalesAnalyticsByDateRange in H.
  apply MonadFacts.tryCatch_Ok in H as [H|(e & s1 & _ & H)].
  2:{ unfold bind, logError, logWith, throw in H. discriminate. }
  cbv zeta in H. fold q in H. fold tz in H.
  invert_run H. destruct a0 as [txs [total n]].
  apply MonadFacts.both_Ok in Hrun as (s1 & _ & Hrun). cbn [fst snd] in Hrun.
  apply MonadFacts.both_Ok in Hrun as (s2 & Htotal & Hn). cbn [fst snd] in *.
  apply MonadFacts.request_Ok in Htotal as (-> & _).
  apply MonadFacts.request_Ok in Hn as (-> & _).
  apply MonadFacts.bind_Ok in H as (series & s3 & Hseries & H). cbv beta in H.
  repeat invert_run H.
  repeat match goal with
         | R : request _ _ _ _ = (Ok _, _) |- _ =>
             apply MonadFacts.request_Ok in R as (-> & _)
         end.
  unfold ret in H. inversion H; subst sa s'. clear H.
  cbn [totalRevenue sa_totalTransactions sa_averageTransactionValue salesByPeriod_
       sa_topProducts paymentMethodBreakdown].
  repeat split; intros Hdays;
    destruct (Z.leb_spec (daysBetween a b) 31); try lia;
    apply MonadFacts.bind_Ok in Hseries as (aggregated & s9 & Haggregated & Hseries);
    apply MonadFacts.request_Ok in Haggregated as (-> & _);
    apply ret_Ok in Hseries as [-> _]; reflexivity.
Qed.

Module SumFacts.

Lemma sumQ_perm (l l' : list Q) : Permutation l l' -> (sumQ l == sumQ l')%Q.
Proof.
  induction 1; simpl.
  - reflexivity.
  - rewrite IHPermutation. reflexivity.
  - ring.
  - rewrite IHPermutation1. exact IHPermutation2.
Qed.

Lemma sumZ_perm (l l' : list Z) : Permutation l l' -> sumZ l = sumZ l'.
Proof. induction 1; simpl; lia. Qed.

Lemma sumZ_add {A : Type} (f g : A -> Z) (l : list A) :
  sumZ (map (fun x => f x + g x) l) = sumZ (map f l) + sumZ (map g l).
Proof. induction l as [|x l IH]; simpl; lia. Qed.

Lemma sumQ_add {A : Type} (f g : A -> Q) (l : list A) :
  (sumQ (map (fun x => f x + g x) l) == sumQ (map f l) + sumQ (map g l))%Q.
Proof. induction l as [|x l IH]; simpl; [ring | rewrite IH; ring]. Qed.

Lemma sumQ_ext {A : Type} (f g : A -> Q) (l : list A) :
  (forall x, In x l -> (f x == g x)%Q) -> (sumQ (map f l) == sumQ (map g l))%Q.
Proof.
  induction l as [|x l IH]; intros H; simpl; [reflexivity|].
  rewrite (H x) by (left; reflexivity). rewrite IH; [reflexivity|].
  intros y Hy. apply H. right. exact Hy.
Qed.

(** One key of a list without repetition is met once. *)
Lemma sumZ_indicator (k0 : Z) (ks : list Z) :
  List.NoDup ks -> In k0 ks ->
  sumZ (map (fun k => if k0 =? k then 1 else 0) ks) = 1.
Proof.
  induction ks as [|k ks IH]; intros Hnd Hin; [destruct Hin|].
  apply Stdlib.Lists.List.NoDup_cons_iff in Hnd. destruct Hnd as [Hk Hnd]. simpl.
  destruct (Z.eqb_spec k0 k) as [->|Hne].
  - assert (Hzero : sumZ (map (fun k' => if k =? k' then 1 else 0) ks) = 0).
    { clear IH Hnd Hin. induction ks as [|k' ks IH]; [reflexivity|]. simpl.
      destruct (Z.eqb_spec k k') as [->|_]; [exfalso; apply Hk; left; reflexivity|].
      rewrite IH; [lia|]. intros H. apply Hk. right. exact H. }
    lia.
  - destruct Hin as [->|Hin]; [contradiction|]. rewrite (IH Hnd Hin). lia.
Qed.

Lemma sumQ_indicator (k0 : Z) (v : Q) (ks : list Z) :
  List.NoDup ks -> In k0 ks ->
  (sumQ (map (fun k => if k0 =? k then v else 0) ks) == v)%Q.
Proof.
  induction ks as [|k ks IH]; intros Hnd Hin; [destruct Hin|].
  apply Stdlib.Lists.List.NoDup_cons_iff in Hnd. destruct Hnd as [Hk Hnd]. simpl.
  destruct (Z.eqb_spec k0 k) as [->|Hne].
  - assert (Hzero : (sumQ (map (fun k' => if k =? k' then v else 0) ks) == 0)%Q).
    { clear IH Hnd Hin. induction ks as [|k' ks IH]; [reflexivity|]. simpl.
      destruct (Z.eqb_spec k k') as [->|_]; [exfalso; apply Hk; left; reflexivity|].
      rewrite IH; [ring|]. intros H. apply Hk. right. exact H. }
    rewrite Hzero. ring.
  - destruct Hin as [->|Hin]; [contradiction|]. rewrite (IH Hnd Hin). ring.
Qed.

Section Partition.
Context {A : Type}.
Variable key : A -> Z.
Variable val : A -> Q.

(** Split by a key that takes its values in a list without repetition,
    a list keeps its length and its sum. *)
Lemma partition_count (ks : list Z) (l : list A) :
  List.NoDup ks -> (forall x, In x l -> In (key x) ks) ->
  sumZ (map (fun k => count (List.filter (fun x => key x =? k) l)) ks) = count l.
Proof.
  intros Hnd. induction l as [|x l IH]; intros Hin.
  - clear Hnd Hin. simpl. induction ks as [|k ks IHk]; [reflexivity|]. simpl.
    rewrite IHk. reflexivity.
  - transitivity
      (sumZ (map (fun k => (if key x =? k then 1 else 0)
                           + count (List.filter (fun y => key y =? k) l)) ks)).
    + f_equal. apply map_ext. intros k. simpl.
      destruct (key x =? k); unfold count; simpl; lia.
    + rewrite sumZ_add, sumZ_indicator, IH.
      * unfold count. simpl. lia.
      * intros y Hy. apply Hin. right. exact Hy.
      * exact Hnd.
      * apply Hin. left. reflexivity.
Qed.

Lemma partition_sum (ks : list Z) (l : list A) :
  List.NoDup ks -> (forall x, In x l -> In (key x) ks) ->
  (sumQ (map (fun k => sumQ (map val (List.filter (fun x => key x =? k) l))) ks)
   == sumQ (map val l))%Q.
Proof.
  intros Hnd. induction l as [|x l IH]; intros Hin.
  - clear Hnd Hin. simpl. induction ks as [|k ks IHk]; [reflexivity|]. simpl.
    rewrite IHk. ring.
  - transitivity
      (sumQ (map (fun k => (if key x =? k then val x else 0)
                           + sumQ (map val (List.filter (fun y => key y =? k) l))) ks))%Q.
    + apply sumQ_ext. intros k _. simpl.
      destruct (key x =? k); simpl; ring.
    + rewrite sumQ_add, sumQ_indicator, IH.
      * simpl. reflexivity.
      * intros y Hy. apply Hin. right. exact Hy.
      * exact Hnd.
      * apply Hin. left. reflexivity.
Qed.

End Partition.

Lemma upFrom_NoDup (a : Z) (n : nat) : List.NoDup (upFrom a n).
Proof.
  unfold upFrom. apply Finite.Injective_map_NoDup; [|apply seq_NoDup].
  intros i j H. lia.
Qed.

Lemma upFrom_bounds (a : Z) (n : nat) (x : Z) :
  In x (upFrom a n) -> a <= x < a + Z.of_nat n.
Proof.
  unfold upFrom. intros H. apply in_map_iff in H. destruct H as (i & <- & Hi).
  apply in_seq in Hi. lia.
Qed.

End SumFacts.

Lemma totalOf_sum (w : World) (f : TxFilter) :
  (orZeroOpt (totalOf w f) == sumQ (map amountOf (matchingTransactions w f)))%Q.
Proof.
  unfold totalOf. destruct (matchingTransactions w f) as [|t l]; [reflexivity|].
  unfold orZeroOpt. apply PercentFacts.orZero_eq.
Qed.

Lemma paymentBreakdownOf_totals (w : World) (f : TxFilter) :
  sumZ (map ps_count (paymentBreakdownOf w f)) = count (matchingTransactions w f) /\
  (sumQ (map ps_amount (paymentBreakdownOf w f))
   == sumQ (map amountOf (matchingTransactions w f)))%Q /\
  List.NoDup (map method (paymentBreakdownOf w f)) /\
  Sorted (fun x y => ps_count y <= ps_count x) (paymentBreakdownOf w f).
Proof.
  unfold paymentBreakdownOf.
  set (key := fun t : Transaction =>
                match payment_method t with Some x => x | None => "Unknown"%string end).
  set (gs := groupBy String.eqb key amountOf (matchingTransactions w f)).
  set (mk := fun g : Group string =>
               {| method := Some (g_key g); ps_count := g_count g; ps_amount := g_sum g |}).
  pose proof (GroupFacts.sortBy_perm byCountDescending (map mk gs)) as Hperm.
  destruct (StatsFacts.groupBy_totals key amountOf (matchingTransactions w f))
    as [Hsum Hcount].
  fold gs in Hsum, Hcount.
  split; [|split; [|split]].
  - rewrite (SumFacts.sumZ_perm _ _ (Permutation_map ps_count Hperm)).
    rewrite map_map. exact Hcount.
  - rewrite (SumFacts.sumQ_perm _ _ (Permutation_map ps_amount Hperm)).
    rewrite map_map. exact Hsum.
  - eapply Permutation_NoDup; [symmetry; apply Permutation_map, Hperm|].
    rewrite map_map.
    change (map (fun x => method (mk x)) gs) with (map (fun g => Some (g_key g)) gs).
    rewrite <- (map_map g_key Some).
    apply Finite.Injective_map_NoDup; [intros x y H; congruence|].
    apply GroupFacts.groupBy_NoDup.
  - eapply SortFacts.Sorted_impl; [|apply (SortFacts.sortBy_Sorted byCountDescending)].
    + intros x y H. unfold byCountDescending in H. lia.
    + intros x y. unfold byCountDescending. lia.
Qed.



Module ZoneDayFacts.

Lemma DayFromYear_mono (y y' : Z) :
  y <= y' -> JsDate.DayFromYear y <= JsDate.DayFromYear y'.
Proof.
  intros H. replace y' with (y + Z.of_nat (Z.to_nat (y' - y))) by lia.
  induction (Z.to_nat (y' - y)) as [|n IH].
  - replace (y + Z.of_nat 0) with y by lia. lia.
  - replace (y + Z.of_nat (S n)) with (y + Z.of_nat n + 1) by lia.
    rewrite CalendarFacts.DayFromYear_succ.
    unfold JsDate.DaysInYear. destruct (JsDate.isLeapYear _); lia.
Qed.

(** The year of a day lies between the years of two days around it. *)
Lemma YearFromDay_mono (d d' : Z) :
  d <= d' -> JsDate.YearFromDay d <= JsDate.YearFromDay d'.
Proof.
  intros H.
  pose proof (CalendarFacts.YearFromDay_correct d) as Hd.
  pose proof (CalendarFacts.YearFromDay_correct d') as Hd'.
  destruct (Z.le_gt_cases (JsDate.YearFromDay d) (JsDate.YearFromDay d')) as [Hle|Hgt];
    [exact Hle|].
  pose proof (DayFromYear_mono (JsDate.YearFromDay d' + 1) (JsDate.YearFromDay d)).
  lia.
Qed.

Lemma Day_mono (t t' : Z) : t <= t' -> JsDate.Day t <= JsDate.Day t'.
Proof.
  intros H. unfold JsDate.Day, JsDate.msPerDay. apply Z.div_le_mono; lia.
Qed.

Lemma Day_of_day (d x : Z) :
  0 <= x < JsDate.msPerDay -> JsDate.Day (d * JsDate.msPerDay + x) = d.
Proof.
  intros H. unfold JsDate.Day, JsDate.msPerDay in *.
  rewrite Z.add_comm, Z.div_add by lia. rewrite Z.div_small by lia. lia.
Qed.

Section Zone.
Variable w : World.
Variable tz : string.

(** The wall clock of the zone read back as a local time keeps the day
    of the zone. *)
Lemma processDay_inTimezone (t : Z) :
  processDay w (inTimezone w tz t) = zoneDay w tz t.
Proof.
  unfold processDay, inTimezone, zoneDay, LocalTime, UTC. cbv zeta.
  set (wall := t + zoneOffset w tz * JsDate.msPerMinute).
  replace (wall - wall mod JsDate.msPerSecond - LocalTZA w + LocalTZA w)
    with (wall - wall mod JsDate.msPerSecond) by lia.
  unfold JsDate.Day, JsDate.msPerDay, JsDate.msPerSecond.
  Z.to_euclidean_division_equations. lia.
Qed.

Lemma getFullYear_inTimezone (t : Z) :
  getFullYear w (inTimezone w tz t) =
  JsDate.YearFromTime (t + zoneOffset w tz * JsDate.msPerMinute).
Proof.
  unfold getFullYear. apply fields_by_day. apply processDay_inTimezone.
Qed.

(** When the zone of the process is not ahead of the zone of the store,
    the key the loop prints for a day of the process is the date of
    that day. *)
Lemma dayKey_date (d : Z) :
  serverOffset w <= zoneOffset w tz < serverOffset w + 1440 ->
  dayKey w tz d = dateOfDay d.
Proof.
  intros Hoff. unfold dayKey, dateOfDay, formatDateForTimezone, midnightOf, UTC, LocalTZA.
  rewrite (dayStringAt_offset (zoneOffset w tz)).
  unfold dayStringAt. cbv zeta.
  set (t1 := d * JsDate.msPerDay - serverOffset w * JsDate.msPerMinute
             + zoneOffset w tz * JsDate.msPerMinute + 0 * JsDate.msPerMinute).
  set (t2 := d * JsDate.msPerDay + 0 * JsDate.msPerMinute).
  assert (E : JsDate.Day t1 = JsDate.Day t2).
  { subst t1 t2.
    replace (d * JsDate.msPerDay - serverOffset w * JsDate.msPerMinute
             + zoneOffset w tz * JsDate.msPerMinute + 0 * JsDate.msPerMinute)
      with (d * JsDate.msPerDay
            + (zoneOffset w tz - serverOffset w) * JsDate.msPerMinute) by lia.
    rewrite !Day_of_day; [reflexivity| |]; unfold JsDate.msPerDay, JsDate.msPerMinute; lia. }
  destruct (fields_by_day t1 t2 E) as (-> & -> & ->). reflexivity.
Qed.

Lemma year_of_day_between (t1 t2 d : Z) :
  1900 <= JsDate.YearFromTime t1 -> JsDate.YearFromTime t2 <= 2100 ->
  JsDate.Day t1 <= d <= JsDate.Day t2 ->
  1900 <= JsDate.YearFromTime (d * JsDate.msPerDay) <= 2100.
Proof.
  intros H1 H2 Hd. unfold JsDate.YearFromTime in *.
  replace (JsDate.Day (d * JsDate.msPerDay)) with d
    by (symmetry; replace (d * JsDate.msPerDay) with (d * JsDate.msPerDay + 0) by lia;
        apply Day_of_day; unfold JsDate.msPerDay; lia).
  pose proof (YearFromDay_mono (JsDate.Day t1) d).
  pose proof (YearFromDay_mono d (JsDate.Day t2)). lia.
Qed.

Variable f : TxFilter.
Variables a b : Z.
Hypothesis window : f_gte f = Some a /\ f_lte f = Some b.
Hypothesis first_year : 1900 <= JsDate.YearFromTime (a + zoneOffset w tz * JsDate.msPerMinute).
Hypothesis last_year : JsDate.YearFromTime (b + zoneOffset w tz * JsDate.msPerMinute) <= 2100.

Lemma sale_in_window (t : Transaction) :
  In t (matchingTransactions w f) -> a <= created_at t <= b.
Proof.
  intros Hin. apply list_elem_of_In, list_elem_of_filter in Hin. destruct Hin as [Hm _].
  apply Is_true_true in Hm. unfold txMatches in Hm.
  apply andb_prop in Hm. destruct Hm as [_ Hwin].
  destruct window as [Hg Hl]. rewrite Hg, Hl in Hwin. unfold inWindow in Hwin.
  apply andb_prop in Hwin. lia.
Qed.

Lemma sale_zoneDay (t : Transaction) :
  In t (matchingTransactions w f) ->
  zoneDay w tz a <= zoneDay w tz (created_at t) <= zoneDay w tz b.
Proof.
  intros Hin. apply sale_in_window in Hin. unfold zoneDay.
  split; apply Day_mono; lia.
Qed.

(** The sales the aggregation files under the date of a day of the
    window are the sales of that day in the zone. *)
Lemma salesUnder_day (d : Z) :
  zoneDay w tz a <= d <= zoneDay w tz b ->
  salesUnder w f "%Y-%m-%d" tz (dateOfDay d) = salesOfDay w f tz d.
Proof.
  intros Hd. unfold salesUnder, salesOfDay. apply filter_ext_in. intros t Hin.
  pose proof (sale_zoneDay t Hin) as Ht.
  change (dateToString "%Y-%m-%d" (zoneOffset w tz) (created_at t))
    with (dayStringAt (zoneOffset w tz) (created_at t)).
  rewrite dayStringAt_offset. unfold dateOfDay.
  assert (Hsame : dayStringAt 0 (created_at t + zoneOffset w tz * JsDate.msPerMinute) =
                  dayStringAt 0 (d * JsDate.msPerDay) <->
                  zoneDay w tz (created_at t) = d).
  { rewrite same_date_same_day.
    - unfold zoneDay.
      replace (JsDate.Day (d * JsDate.msPerDay)) with d; [reflexivity|].
      symmetry. replace (d * JsDate.msPerDay) with (d * JsDate.msPerDay + 0) by lia.
      apply Day_of_day. unfold JsDate.msPerDay. lia.
    - replace (JsDate.YearFromTime (created_at t + zoneOffset w tz * JsDate.msPerMinute))
        with (JsDate.YearFromTime
                (zoneDay w tz (created_at t) * JsDate.msPerDay)).
      + eapply year_of_day_between; [exact first_year | exact last_year | exact Ht].
      + apply fields_by_day.
        replace (zoneDay w tz (created_at t) * JsDate.msPerDay)
          with (zoneDay w tz (created_at t) * JsDate.msPerDay + 0) by lia.
        rewrite Day_of_day by (unfold JsDate.msPerDay; lia). reflexivity.
    - eapply year_of_day_between; [exact first_year | exact last_year | exact Hd]. }
  destruct (String.eqb_spec
              (dayStringAt 0 (created_at t + zoneOffset w tz * JsDate.msPerMinute))
              (dayStringAt 0 (d * JsDate.msPerDay))) as [E|E];
    destruct (Z.eqb_spec (zoneDay w tz (created_at t)) d) as [E'|E'];
    try reflexivity; tauto.
Qed.

End Zone.

End ZoneDayFacts.

Lemma Forall2_of_map {A B : Type} (R : A -> B -> Prop) (g : A -> B) (l : list A) :
  (forall x, In x l -> R x (g x)) -> Forall2 R l (map g l).
Proof.
  induction l as [|x l IH]; intros H; simpl; constructor.
  - apply H. left. reflexivity.
  - apply IH. intros y Hy. apply H. right. exact Hy.
Qed.

Lemma Forall2_sums {A B : Type} (R : A -> B -> Prop)
    (n : A -> Z) (v : A -> Q) (n' : B -> Z) (v' : B -> Q) (l : list A) (l' : list B) :
  (forall x y, R x y -> n' y = n x /\ (v' y == v x)%Q) ->
  Forall2 R l l' ->
  sumZ (map n' l') = sumZ (map n l) /\ (sumQ (map v' l') == sumQ (map v l))%Q.
Proof.
  intros HR. induction 1 as [|x y l l' Hxy _ [IHn IHv]]; simpl.
  - split; reflexivity.
  - destruct (HR x y Hxy) as [-> ->]. rewrite IHn, IHv. split; reflexivity.
Qed.



(** ** Months of a window *)

Module MonthIndexFacts.
Import JsDate.

Lemma MakeDay_index (y m d : Z) : MakeDay y m d = MakeDay 0 (12 * y + m) d.
Proof.
  unfold MakeDay. cbv zeta.
  replace (12 * y + m) with (m + y * 12) by lia.
  rewrite Z.div_add, Z.mod_add by lia.
  replace (0 + (m / 12 + y)) with (y + m / 12) by lia. reflexivity.
Qed.

Lemma monthLength_bounds (m y : Z) : 28 <= monthLength m y <= 31.
Proof.
  unfold monthLength.
  repeat match goal with
         | |- context [if ?c then _ else _] => destruct c
         end; lia.
Qed.

Lemma firstOfMonth_succ (k : Z) :
  firstOfMonth (k + 1) = firstOfMonth k + monthLength (k mod 12 + 1) (k / 12).
Proof.
  unfold firstOfMonth.
  pose proof (Z.mod_pos_bound k 12 ltac:(lia)) as Hm.
  pose proof (Z.div_mod k 12 ltac:(lia)) as Hk.
  replace (MakeDay 0 k 1) with (MakeDay (k / 12) (k mod 12) 1)
    by (rewrite MakeDay_index; f_equal; lia).
  replace (MakeDay 0 (k + 1) 1) with (MakeDay (k / 12) (k mod 12 + 1) 1)
    by (rewrite MakeDay_index; f_equal; lia).
  pose proof (CalendarFacts.MakeDay_month_end (k / 12) (k mod 12 + 1) ltac:(lia)) as He.
  replace (k mod 12 + 1 - 1) with (k mod 12) in He by lia.
  assert (H0 : MakeDay (k / 12) (k mod 12 + 1) 0 = MakeDay (k / 12) (k mod 12 + 1) 1 - 1)
    by (unfold MakeDay; lia).
  lia.
Qed.

Lemma firstOfMonth_gap (k : Z) (n : nat) :
  firstOfMonth k + 28 * Z.of_nat n <= firstOfMonth (k + Z.of_nat n).
Proof.
  induction n as [|n IH].
  - replace (k + Z.of_nat 0) with k by lia. lia.
  - replace (k + Z.of_nat (S n)) with (k + Z.of_nat n + 1) by lia.
    rewrite firstOfMonth_succ.
    pose proof (monthLength_bounds ((k + Z.of_nat n) mod 12 + 1) ((k + Z.of_nat n) / 12)).
    lia.
Qed.

Lemma firstOfMonth_lt (k k' : Z) : k < k' -> firstOfMonth k < firstOfMonth k'.
Proof.
  intros H. pose proof (firstOfMonth_gap k (Z.to_nat (k' - k))) as Hg.
  replace (k + Z.of_nat (Z.to_nat (k' - k))) with k' in Hg by lia. lia.
Qed.

Lemma firstOfMonth_le (k k' : Z) : k <= k' -> firstOfMonth k <= firstOfMonth k'.
Proof.
  intros H. destruct (Z.eq_dec k k') as [->|Hne]; [lia|].
  pose proof (firstOfMonth_lt k k'). lia.
Qed.

(** The month of a time value holds its day. *)
Lemma month_holds_day (t : Z) :
  firstOfMonth (monthIndex t) = Day t - (DateFromTime t - 1) /\
  firstOfMonth (monthIndex t) <= Day t < firstOfMonth (monthIndex t + 1).
Proof.
  assert (Hfirst : firstOfMonth (monthIndex t) = Day t - (DateFromTime t - 1)).
  { unfold firstOfMonth, monthIndex. rewrite <- MakeDay_index.
    replace 1 with (DateFromTime t + (1 - DateFromTime t)) by lia.
    rewrite CalendarFacts.MakeDay_fields. lia. }
  split; [exact Hfirst|].
  pose proof (MonthFacts.DateFromTime_range t) as Hd.
  pose proof (CalendarFacts.monthOfYearDay_range (InLeapYear t) (DayWithinYear t)) as Hm.
  fold (MonthFromTime t) in Hm.
  rewrite firstOfMonth_succ, Hfirst. unfold monthIndex.
  replace (12 * YearFromTime t + MonthFromTime t)
    with (MonthFromTime t + YearFromTime t * 12) by lia.
  rewrite Z.mod_add, Z.div_add by lia.
  rewrite (Z.mod_small (MonthFromTime t) 12), (Z.div_small (MonthFromTime t) 12) by lia.
  replace (0 + YearFromTime t) with (YearFromTime t) by lia. lia.
Qed.

Lemma monthIndex_of_day (t k : Z) :
  firstOfMonth k <= Day t < firstOfMonth (k + 1) -> monthIndex t = k.
Proof.
  intros H. destruct (month_holds_day t) as [_ Ht].
  destruct (Z.lt_trichotomy (monthIndex t) k) as [Hlt|[Heq|Hgt]]; [|exact Heq|].
  - pose proof (firstOfMonth_le (monthIndex t + 1) k). lia.
  - pose proof (firstOfMonth_le (k + 1) (monthIndex t)). lia.
Qed.

Lemma monthIndex_mono (t t' : Z) : t <= t' -> monthIndex t <= monthIndex t'.
Proof.
  intros H. apply ZoneDayFacts.Day_mono in H.
  destruct (month_holds_day t) as [_ Ht]. destruct (month_holds_day t') as [_ Ht'].
  destruct (Z.le_gt_cases (monthIndex t) (monthIndex t')) as [Hle|Hgt]; [exact Hle|].
  pose proof (firstOfMonth_le (monthIndex t' + 1) (monthIndex t)). lia.
Qed.

(** The fields of the first day of a month. *)
Lemma firstOfMonth_fields (k : Z) :
  let t := firstOfMonth k * msPerDay in
  YearFromTime t = k / 12 /\ MonthFromTime t = k mod 12 /\ DateFromTime t = 1 /\
  TimeWithinDay t = 0.
Proof.
  cbv zeta. set (t := firstOfMonth k * msPerDay).
  assert (Hday : Day t = firstOfMonth k).
  { unfold t. replace (firstOfMonth k * msPerDay) with (firstOfMonth k * msPerDay + 0) by lia.
    apply ZoneDayFacts.Day_of_day. unfold msPerDay. lia. }
  assert (Hidx : monthIndex t = k).
  { apply monthIndex_of_day. rewrite Hday.
    pose proof (firstOfMonth_lt k (k + 1)). lia. }
  destruct (month_holds_day t) as [Hfirst _]. rewrite Hidx, Hday in Hfirst.
  pose proof (CalendarFacts.monthOfYearDay_range (InLeapYear t) (DayWithinYear t)) as Hm.
  fold (MonthFromTime t) in Hm. unfold monthIndex in Hidx.
  repeat split.
  - Z.to_euclidean_division_equations. lia.
  - Z.to_euclidean_division_equations. lia.
  - lia.
  - unfold TimeWithinDay, t. apply Z.mod_mul. unfold msPerDay. lia.
Qed.

End MonthIndexFacts.

Lemma yearsPrintInFull :
  forallb (fun y => String.eqb (padStart0 4 y) (decimal y)) (upFrom 1900 201) = true.
Proof. vm_compute. reflexivity. Qed.

Module MonthLabelFacts.

Lemma append_assoc (a b c : string) : (a +:+ b) +:+ c = a +:+ (b +:+ c).
Proof.
  induction a as [|x a IH]; [reflexivity|].
  change (String x ((a +:+ b) +:+ c) = String x (a +:+ (b +:+ c))).
  f_equal. exact IH.
Qed.

Lemma ymdString_of_month (y m d : Z) :
  ymdString y m d = ymString y m +:+ "-" +:+ padStart0 2 d.
Proof. unfold ymdString, ymString. rewrite !append_assoc. reflexivity. Qed.

Lemma ymString_fields (y m y' m' : Z) :
  1900 <= y <= 2100 -> 1 <= m <= 12 -> 1900 <= y' <= 2100 -> 1 <= m' <= 12 ->
  ymString y m = ymString y' m' -> y = y' /\ m = m'.
Proof.
  intros Hy Hm Hy' Hm' E.
  assert (E' : ymdString y m 1 = ymdString y' m' 1)
    by (rewrite !ymdString_of_month, E; reflexivity).
  apply ymdString_fields in E'; lia.
Qed.

Lemma monthLabel_ymString (k : Z) :
  1900 <= k / 12 <= 2100 -> monthLabel k = ymString (k / 12) (k mod 12 + 1).
Proof.
  intros Hy. unfold monthLabel, ymString.
  assert (Iy : In (k / 12) (upFrom 1900 201)) by (apply upFrom_In; lia).
  pose proof (proj1 (Stdlib.Lists.List.forallb_forall _ _) yearsPrintInFull (k / 12) Iy) as H.
  apply String.eqb_eq in H. rewrite H. reflexivity.
Qed.

(** Within the years 1900 to 2100 a time value prints as the label of
    a month exactly when it falls in that month. *)
Lemma monthString_label (t k : Z) :
  1900 <= JsDate.YearFromTime t <= 2100 -> 1900 <= k / 12 <= 2100 ->
  monthStringAt 0 t = monthLabel k <-> monthIndex t = k.
Proof.
  intros Ht Hk. unfold monthStringAt. cbv zeta.
  replace (t + 0 * JsDate.msPerMinute) with t by lia.
  rewrite (monthLabel_ymString k Hk).
  pose proof (month_of_year t) as Hm.
  pose proof (Z.mod_pos_bound k 12 ltac:(lia)) as Hkm.
  pose proof (Z.div_mod k 12 ltac:(lia)) as Hkd.
  unfold monthIndex. split.
  - intros E. apply ymString_fields in E; lia.
  - intros E.
    assert (JsDate.YearFromTime t = k / 12 /\ JsDate.MonthFromTime t = k mod 12) as [-> ->]
      by (Z.to_euclidean_division_equations; lia).
    reflexivity.
Qed.

Lemma monthStringAt_offset (offset t : Z) :
  monthStringAt offset t = monthStringAt 0 (t + offset * JsDate.msPerMinute).
Proof.
  unfold monthStringAt. cbv zeta.
  replace (t + offset * JsDate.msPerMinute + 0 * JsDate.msPerMinute)
    with (t + offset * JsDate.msPerMinute) by lia.
  reflexivity.
Qed.

End MonthLabelFacts.

Section MonthLoop.
Variable w : World.

Lemma LocalTime_UTC (x : Z) : LocalTime w (UTC w x) = x.
Proof. unfold LocalTime, UTC. lia. Qed.

(** The cursor of the loop over the months, set on the first of a
    month, prints that month and moves to the first of the next. *)
Lemma month_cursor (k : Z) :
  let cursor := UTC w (firstOfMonth k * JsDate.msPerDay) in
  monthKeyOf w cursor = monthLabel k /\
  setMonth w cursor (getMonth w cursor + 1) = UTC w (firstOfMonth (k + 1) * JsDate.msPerDay).
Proof.
  cbv zeta. destruct (MonthIndexFacts.firstOfMonth_fields k) as (Hy & Hm & Hd & Ht).
  pose proof (Z.mod_pos_bound k 12 ltac:(lia)) as Hkm.
  pose proof (Z.div_mod k 12 ltac:(lia)) as Hkd.
  split.
  - unfold monthKeyOf, getFullYear, getMonth. rewrite LocalTime_UTC, Hy, Hm. reflexivity.
  - unfold setMonth, getMonth. cbv zeta. rewrite LocalTime_UTC, Hy, Hm, Hd, Ht.
    rewrite MonthIndexFacts.MakeDay_index.
    replace (12 * (k / 12) + (k mod 12 + 1)) with (k + 1) by lia.
    unfold JsDate.MakeDate, firstOfMonth. f_equal. lia.
Qed.

Lemma fillSalesMonths_periods (m : gmap string SalesPoint) (endMonth : Z) (n : nat) :
  forall (fuel : nat) (k : Z),
    (n <= fuel)%nat ->
    (forall i, 0 <= i ->
               UTC w (firstOfMonth (k + i) * JsDate.msPerDay) <= endMonth <->
               i < Z.of_nat n) ->
    fillSalesMonths w fuel (UTC w (firstOfMonth k * JsDate.msPerDay)) endMonth m =
    map (fun i => salesPointAt m (monthLabel (k + Z.of_nat i))) (seq 0 n).
Proof.
  induction n as [|n IH]; intros fuel k Hfuel Hcond.
  - pose proof (Hcond 0 ltac:(lia)) as H0. replace (k + 0) with k in H0 by lia.
    destruct fuel as [|fuel]; [reflexivity|]. simpl.
    destruct (Z.leb_spec (UTC w (firstOfMonth k * JsDate.msPerDay)) endMonth);
      [lia | reflexivity].
  - destruct fuel as [|fuel]; [lia|].
    pose proof (Hcond 0 ltac:(lia)) as H0. replace (k + 0) with k in H0 by lia.
    destruct (month_cursor k) as [Hkey Hnext].
    cbn [fillSalesMonths].
    destruct (Z.leb_spec (UTC w (firstOfMonth k * JsDate.msPerDay)) endMonth); [|lia].
    rewrite Hkey, Hnext. rewrite (IH fuel (k + 1)); [|lia|].
    + cbn [seq map]. replace (k + Z.of_nat 0) with k by lia. f_equal.
      rewrite <- seq_shift, map_map. apply map_ext. intros i. do 2 f_equal. lia.
    + intros i Hi. specialize (Hcond (1 + i) ltac:(lia)).
      replace (k + (1 + i)) with (k + 1 + i) in Hcond by lia. lia.
Qed.

Variable tz : string.

Lemma fields_inTimezone (t : Z) :
  getFullYear w (inTimezone w tz t) =
    JsDate.YearFromTime (t + zoneOffset w tz * JsDate.msPerMinute) /\
  getMonth w (inTimezone w tz t) =
    JsDate.MonthFromTime (t + zoneOffset w tz * JsDate.msPerMinute).
Proof.
  pose proof (ZoneDayFacts.processDay_inTimezone w tz t) as H.
  unfold processDay, zoneDay in H. apply fields_by_day in H.
  unfold getFullYear, getMonth. tauto.
Qed.

(** The loop over the months of [getSalesAnalyticsByDateRange] pushes
    one point for each month of the zone between the two bounds. *)
Lemma fillSalesMonths_window (m : gmap string SalesPoint) (a b : Z) :
  100 <= JsDate.YearFromTime (a + zoneOffset w tz * JsDate.msPerMinute) ->
  100 <= JsDate.YearFromTime (b + zoneOffset w tz * JsDate.msPerMinute) ->
  let a' := inTimezone w tz a in
  let b' := inTimezone w tz b in
  let current := localDate w (getFullYear w a') (getMonth w a') 1 0 0 0 0 in
  let endMonth := localDate w (getFullYear w b') (getMonth w b' + 1) 0 23 59 59 0 in
  fillSalesMonths w (monthRounds current endMonth) current endMonth m =
  map (fun k => salesPointAt m (monthLabel k))
      (upFrom (zoneMonth w tz a) (Z.to_nat (zoneMonth w tz b - zoneMonth w tz a + 1))).
Proof.
  intros Ha Hb. cbv zeta.
  destruct (fields_inTimezone a) as [-> ->]. destruct (fields_inTimezone b) as [-> ->].
  set (ta := a + zoneOffset w tz * JsDate.msPerMinute) in *.
  set (tb := b + zoneOffset w tz * JsDate.msPerMinute) in *.
  change (zoneMonth w tz a) with (monthIndex ta).
  change (zoneMonth w tz b) with (monthIndex tb).
  assert (Hcurrent : localDate w (JsDate.YearFromTime ta) (JsDate.MonthFromTime ta) 1 0 0 0 0
                     = UTC w (firstOfMonth (monthIndex ta) * JsDate.msPerDay)).
  { unfold localDate. destruct (Z.leb_spec (JsDate.YearFromTime ta) 99); [lia|].
    rewrite andb_false_r. rewrite MonthIndexFacts.MakeDay_index.
    unfold JsDate.MakeDate, JsDate.MakeTime, firstOfMonth, monthIndex. f_equal. lia. }
  assert (Hend : localDate w (JsDate.YearFromTime tb) (JsDate.MonthFromTime tb + 1) 0 23 59 59 0
                 = UTC w ((firstOfMonth (monthIndex tb + 1) - 1) * JsDate.msPerDay + 86399000)).
  { unfold localDate. destruct (Z.leb_spec (JsDate.YearFromTime tb) 99); [lia|].
    rewrite andb_false_r. rewrite MonthIndexFacts.MakeDay_index.
    replace (12 * JsDate.YearFromTime tb + (JsDate.MonthFromTime tb + 1))
      with (monthIndex tb + 1) by (unfold monthIndex; lia).
    unfold JsDate.MakeDate, JsDate.MakeTime, firstOfMonth, JsDate.MakeDay,
      JsDate.msPerHour, JsDate.msPerMinute, JsDate.msPerSecond. f_equal. lia. }
  rewrite Hcurrent, Hend.
  set (ka := monthIndex ta). set (kb := monthIndex tb).
  set (n := Z.to_nat (kb - ka + 1)).
  assert (Hday : JsDate.msPerDay = 86400000) by reflexivity.
  rewrite (fillSalesMonths_periods m _ n).
  - unfold upFrom. rewrite map_map. reflexivity.
  - unfold monthRounds, UTC. rewrite Hday.
    destruct (Z.le_gt_cases (kb - ka + 1) 0) as [Hnone|Hsome].
    + replace n with 0%nat by lia. lia.
    + pose proof (MonthIndexFacts.firstOfMonth_gap ka n) as Hgap.
      replace (ka + Z.of_nat n) with (kb + 1) in Hgap by lia.
      assert (Z.of_nat n - 1 <=
              ((firstOfMonth (kb + 1) - 1) * 86400000 + 86399000 - LocalTZA w
               - (firstOfMonth ka * 86400000 - LocalTZA w)) / (28 * 86400000)).
      { apply Z.div_le_lower_bound; lia. }
      lia.
  - intros i Hi. unfold UTC. rewrite Hday.
    split.
    + intros Hle.
      destruct (Z.lt_ge_cases i (Z.of_nat n)) as [Hlt|Hge]; [exact Hlt|].
      pose proof (MonthIndexFacts.firstOfMonth_le (kb + 1) (ka + i) ltac:(lia)). lia.
    + intros Hlt.
      pose proof (MonthIndexFacts.firstOfMonth_lt (ka + i) (kb + 1) ltac:(lia)). lia.
Qed.

End MonthLoop.

Section MonthBuckets.
Variable w : World.
Variable tz : string.
Variable f : TxFilter.
Variables a b : Z.
Hypothesis window : f_gte f = Some a /\ f_lte f = Some b.
Hypothesis first_year : 1900 <= JsDate.YearFromTime (a + zoneOffset w tz * JsDate.msPerMinute).
Hypothesis last_year : JsDate.YearFromTime (b + zoneOffset w tz * JsDate.msPerMinute) <= 2100.

Lemma sale_zoneMonth (t : Transaction) :
  In t (matchingTransactions w f) ->
  zoneMonth w tz a <= zoneMonth w tz (created_at t) <= zoneMonth w tz b.
Proof.
  intros Hin. apply (ZoneDayFacts.sale_in_window w f a b window) in Hin.
  unfold zoneMonth. split; apply MonthIndexFacts.monthIndex_mono; lia.
Qed.

Lemma sale_year (t : Transaction) :
  In t (matchingTransactions w f) ->
  1900 <= JsDate.YearFromTime (created_at t + zoneOffset w tz * JsDate.msPerMinute) <= 2100.
Proof.
  intros Hin. apply (ZoneDayFacts.sale_in_window w f a b window) in Hin.
  unfold JsDate.YearFromTime in *.
  set (off := zoneOffset w tz * JsDate.msPerMinute) in *.
  assert (H1 : JsDate.Day (a + off) <= JsDate.Day (created_at t + off))
    by (apply ZoneDayFacts.Day_mono; lia).
  assert (H2 : JsDate.Day (created_at t + off) <= JsDate.Day (b + off))
    by (apply ZoneDayFacts.Day_mono; lia).
  apply ZoneDayFacts.YearFromDay_mono in H1, H2. lia.
Qed.

Lemma year_of_window_month (k : Z) :
  zoneMonth w tz a <= k <= zoneMonth w tz b -> 1900 <= k / 12 <= 2100.
Proof.
  unfold zoneMonth, monthIndex. intros Hk.
  pose proof (month_of_year (a + zoneOffset w tz * JsDate.msPerMinute)).
  pose proof (month_of_year (b + zoneOffset w tz * JsDate.msPerMinute)).
  Z.to_euclidean_division_equations. lia.
Qed.

(** The sales the aggregation files under the label of a month of the
    window are the sales of that month in the zone. *)
Lemma salesUnder_month (k : Z) :
  zoneMonth w tz a <= k <= zoneMonth w tz b ->
  salesUnder w f "%Y-%m" tz (monthLabel k) = salesOfMonth w f tz k.
Proof.
  intros Hk. unfold salesUnder, salesOfMonth. apply filter_ext_in. intros t Hin.
  change (dateToString "%Y-%m" (zoneOffset w tz) (created_at t))
    with (monthStringAt (zoneOffset w tz) (created_at t)).
  rewrite MonthLabelFacts.monthStringAt_offset.
  pose proof (MonthLabelFacts.monthString_label
                (created_at t + zoneOffset w tz * JsDate.msPerMinute) k
                (sale_year t Hin) (year_of_window_month k Hk)) as Hsame.
  fold (zoneMonth w tz (created_at t)) in Hsame.
  destruct (String.eqb_spec
              (monthStringAt 0 (created_at t + zoneOffset w tz * JsDate.msPerMinute))
              (monthLabel k)) as [E|E];
    destruct (Z.eqb_spec (zoneMonth w tz (created_at t)) k) as [E'|E'];
    try reflexivity; tauto.
Qed.

End MonthBuckets.



(** ** Windows counted in months *)

Section MonthWindows.
Variable w : World.

Lemma midnight_of_month (y m : Z) :
  100 <= y ->
  localDate w y m 1 0 0 0 0 = midnightOf w (firstOfMonth (12 * y + m)).
Proof.
  intros Hy. unfold localDate, midnightOf.
  destruct (Z.leb_spec y 99); [lia|]. rewrite andb_false_r.
  rewrite MonthIndexFacts.MakeDay_index.
  unfold JsDate.MakeDate, JsDate.MakeTime, firstOfMonth. f_equal. lia.
Qed.

Lemma calendarMonth_index (k : Z) :
  100 <= k / 12 ->
  calendarMonth w (k mod 12 + 1) (k / 12) =
  {| start := midnightOf w (firstOfMonth k);
     end_ := midnightOf w (firstOfMonth (k + 1)) - 1 |}.
Proof.
  intros Hy. unfold calendarMonth. cbv zeta.
  replace (k mod 12 + 1 - 1) with (k mod 12) by lia.
  rewrite (midnight_of_month _ _ Hy).
  pose proof (Z.div_mod k 12 ltac:(lia)) as Hk.
  replace (12 * (k / 12) + k mod 12) with k by lia.
  rewrite (MonthIndexFacts.firstOfMonth_succ k).
  unfold midnightOf, UTC. f_equal. lia.
Qed.

Lemma fields_at_midnight_of_month (k : Z) :
  let t := midnightOf w (firstOfMonth k) in
  getFullYear w t = k / 12 /\ getMonth w t = k mod 12 /\ getDate w t = 1 /\
  JsDate.TimeWithinDay (LocalTime w t) = 0.
Proof.
  cbv zeta. unfold getFullYear, getMonth, getDate, midnightOf.
  rewrite LocalTime_UTC. apply MonthIndexFacts.firstOfMonth_fields.
Qed.

Lemma monthlyPeriods_run (tz : string) (s : Session) :
  let k := monthIndex (LocalTime w (clockAt w (reads s))) in
  100 <= (k - 1) / 12 ->
  monthlyPeriods w tz s =
  (Ok {| currentPeriod := {| start := midnightOf w (firstOfMonth k);
                             end_ := midnightOf w (firstOfMonth (k + 1)) - 1 |};
         previousPeriod := {| start := midnightOf w (firstOfMonth (k - 1));
                              end_ := midnightOf w (firstOfMonth k) - 1 |} |},
   {| reads := S (reads s); logged := logged s; issued := issued s |}).
Proof.
  cbv zeta. set (now := clockAt w (reads s)). set (k := monthIndex (LocalTime w now)).
  intros Hk.
  pose proof (month_of_year (LocalTime w now)) as Hm.
  assert (Hy : 100 <= getFullYear w now).
  { unfold getFullYear. unfold k, monthIndex in Hk.
    Z.to_euclidean_division_equations. lia. }
  assert (Hidx : 12 * getFullYear w now + getMonth w now = k) by reflexivity.
  unfold monthlyPeriods, getThisMonthRange, bind, newDate, ret. cbn [start end_].
  fold now.
  rewrite (midnight_of_month _ _ Hy), Hidx.
  destruct (fields_at_midnight_of_month k) as (Hfy & Hfm & Hfd & Hft).
  assert (Hlast : setMonth w (midnightOf w (firstOfMonth k))
                    (getMonth w (midnightOf w (firstOfMonth k)) - 1) =
                  midnightOf w (firstOfMonth (k - 1))).
  { clear Hfy Hfm Hfd Hft.
    destruct (MonthIndexFacts.firstOfMonth_fields k) as (Hfy & Hfm & Hfd & Hft).
    unfold setMonth, getMonth, midnightOf. cbv zeta.
    rewrite !LocalTime_UTC, Hfy, Hfm, Hfd, Hft, MonthIndexFacts.MakeDay_index.
    pose proof (Z.div_mod k 12 ltac:(lia)) as Hkd.
    replace (12 * (k / 12) + (k mod 12 - 1)) with (k - 1) by lia.
    unfold JsDate.MakeDate, firstOfMonth. f_equal. lia. }
  rewrite Hlast.
  destruct (fields_at_midnight_of_month (k - 1)) as (Hpy & Hpm & _ & _).
  rewrite Hpy, Hpm, (midnight_of_month _ _ Hk).
  pose proof (Z.div_mod (k - 1) 12 ltac:(lia)) as Hkd.
  replace (12 * ((k - 1) / 12) + (k - 1) mod 12) with (k - 1) by lia.
  assert (Hend : localDate w (getFullYear w now) (getMonth w now + 1) 0 23 59 59 999 =
                 midnightOf w (firstOfMonth (k + 1)) - 1).
  { rewrite (localDate_month_end w (getFullYear w now) (getMonth w now + 1)) by
      (unfold getMonth; lia).
    replace (getMonth w now + 1 - 1) with (getMonth w now) by lia.
    rewrite (midnight_of_month _ _ Hy), Hidx, (MonthIndexFacts.firstOfMonth_succ k).
    replace (k mod 12) with (getMonth w now)
      by (unfold getMonth in *; Z.to_euclidean_division_equations; lia).
    replace (k / 12) with (getFullYear w now)
      by (unfold getMonth in *; Z.to_euclidean_division_equations; lia).
    unfold midnightOf, UTC. lia. }
  rewrite Hend. reflexivity.
Qed.

End MonthWindows.

(** X21.  Without a filter both comparisons are made between calendar
    months in the zone of the process: the current period is the whole
    month the clock is in, up to its last millisecond and so with the
    days still to come, and the previous period is the whole month
    before, December of the year before for January; the two months are
    adjacent. *)
Theorem monthlyPeriods_calendar_months :
  forall (w : World) (tz : string) (s : Session),
    let now := clockAt w (reads s) in
    let y := getFullYear w now in
    let m := getMonth w now in
    101 <= y ->
    exists p s',
      growthPeriods w None tz s = (Ok p, s') /\
      previousPeriods w None tz s = (Ok p, s') /\
      currentPeriod p = calendarMonth w (m + 1) y /\
      previousPeriod p =
        (if m =? 0 then calendarMonth w 12 (y - 1) else calendarMonth w m y) /\
      end_ (previousPeriod p) + 1 = start (currentPeriod p) /\
      start (currentPeriod p) <= now <= end_ (currentPeriod p).
Proof.
  intros w tz s now y m Hy.
  pose proof (month_of_year (LocalTime w now)) as Hm. fold (getMonth w now) in Hm. fold m in Hm.
  set (k := monthIndex (LocalTime w now)).
  assert (Hidx : k = 12 * y + m) by reflexivity.
  assert (Hk : k / 12 = y /\ k mod 12 = m)
    by (Z.to_euclidean_division_equations; lia).
  assert (Hp : (k - 1) / 12 = (if m =? 0 then y - 1 else y) /\
               (k - 1) mod 12 + 1 = (if m =? 0 then 12 else m)).
  { destruct (Z.eqb_spec m 0); Z.to_euclidean_division_equations; lia. }
  destruct Hk as [Hky Hkm]. destruct Hp as [Hpy Hpm].
  assert (Hprev : 100 <= (k - 1) / 12) by (rewrite Hpy; destruct (m =? 0); lia).
  pose proof (monthlyPeriods_run w tz s Hprev) as Hrun. fold now in Hrun. fold k in Hrun.
  eexists _, _. split; [exact Hrun|]. split; [exact Hrun|].
  cbn [currentPeriod previousPeriod start end_].
  split; [|split; [|split]].
  - rewrite <- Hky, <- Hkm. symmetry. apply calendarMonth_index. lia.
  - pose proof (calendarMonth_index w (k - 1) Hprev) as Hc.
    replace (k - 1 + 1) with k in Hc by lia.
    rewrite Hpy, Hpm in Hc. destruct (m =? 0); symmetry; exact Hc.
  - lia.
  - destruct (MonthIndexFacts.month_holds_day (LocalTime w now)) as [_ Hday].
    fold k in Hday.
    pose proof (CalendarFacts.day_split (LocalTime w now)) as Hsplit.
    assert (0 <= JsDate.TimeWithinDay (LocalTime w now) < JsDate.msPerDay)
      by (unfold JsDate.TimeWithinDay, JsDate.msPerDay; apply Z.mod_pos_bound; lia).
    assert (HD : JsDate.msPerDay = 86400000) by reflexivity.
    unfold midnightOf, UTC, LocalTime in *. nia.
Qed.

Lemma monthlyPeriods_calendar_months_witness :
  exists p s',
    growthPeriods Sample.world None "Europe/Nicosia" freshSession = (Ok p, s') /\
    currentPeriod p = calendarMonth Sample.world 1 2025 /\
    previousPeriod p = calendarMonth Sample.world 12 2024.
Proof.
  destruct (monthlyPeriods_calendar_months Sample.world "Europe/Nicosia" freshSession)
    as (p & s' & Hrun & _ & Hcurrent & Hprevious & _).
  - vm_compute. discriminate.
  - exists p, s'. split; [exact Hrun|]. split; [exact Hcurrent | exact Hprevious].
Defined.

Section ChartWindow.
Variable w : World.
Variable tz : string.

Lemma time_within_day (t : Z) : 0 <= JsDate.TimeWithinDay t < JsDate.msPerDay.
Proof. unfold JsDate.TimeWithinDay, JsDate.msPerDay. apply Z.mod_pos_bound. lia. Qed.

Lemma Day_MakeDate (d t : Z) :
  JsDate.Day (JsDate.MakeDate d (JsDate.TimeWithinDay t)) = d.
Proof. unfold JsDate.MakeDate. apply ZoneDayFacts.Day_of_day, time_within_day. Qed.

Lemma setHours_day (t h mi sec ms : Z) :
  setHours w t h mi sec ms =
  midnightOf w (processDay w t) + JsDate.MakeTime h mi sec ms.
Proof. unfold setHours, midnightOf, processDay, UTC, JsDate.MakeDate. cbv zeta. lia. Qed.

Lemma setDate_first (t : Z) :
  processDay w (setDate w t 1) = firstOfMonth (monthIndex (LocalTime w t)).
Proof.
  unfold processDay, setDate. cbv zeta. rewrite LocalTime_UTC, Day_MakeDate.
  rewrite MonthIndexFacts.MakeDay_index. reflexivity.
Qed.

(** Twelve months back from a day of a month: the same month of the
    year before, or the month after it when that month is too short
    for the day, as March for the 29th of February. *)
Lemma setMonth_back_a_year (t : Z) :
  let k := monthIndex (LocalTime w t) in
  monthIndex (LocalTime w (setMonth w t (getMonth w t - 12))) =
  (if getDate w t <=? monthLength (k mod 12 + 1) (k / 12 - 1) then k - 12 else k - 11).
Proof.
  cbv zeta. set (lt := LocalTime w t). set (k := monthIndex lt).
  apply MonthIndexFacts.monthIndex_of_day.
  unfold setMonth, getMonth. cbv zeta. fold lt. rewrite LocalTime_UTC, Day_MakeDate.
  rewrite MonthIndexFacts.MakeDay_index.
  replace (12 * JsDate.YearFromTime lt + (JsDate.MonthFromTime lt - 12))
    with (k - 12) by (unfold k, monthIndex; lia).
  assert (Hday : JsDate.MakeDay 0 (k - 12) (JsDate.DateFromTime lt) =
                 firstOfMonth (k - 12) + JsDate.DateFromTime lt - 1)
    by (unfold firstOfMonth, JsDate.MakeDay; lia).
  rewrite Hday. unfold getDate. fold lt.
  pose proof (date_of_month lt) as Hd.
  pose proof (MonthIndexFacts.firstOfMonth_succ (k - 12)) as Hs1.
  replace (k - 12 + 1) with (k - 11) in Hs1 by lia.
  replace ((k - 12) mod 12) with (k mod 12) in Hs1
    by (Z.to_euclidean_division_equations; lia).
  replace ((k - 12) / 12) with (k / 12 - 1) in Hs1
    by (Z.to_euclidean_division_equations; lia).
  pose proof (MonthIndexFacts.firstOfMonth_succ (k - 11)) as Hs2.
  pose proof (MonthIndexFacts.monthLength_bounds (k mod 12 + 1) (k / 12 - 1)) as Hl1.
  pose proof (MonthIndexFacts.monthLength_bounds ((k - 11) mod 12 + 1) ((k - 11) / 12)) as Hl2.
  destruct (Z.leb_spec (JsDate.DateFromTime lt) (monthLength (k mod 12 + 1) (k / 12 - 1))).
  - replace (k - 12 + 1) with (k - 11) by lia. lia.
  - lia.
Qed.

Lemma fields_of_inTimezone (t : Z) :
  monthIndex (LocalTime w (inTimezone w tz t)) = zoneMonth w tz t /\
  getDate w (inTimezone w tz t) =
    JsDate.DateFromTime (t + zoneOffset w tz * JsDate.msPerMinute).
Proof.
  pose proof (ZoneDayFacts.processDay_inTimezone w tz t) as H.
  unfold processDay, zoneDay in H. apply fields_by_day in H.
  destruct H as (Hy & Hm & Hd).
  unfold zoneMonth, monthIndex, getDate. rewrite Hy, Hm, Hd. split; reflexivity.
Qed.

Lemma chart_window (now : Z) :
  let nowInTimezone := inTimezone w tz now in
  let wall := now + zoneOffset w tz * JsDate.msPerMinute in
  let k := monthIndex wall in
  setHours w (setDate w (setMonth w nowInTimezone (getMonth w nowInTimezone - 12)) 1)
           0 0 0 0 =
    midnightOf w (firstOfMonth
                    (if JsDate.DateFromTime wall <=? monthLength (k mod 12 + 1) (k / 12 - 1)
                     then k - 12 else k - 11)) /\
  setHours w nowInTimezone 23 59 59 999 =
    midnightOf w (JsDate.Day wall) + (JsDate.msPerDay - 1).
Proof.
  cbv zeta. rewrite !setHours_day. split.
  - rewrite setDate_first, setMonth_back_a_year.
    destruct (fields_of_inTimezone now) as [-> ->].
    unfold JsDate.MakeTime. unfold zoneMonth. lia.
  - rewrite ZoneDayFacts.processDay_inTimezone. unfold zoneDay. f_equal.
Qed.

End ChartWindow.

(** X22.  The chart of the sales by month never throws and asks for one
    window whatever the date filters are: from the local midnight of the
    first day of the month twelve months before the month of the clock
    in the zone of the store (of the month after that one when the day
    of the clock does not exist in it, as on the 29th of February) to the
    last millisecond of the day of the clock; of the filters only the
    status, the payment method and the order source are passed on. *)
Theorem getSalesByMonth_window :
  forall (w : World) (storeId : option string) (filters : option DashboardFilters)
         (s : Session),
    let tz := getStoreTimezone storeId in
    let wall := clockAt w (reads s) + zoneOffset w tz * JsDate.msPerMinute in
    let k := monthIndex wall in
    let first :=
      if JsDate.DateFromTime wall <=? monthLength (k mod 12 + 1) (k / 12 - 1)
      then k - 12 else k - 11 in
    let f := within (baseFilterOf storeId filters (StatusIn DEFAULT_STATUSES))
                    (Some (midnightOf w (firstOfMonth first)))
                    (Some (midnightOf w (JsDate.Day wall) + (JsDate.msPerDay - 1))) in
    exists l s',
      getSalesByMonth w storeId filters s = (Ok l, s') /\
      issued s' = QTransactions f TxByMonthSplit :: issued s /\
      l = (if storeFails w (QTransactions f TxByMonthSplit) then []
           else salesByMonthOf w f tz).
Proof.
  intros w storeId filters s tz wall k first f.
  destruct (chart_window w tz (clockAt w (reads s))) as [Hstart Hend].
  fold wall in Hstart, Hend. fold k in Hstart. fold first in Hstart.
  unfold getSalesByMonth, tryCatch, bind, newDate. fold tz.
  rewrite Hstart, Hend. fold f.
  unfold request. cbn [reads logged issued].
  destruct (storeFails w (QTransactions f TxByMonthSplit)).
  - eexists _, _. split; [reflexivity|]. split; reflexivity.
  - eexists _, _. split; [reflexivity|]. split; reflexivity.
Qed.

(** ** Sales analytics of a period token *)

Lemma newDate_then {A : Type} (w : World) (g : Z -> A) (s s' : Session) (a : A) :
  bind (newDate w) (fun d => ret (g d)) s = (Ok a, s') -> a = g (clockAt w (reads s)).
Proof. unfold bind, newDate, ret. intros H. injection H as <- _. reflexivity. Qed.

Lemma setDate_back (w : World) (t k : Z) :
  setDate w t (getDate w t - k) = t - k * JsDate.msPerDay.
Proof.
  replace (getDate w t - k) with (getDate w t + - k) by lia.
  rewrite setDate_shift. lia.
Qed.

Lemma reduce_amounts (l : list Transaction) (a : Q) :
  (fold_left (fun sum t => sum + amountOf t) l a == a + sumQ (map amountOf l))%Q.
Proof.
  revert a. induction l as [|t l IH]; intros a; simpl; [ring|].
  rewrite IH. ring.
Qed.


